(** * Health Tracker: the web client and the store it talks to

    A shallow embedding of the health-tracker front end
    ([frontend/src/api/client.js] and the pages under [frontend/src/pages])
    together with a model of the REST back end the client calls.

    - [Js]: the JavaScript values the client handles (scalars, objects used
      as maps, [||], [!], default parameters).
    - [Http]: axios requests, responses and errors.
    - [Client]: [api/client.js], one definition per exported function.
    - [Fx]: a small state-and-exception monad for the event handlers
      ([async]/[await], [try]/[catch]/[finally], React Query's [mutate]).
    - [Backend]: the store and its request handlers.
    - [Pages]: the handlers and derived values of the pages. *)

From Stdlib Require Import ZArith QArith Qround Lia Ascii.
From stdpp Require Import base gmap strings list pretty.

Open Scope string_scope.
Open Scope Z_scope.

(** ** JavaScript values *)

Module Js.

(** Scalars that travel in request bodies, query parameters and form
    state.  Numbers that appear there are integers (ids, counts). *)
Inductive value : Type :=
| Undefined
| Null
| Bool (b : bool)
| Num (n : Z)
| Str (s : string).

#[global] Instance value_eq_dec : EqDecision value.
Proof. solve_decision. Defined.

(** [ToBoolean]: [undefined], [null], [false], [0] and [''] are falsy. *)
Definition truthy (v : value) : bool :=
  match v with
  | Undefined | Null => false
  | Bool b => b
  | Num n => negb (n =? 0)
  | Str s => negb (String.eqb s "")
  end.

(** [a || b] *)
Definition or_else (a b : value) : value := if truthy a then a else b.

(** [!a] *)
Definition falsy (a : value) : bool := negb (truthy a).

(** A default parameter [(x = d) => ...]: the default applies exactly
    when the argument is [undefined]. *)
Definition default_param (arg d : value) : value :=
  match arg with Undefined => d | _ => arg end.

(** [o.k] on an object: a missing key reads as [undefined]. *)
Definition prop (o : gmap string value) (k : string) : value :=
  match o !! k with Some v => v | None => Undefined end.

End Js.

(** ** HTTP through axios *)

Module Http.
Import Js.

Inductive Method : Type := GET | POST | PUT | DELETE.

#[global] Instance Method_eq_dec : EqDecision Method.
Proof. solve_decision. Defined.

(** Every URL of [client.js] is a literal, or a literal followed by one
    interpolated value ([`/food/${id}`], [`/notes/${date}`]). *)
Record Url : Type := mkUrl { base : string; arg : option value }.

Record Request : Type := mkRequest {
  method : Method;
  url : Url;
  params : gmap string value;
  body : option (gmap string value)
}.

#[global] Instance Url_eq_dec : EqDecision Url.
Proof. solve_decision. Defined.

#[global] Instance Request_eq_dec : EqDecision Request.
Proof. solve_decision. Defined.

Definition lit (s : string) : Url := mkUrl s None.
Definition tpl (s : string) (v : value) : Url := mkUrl s (Some v).

End Http.

(** ** [frontend/src/api/client.js] *)

Module Client.
Import Js Http.

(** [apiClient.get/post/put/delete] *)
Definition apiClient_get (u : Url) (ps : gmap string value) : Request :=
  mkRequest GET u ps None.
Definition apiClient_post (u : Url) (data : gmap string value) : Request :=
  mkRequest POST u ∅ (Some data).
Definition apiClient_put (u : Url) (data : gmap string value) : Request :=
  mkRequest PUT u ∅ (Some data).
Definition apiClient_delete (u : Url) : Request :=
  mkRequest DELETE u ∅ None.

Definition range (startDate endDate : value) : gmap string value :=
  {[ "start_date" := startDate; "end_date" := endDate ]}.

(* User *)
Definition getUser : Request := apiClient_get (lit "/user/me") ∅.
Definition updateUser (data : gmap string value) : Request :=
  apiClient_put (lit "/user/me") data.
Definition checkGarminConfigured : Request :=
  apiClient_get (lit "/user/garmin-configured") ∅.

(* Garmin *)
Definition syncGarminData (date force : value) : Request :=
  let date := default_param date Null in
  let force := default_param force (Bool false) in
  apiClient_post (lit "/garmin/sync") {[ "date" := date; "force" := force ]}.
Definition getGarminData (startDate endDate : value) : Request :=
  apiClient_get (lit "/garmin/data") (range startDate endDate).
Definition getActivities (startDate endDate : value) : Request :=
  apiClient_get (lit "/garmin/activities") (range startDate endDate).

(* Food *)
Definition createFoodEntry (data : gmap string value) : Request :=
  apiClient_post (lit "/food/") data.
Definition getFoodEntries (startDate endDate mealType : value) : Request :=
  let mealType := default_param mealType Null in
  apiClient_get (lit "/food/") (<[ "meal_type" := mealType ]> (range startDate endDate)).
Definition updateFoodEntry (id : value) (data : gmap string value) : Request :=
  apiClient_put (tpl "/food/" id) data.
Definition deleteFoodEntry (id : value) : Request :=
  apiClient_delete (tpl "/food/" id).

(* Medications *)
Definition createMedication (data : gmap string value) : Request :=
  apiClient_post (lit "/medications/") data.
Definition getMedications (startDate endDate : value) : Request :=
  apiClient_get (lit "/medications/") (range startDate endDate).
Definition updateMedication (id : value) (data : gmap string value) : Request :=
  apiClient_put (tpl "/medications/" id) data.
Definition deleteMedication (id : value) : Request :=
  apiClient_delete (tpl "/medications/" id).

(* Medication Schedules *)
Definition createMedicationSchedule (data : gmap string value) : Request :=
  apiClient_post (lit "/medications/schedules") data.
Definition getMedicationSchedules (activeOnly : value) : Request :=
  let activeOnly := default_param activeOnly (Bool true) in
  apiClient_get (lit "/medications/schedules") {[ "active_only" := activeOnly ]}.
Definition getMedicationSchedule (id : value) : Request :=
  apiClient_get (tpl "/medications/schedules/" id) ∅.
Definition updateMedicationSchedule (id : value) (data : gmap string value)
  : Request :=
  apiClient_put (tpl "/medications/schedules/" id) data.
Definition deleteMedicationSchedule (id : value) : Request :=
  apiClient_delete (tpl "/medications/schedules/" id).

(* Sickness *)
Definition createSicknessEntry (data : gmap string value) : Request :=
  apiClient_post (lit "/sickness/") data.
Definition getSicknessEntries (startDate endDate : value) : Request :=
  apiClient_get (lit "/sickness/") (range startDate endDate).
Definition updateSicknessEntry (id : value) (data : gmap string value)
  : Request :=
  apiClient_put (tpl "/sickness/" id) data.
Definition deleteSicknessEntry (id : value) : Request :=
  apiClient_delete (tpl "/sickness/" id).

(* Seizures *)
Definition createSeizure (data : gmap string value) : Request :=
  apiClient_post (lit "/seizures/") data.
Definition getSeizures (startDate endDate : value) : Request :=
  apiClient_get (lit "/seizures/") (range startDate endDate).
Definition updateSeizure (id : value) (data : gmap string value) : Request :=
  apiClient_put (tpl "/seizures/" id) data.
Definition deleteSeizure (id : value) : Request :=
  apiClient_delete (tpl "/seizures/" id).

(* Notes *)
Definition createDailyNote (data : gmap string value) : Request :=
  apiClient_post (lit "/notes/") data.
Definition getDailyNotes (startDate endDate : value) : Request :=
  apiClient_get (lit "/notes/") (range startDate endDate).
Definition getDailyNoteByDate (date : value) : Request :=
  apiClient_get (tpl "/notes/" date) ∅.
Definition updateDailyNote (date : value) (data : gmap string value)
  : Request :=
  apiClient_put (tpl "/notes/" date) data.
Definition deleteDailyNote (date : value) : Request :=
  apiClient_delete (tpl "/notes/" date).

(* Water *)
Definition createWaterIntake (data : gmap string value) : Request :=
  apiClient_post (lit "/water/") data.
Definition getWaterIntake (startDate endDate : value) : Request :=
  apiClient_get (lit "/water/") (range startDate endDate).
Definition getDailyWaterTotal (date : value) : Request :=
  apiClient_get (tpl "/water/daily-total/" date) ∅.
Definition deleteWaterIntake (id : value) : Request :=
  apiClient_delete (tpl "/water/" id).

(* Dashboard *)
Definition getDailySummary (date : value) : Request :=
  apiClient_get (tpl "/dashboard/daily/" date) ∅.
Definition getTodaySummary : Request := apiClient_get (lit "/dashboard/today") ∅.
Definition getDateRangeSummary (startDate endDate : value) : Request :=
  apiClient_get (lit "/dashboard/range") (range startDate endDate).

(* Export *)
Definition exportData (data : gmap string value) : Request :=
  apiClient_post (lit "/export/") data.
Definition getAIAnalysisPrompt (startDate endDate : value) : Request :=
  apiClient_get (lit "/export/ai-prompt") (range startDate endDate).
Definition getAnalysisSummary (startDate endDate : value) : Request :=
  apiClient_get (lit "/export/summary") (range startDate endDate).

(** The named exports of the module, in source order, each with the
    request it builds when called without arguments (every parameter
    [undefined], an object parameter empty). *)
Definition exports : list (string * Request) :=
  let u := Undefined in
  [ ("getUser", getUser);
    ("updateUser", updateUser ∅);
    ("checkGarminConfigured", checkGarminConfigured);
    ("syncGarminData", syncGarminData u u);
    ("getGarminData", getGarminData u u);
    ("getActivities", getActivities u u);
    ("createFoodEntry", createFoodEntry ∅);
    ("getFoodEntries", getFoodEntries u u u);
    ("updateFoodEntry", updateFoodEntry u ∅);
    ("deleteFoodEntry", deleteFoodEntry u);
    ("createMedication", createMedication ∅);
    ("getMedications", getMedications u u);
    ("updateMedication", updateMedication u ∅);
    ("deleteMedication", deleteMedication u);
    ("createMedicationSchedule", createMedicationSchedule ∅);
    ("getMedicationSchedules", getMedicationSchedules u);
    ("getMedicationSchedule", getMedicationSchedule u);
    ("updateMedicationSchedule", updateMedicationSchedule u ∅);
    ("deleteMedicationSchedule", deleteMedicationSchedule u);
    ("createSicknessEntry", createSicknessEntry ∅);
    ("getSicknessEntries", getSicknessEntries u u);
    ("updateSicknessEntry", updateSicknessEntry u ∅);
    ("deleteSicknessEntry", deleteSicknessEntry u);
    ("createSeizure", createSeizure ∅);
    ("getSeizures", getSeizures u u);
    ("updateSeizure", updateSeizure u ∅);
    ("deleteSeizure", deleteSeizure u);
    ("createDailyNote", createDailyNote ∅);
    ("getDailyNotes", getDailyNotes u u);
    ("getDailyNoteByDate", getDailyNoteByDate u);
    ("updateDailyNote", updateDailyNote u ∅);
    ("deleteDailyNote", deleteDailyNote u);
    ("createWaterIntake", createWaterIntake ∅);
    ("getWaterIntake", getWaterIntake u u);
    ("getDailyWaterTotal", getDailyWaterTotal u);
    ("deleteWaterIntake", deleteWaterIntake u);
    ("getDailySummary", getDailySummary u);
    ("getTodaySummary", getTodaySummary);
    ("getDateRangeSummary", getDateRangeSummary u u);
    ("exportData", exportData ∅);
    ("getAIAnalysisPrompt", getAIAnalysisPrompt u u);
    ("getAnalysisSummary", getAnalysisSummary u u) ].

(** The log entities of the data model and the four CRUD operations. *)
Inductive Entity : Type :=
| FoodEntry | Medication | MedicationSchedule | SicknessEntry
| Seizure | HealthEvent | DailyNote | WaterIntake.

Inductive Op : Type := Create | Read | Update | Delete.


Definition ops : list Op := [Create; Read; Update; Delete].

Definition op_method (o : Op) : Method :=
  match o with Create => POST | Read => GET | Update => PUT | Delete => DELETE end.

(** The collection route of an entity, as the sections of [client.js]
    give it; the module has no section for health events. *)
Definition route (e : Entity) : option string :=
  match e with
  | FoodEntry => Some "/food/"
  | Medication => Some "/medications/"
  | MedicationSchedule => Some "/medications/schedules"
  | SicknessEntry => Some "/sickness/"
  | Seizure => Some "/seizures/"
  | DailyNote => Some "/notes/"
  | WaterIntake => Some "/water/"
  | HealthEvent => None
  end.

(** The name under which the pages import an operation:
    [create<E>], [get<E>s], [update<E>], [delete<E>]
    ([HealthEvents.jsx] imports the four [HealthEvent] names,
    [Seizures.jsx] the four [Seizure] names, and so on). *)
Definition crud_name (e : Entity) (o : Op) : string :=
  match e, o with
  | FoodEntry, Create => "createFoodEntry"
  | FoodEntry, Read => "getFoodEntries"
  | FoodEntry, Update => "updateFoodEntry"
  | FoodEntry, Delete => "deleteFoodEntry"
  | Medication, Create => "createMedication"
  | Medication, Read => "getMedications"
  | Medication, Update => "updateMedication"
  | Medication, Delete => "deleteMedication"
  | MedicationSchedule, Create => "createMedicationSchedule"
  | MedicationSchedule, Read => "getMedicationSchedules"
  | MedicationSchedule, Update => "updateMedicationSchedule"
  | MedicationSchedule, Delete => "deleteMedicationSchedule"
  | SicknessEntry, Create => "createSicknessEntry"
  | SicknessEntry, Read => "getSicknessEntries"
  | SicknessEntry, Update => "updateSicknessEntry"
  | SicknessEntry, Delete => "deleteSicknessEntry"
  | Seizure, Create => "createSeizure"
  | Seizure, Read => "getSeizures"
  | Seizure, Update => "updateSeizure"
  | Seizure, Delete => "deleteSeizure"
  | HealthEvent, Create => "createHealthEvent"
  | HealthEvent, Read => "getHealthEvents"
  | HealthEvent, Update => "updateHealthEvent"
  | HealthEvent, Delete => "deleteHealthEvent"
  | DailyNote, Create => "createDailyNote"
  | DailyNote, Read => "getDailyNotes"
  | DailyNote, Update => "updateDailyNote"
  | DailyNote, Delete => "deleteDailyNote"
  | WaterIntake, Create => "createWaterIntake"
  | WaterIntake, Read => "getWaterIntake"
  | WaterIntake, Update => "updateWaterIntake"
  | WaterIntake, Delete => "deleteWaterIntake"
  end.

Definition exported (name : string) : bool :=
  existsb (fun x => String.eqb (fst x) name) exports.

(** An operation on an entity is provided when the module exports the
    function of that name and the function issues the operation's HTTP
    method. *)
Definition provides (e : Entity) (o : Op) : bool :=
  existsb (fun x => String.eqb (fst x) (crud_name e o)
                    && bool_decide (method (snd x) = op_method o))
          exports.

(** Independently of names: some export issues the operation's method
    on a URL under the entity's route. *)
Definition serves (e : Entity) (o : Op) : bool :=
  match route e with
  | None => false
  | Some r =>
      existsb (fun x => bool_decide (method (snd x) = op_method o)
                        && String.prefix r (base (url (snd x))))
              exports
  end.

End Client.

(** ** The data the client and the store exchange *)

Module Model.
Import Js.

(** One day of Garmin metrics, with the fields the pages read
    ([GarminData.jsx], [Dashboard.jsx]).  A metric that Garmin did not
    report is [null]. *)
Record GarminDailyMetric : Type := mkGarmin {
  date : string;
  steps : option Z;
  resting_heart_rate : option Z;
  avg_heart_rate : option Z;
  max_heart_rate : option Z;
  sleep_duration_seconds : option Z;
  deep_sleep_seconds : option Z;
  light_sleep_seconds : option Z;
  rem_sleep_seconds : option Z;
  awake_seconds : option Z;
  avg_stress_level : option Z;
  body_battery_highest : option Z;
  body_battery_lowest : option Z
}.

#[global] Instance GarminDailyMetric_eq_dec : EqDecision GarminDailyMetric.
Proof. solve_decision. Defined.

Definition with_date (D : string) (m : GarminDailyMetric) : GarminDailyMetric :=
  mkGarmin D (steps m) (resting_heart_rate m) (avg_heart_rate m)
    (max_heart_rate m) (sleep_duration_seconds m) (deep_sleep_seconds m)
    (light_sleep_seconds m) (rem_sleep_seconds m) (awake_seconds m)
    (avg_stress_level m) (body_battery_highest m) (body_battery_lowest m).

(** A row of one of the logs: a numeric id, the calendar date it is
    logged for, and its fields. *)
Record Row : Type := mkRow {
  id : Z;
  rdate : string;
  fields : gmap string value
}.

#[global] Instance Row_eq_dec : EqDecision Row.
Proof. solve_decision. Defined.

(** A Garmin workout session, foreign-keyed to its date. *)
Record Activity : Type := mkActivity {
  activity_id : Z;
  activity_date : string;
  activity_fields : gmap string value
}.

#[global] Instance Activity_eq_dec : EqDecision Activity.
Proof. solve_decision. Defined.

(** The daily summary as [Dashboard.jsx] reads it. *)
Record DailySummary : Type := mkSummary {
  garmin_data : option GarminDailyMetric;
  food_entries : list Row;
  medication_count : Z;
  total_water_ml : Z;
  seizures : list Row;
  activities : list Activity
}.

#[global] Instance DailySummary_eq_dec : EqDecision DailySummary.
Proof. solve_decision. Defined.

End Model.

(** ** Responses and errors *)

Module Wire.
Import Js Http Model.

(** [response.data], by shape. *)
Inductive Data : Type :=
| NoData                                   (* null *)
| JsonObj (o : gmap string value)
| GarminRows (l : list GarminDailyMetric)
| Rows (l : list Row)
| OneRow (r : Row)
| Summary (s : DailySummary).

#[global] Instance Data_eq_dec : EqDecision Data.
Proof. solve_decision. Defined.

Record Response : Type := mkResponse { status : Z; data : Data }.

#[global] Instance Response_eq_dec : EqDecision Response.
Proof. solve_decision. Defined.

(** What a rejected promise carries: an axios error has [response]
    when the server answered and none on a network error; a
    [TypeError] has no [response] at all. *)
Record Error : Type := mkError {
  response : option Response;
  message : string
}.

#[global] Instance Error_eq_dec : EqDecision Error.
Proof. solve_decision. Defined.

(** [d.k] for [d = response.data]: [None] is the [TypeError] of reading
    a property of [null]. *)
Definition data_prop (d : Data) (k : string) : option value :=
  match d with
  | NoData => None
  | JsonObj o => Some (prop o k)
  | _ => Some Undefined
  end.

(** [error.response?.data?.detail] *)
Definition detail (e : Error) : value :=
  match response e with
  | None => Undefined
  | Some r =>
      match data r with
      | JsonObj o => prop o "detail"
      | _ => Undefined
      end
  end.

(** axios resolves on a 2xx status ([validateStatus]) and rejects
    otherwise. *)
Definition ok_status (s : Z) : bool := (200 <=? s) && (s <? 300).

End Wire.

(** ** Effects of the event handlers *)

Module Fx.
Import Js Http Wire.

Record Message : Type := mkMessage { mtype : string; text : value }.

#[global] Instance Message_eq_dec : EqDecision Message.
Proof. solve_decision. Defined.

(** What [console.error] is given after its label. *)
Inductive Logged : Type :=
| LogData (d : Data)
| LogText (s : string)
| LogError (e : Error).

#[global] Instance Logged_eq_dec : EqDecision Logged.
Proof. solve_decision. Defined.

(** Everything a handler does that is visible outside it, in order. *)
Inductive Event : Type :=
| Sent (r : Request)
| ConsoleError (label : string) (what : Logged)
| Alert (msg : string)
| PreventDefault
| SetSyncing (b : bool)
| SetSyncMessage (m : option Message)
| ClearSyncMessageAfter (ms : Z)     (* setTimeout(() => setSyncMessage(null), ms) *)
| ResetPassword                      (* setFormData({...formData, garmin_password: ''}) *)
| InvalidateQueries (key : string)
| QuerySettled (key : string) (d : option Data).

#[global] Instance Event_eq_dec : EqDecision Event.
Proof. solve_decision. Defined.

Inductive Completion (A : Type) : Type :=
| Normal (a : A)
| Throw (e : Error).
Arguments Normal {A} a.
Arguments Throw {A} e.

Section WithServer.
(** The server: its state and how it answers a request; [None] is a
    request that gets no response (network error). *)
Context {S : Type}.
Variable respond : Request -> S -> option Response * S.

Record World : Type := mkWorld { server : S; trace : list Event }.

Definition M (A : Type) : Type := World -> Completion A * World.

Definition ret {A} (a : A) : M A := fun w => (Normal a, w).

Definition bind {A B} (m : M A) (k : A -> M B) : M B :=
  fun w =>
    match m w with
    | (Normal a, w') => k a w'
    | (Throw e, w') => (Throw e, w')
    end.

Definition throw {A} (e : Error) : M A := fun w => (Throw e, w).

Definition emit (ev : Event) : M unit :=
  fun w => (Normal tt, mkWorld (server w) (trace w ++ [ev])).

(** [try { m } catch (e) { h e }] *)
Definition try_catch {A} (m : M A) (h : Error -> M A) : M A :=
  fun w =>
    match m w with
    | (Normal a, w') => (Normal a, w')
    | (Throw e, w') => h e w'
    end.

(** [try { m } finally { f }] *)
Definition finally {A} (m : M A) (f : M unit) : M A :=
  fun w =>
    match m w with
    | (c, w') =>
        match f w' with
        | (Normal _, w'') => (c, w'')
        | (Throw e, w'') => (Throw e, w'')
        end
    end.

(** [p.catch(noop)] *)
Definition swallow (m : M unit) : M unit :=
  try_catch m (fun _ => ret tt).

(** The response interceptor of [client.js]:
    [console.error('API Error:', error.response?.data || error.message)]
    and the error is rejected again.  [response.data] is an object, or
    [null] which is falsy. *)
Definition interceptor {A} (e : Error) : M A :=
  let what :=
    match response e with
    | Some (mkResponse _ NoData) | None => LogText (message e)
    | Some (mkResponse _ d) => LogData d
    end in
  bind (emit (ConsoleError "API Error:" what)) (fun _ => throw e).

(** The message of an axios error for a status outside 2xx. *)
Definition status_message (st : Z) : string :=
  "Request failed with status code " +:+ pretty st.

(** One call of [apiClient]: the request goes out once, the promise
    resolves with a 2xx response and is rejected, through the
    interceptor, otherwise. *)
Definition request (r : Request) : M Response :=
  fun w =>
    let '(o, s') := respond r (server w) in
    let w' := mkWorld s' (trace w ++ [Sent r]) in
    match o with
    | Some resp =>
        if ok_status (status resp) then (Normal resp, w')
        else interceptor (mkError (Some resp) (status_message (status resp))) w'
    | None => interceptor (mkError None "Network Error") w'
    end.

(** React Query runs a function again after a failure, [n] more
    times at most. *)
Fixpoint retrying {A} (n : nat) (fn : M A) : M A :=
  match n with
  | O => fn
  | Datatypes.S k => try_catch fn (fun _ => retrying k fn)
  end.

Record MutationOptions (V A : Type) : Type := mkMutation {
  mutationFn : V -> M A;
  onSuccess : A -> M unit;
  onError : Error -> M unit;
  retry : nat
}.
Arguments mutationFn {V A} _.
Arguments onSuccess {V A} _.
Arguments onError {V A} _.
Arguments retry {V A} _.

(** [useMutation(options).mutate(variables)]: the function runs, then
    [onSuccess] with its result; a rejection of either goes to
    [onError]; nothing is thrown to the caller. *)
Definition mutate {V A} (o : MutationOptions V A) (variables : V) : M unit :=
  swallow
    (try_catch
       (bind (retrying (retry o) (mutationFn o variables)) (onSuccess o))
       (onError o)).

(** [refetch()] of a query: the query function runs (again after a
    failure, [n] more times at most), the outcome is recorded and
    nothing is thrown. *)
Definition refetch (key : string) (n : nat) (queryFn : M Data) : M unit :=
  try_catch
    (bind (retrying n queryFn) (fun d => emit (QuerySettled key (Some d))))
    (fun _ => emit (QuerySettled key None)).

End WithServer.

Arguments World : clear implicits.
Arguments M : clear implicits.
Arguments MutationOptions : clear implicits.
Arguments mkWorld {S} _ _.
Arguments mkMutation {S V A} _ _ _ _.
Arguments mutationFn {S V A} _.
Arguments onSuccess {S V A} _.
Arguments onError {S V A} _.
Arguments retry {S V A} _.

Notation "x <- m ;; k" := (bind m (fun x => k))
  (at level 90, m at level 89, right associativity).
Notation "m ;;; k" := (bind m (fun _ => k))
  (at level 90, right associativity).

(** The sync message the page shows: the last one set. *)
Fixpoint shown_message (t : list Event) (cur : option Message) : option Message :=
  match t with
  | [] => cur
  | SetSyncMessage m :: t' => shown_message t' m
  | _ :: t' => shown_message t' cur
  end.

Definition is_sync_request (r : Request) : bool :=
  bool_decide (method r = POST) && String.eqb (base (url r)) "/garmin/sync".

(** A request that is rejected: no response, or a status outside
    2xx. *)
Definition rejected {S} (respond : Request -> S -> option Response * S)
           (r : Request) (s : S) : Prop :=
  match fst (respond r s) with
  | Some resp => ok_status (status resp) = false
  | None => True
  end.

(** How many requests to [/garmin/sync] a trace holds. *)
Fixpoint sync_requests (t : list Event) : nat :=
  match t with
  | [] => O
  | Sent r :: t' =>
      if is_sync_request r then Datatypes.S (sync_requests t') else sync_requests t'
  | _ :: t' => sync_requests t'
  end.

(** A computation that leaves the server as it is. *)
Definition readonly {S A} (m : M S A) : Prop :=
  forall w, server (snd (m w)) = server w.

(** A computation that sends no sync request. *)
Definition quiet {S A} (m : M S A) : Prop :=
  forall w, sync_requests (trace (snd (m w))) = sync_requests (trace w).

End Fx.

(** ** The store and its request handlers

    The back end (FastAPI routers over SQLite) is not part of the
    sources at hand; this module models it from the specification. *)

Module Backend.
Import Js Http Model Wire.
Import Client (Entity, FoodEntry, Medication, MedicationSchedule,
               SicknessEntry, Seizure, HealthEvent, DailyNote, WaterIntake).

#[global] Instance Entity_eq_dec : EqDecision Entity.
Proof. solve_decision. Defined.

(** Modelled from the spec: the [users] table of the back end (its
    models are not among the sources): the single local profile, which
    holds the Garmin credentials with the password encrypted. *)
Record User : Type := mkUser {
  email : string;
  garmin_username : string;
  garmin_password_encrypted : option string
}.

(** Modelled from the spec: the database of the back end (its models
    are not among the sources), with the tables of section 3.  [garmin]
    is the table of daily metrics; it is a plain list of rows, so that
    "one row per calendar date" is a property to be kept by the handlers
    and not one the representation grants. *)
Record Store : Type := mkStore {
  user : User;
  garmin : list GarminDailyMetric;
  workouts : list Activity;
  logs : Entity -> list Row;
  next_id : Z
}.

(** Modelled from the spec: what the back end (not among the sources)
    takes from outside the store.  [garmin_connect D] is the daily aggregate computed from Garmin
    Connect for date [D], or [None] when the pull fails (bad
    credentials, network error); [today] is the server's calendar date;
    [sync_default] is the date a sync request without a date is for. *)
Record Env : Type := mkEnv {
  today : string;
  sync_default : string;
  garmin_connect : string -> option GarminDailyMetric;
  encrypt : string -> string
}.

Definition empty_store : Store :=
  mkStore (mkUser "" "" None) [] [] (fun _ => []) 0.

Definition set_garmin (t : list GarminDailyMetric) (s : Store) : Store :=
  mkStore (user s) t (workouts s) (logs s) (next_id s).

Definition set_user (u : User) (s : Store) : Store :=
  mkStore u (garmin s) (workouts s) (logs s) (next_id s).

Definition set_log (e : Entity) (t : list Row) (s : Store) : Store :=
  mkStore (user s) (garmin s) (workouts s)
    (fun e' => if decide (e' = e) then t else logs s e') (next_id s).

Definition bump_id (s : Store) : Store :=
  mkStore (user s) (garmin s) (workouts s) (logs s) (next_id s + 1).

(** *** Garmin sync *)

Definition is_day (D : string) (r : GarminDailyMetric) : bool :=
  String.eqb (date r) D.

Definition find_day (D : string) (t : list GarminDailyMetric)
  : option GarminDailyMetric :=
  List.find (is_day D) t.

Definition has_day (D : string) (t : list GarminDailyMetric) : bool :=
  existsb (is_day D) t.

(** Modelled from the spec: the write of the sync job (not among the
    sources), "upserted on sync": the row of that date is replaced where
    it stands, and a row is added only when the date has none. *)
Definition upsert (row : GarminDailyMetric) (t : list GarminDailyMetric)
  : list GarminDailyMetric :=
  if has_day (date row) t
  then List.map (fun r => if is_day (date row) r then row else r) t
  else t ++ [row].

Inductive SyncOutcome : Type := Skipped | Written | Failed.

(** Modelled from the spec: the sync job behind [POST /garmin/sync]
    (not among the sources), "sync GarminData for date D, skip if
    already present unless force=true, else write computed daily
    aggregate".  A failed pull computes no aggregate and writes
    nothing. *)
Definition sync (env : Env) (D : string) (force : bool) (s : Store)
  : SyncOutcome * Store :=
  if has_day D (garmin s) && negb force then (Skipped, s)
  else
    match garmin_connect env D with
    | None => (Failed, s)
    | Some agg => (Written, set_garmin (upsert (with_date D agg) (garmin s)) s)
    end.

(** *** Logs: create, read, update, delete *)

(** The calendar date of an entry: its [date] field, and failing that
    the date part of its [time] field ("date is included in the time
    field, so we don't send it separately", [FoodLog.jsx]). *)
Definition entry_date (data : gmap string value) : option string :=
  match data !! "date" with
  | Some (Str d) => Some d
  | _ =>
      match data !! "time" with
      | Some (Str t) => Some (String.substring 0 10 t)
      | _ => None
      end
  end.

(** Modelled from the spec: the date the routers (not among the
    sources) read from an entry.  A medication schedule gives its
    [start_date]: its form ([Medications.jsx]) sends that and the times
    of day, and neither [date] nor [time]. *)
Definition given_date (e : Entity) (data : gmap string value) : option string :=
  match e with
  | MedicationSchedule =>
      match data !! "start_date" with
      | Some (Str d) => Some d
      | _ => None
      end
  | _ => entry_date data
  end.

(** Modelled from the spec: what the routers (not among the sources)
    file a new row under.  The logs are "timestamped": an entry of a
    log needs a date.  A medication schedule is no dated log and needs
    none. *)
Definition row_date (e : Entity) (data : gmap string value) : option string :=
  match e with
  | MedicationSchedule => Some (default "" (given_date e data))
  | _ => given_date e data
  end.

(** ISO dates ([yyyy-MM-dd]) compare as strings. *)
Definition in_range (lo d hi : string) : bool :=
  String.leb lo d && String.leb d hi.


(** Modelled from the spec: "resources keyed by date or numeric id";
    a row is addressed by a key of its entity's kind. *)
Definition addressed (e : Entity) (key : value) (r : Row) : bool :=
  match e, key with
  | DailyNote, Str d => String.eqb (rdate r) d
  | DailyNote, _ => false
  | _, Num i => id r =? i
  | _, _ => false
  end.

(** Modelled from the spec: the CRUD routers of the logs (not among
    the sources), "CRUD via REST", "resources keyed by date or numeric
    id".  [create_entry] gives the entry the next id and appends it; an
    entry of a dated log without a date is not valid. *)
Definition create_entry (e : Entity) (data : gmap string value) (s : Store)
  : option Row * Store :=
  match row_date e data with
  | None => (None, s)
  | Some d =>
      let row := mkRow (next_id s) d data in
      (Some row, bump_id (set_log e (logs s e ++ [row]) s))
  end.

(** Modelled from the spec: the list route of a log router (not among
    the sources).  [read_entries] returns the rows of the log whose date
    lies in the range, and is a pure function of the store. *)
Definition read_entries (e : Entity) (lo hi : string) (s : Store) : list Row :=
  List.filter (fun r => in_range lo (rdate r) hi) (logs s e).

(** Modelled from the spec: the [meal_type] parameter of the list
    route of the food log ([getFoodEntries]); [null], which is what the
    pages pass, does not filter. *)
Definition of_meal (mealType : value) (r : Row) : bool :=
  match mealType with
  | Str m => bool_decide (fields r !! "meal_type" = Some (Str m))
  | _ => true
  end.

(** Modelled from the spec: the list route of the schedules
    ([getMedicationSchedules]), which takes no dates: all schedules, or
    those that are not switched off. *)
Definition is_active (r : Row) : bool :=
  match fields r !! "is_active" with
  | Some (Bool false) => false
  | _ => true
  end.

Definition read_schedules (activeOnly : bool) (s : Store) : list Row :=
  List.filter (fun r => negb activeOnly || is_active r) (logs s MedicationSchedule).

(** Modelled from the spec: the routes that return one row
    ([getMedicationSchedule], [getDailyNoteByDate]). *)
Definition read_entry (e : Entity) (key : value) (s : Store) : option Row :=
  List.find (addressed e key) (logs s e).

(** Modelled from the spec: a row after an update (the routers are
    not among the sources): the fields the data gives are overwritten,
    the others kept; the row moves to the date the data gives, if it
    gives one. *)
Definition update_row (e : Entity) (data : gmap string value) (r : Row) : Row :=
  mkRow (id r) (default (rdate r) (given_date e data)) (data ∪ fields r).

(** Modelled from the spec: the [PUT] route of a log router (not among
    the sources).  [update_entry] overwrites, in the addressed row, the
    fields the data gives. *)
Definition update_entry (e : Entity) (key : value) (data : gmap string value)
           (s : Store) : bool * Store :=
  if existsb (addressed e key) (logs s e)
  then (true,
        set_log e (List.map (fun r => if addressed e key r then update_row e data r else r)
                            (logs s e)) s)
  else (false, s).

(** Modelled from the spec: the [DELETE] route of a log router (not
    among the sources).  [delete_entry] removes the addressed row. *)
Definition delete_entry (e : Entity) (key : value) (s : Store) : bool * Store :=
  if existsb (addressed e key) (logs s e)
  then (true, set_log e (List.filter (fun r => negb (addressed e key r)) (logs s e)) s)
  else (false, s).

(** *** Daily summary *)

Definition on_day (D : string) (r : Row) : bool := String.eqb (rdate r) D.

(** Modelled from the spec: the millilitres of a water-intake row
    (the water page and the model are not among the sources); the field
    is named after the [total_water_ml] that [Dashboard.jsx] reads.  A
    row without a number counts 0. *)
Definition water_ml (r : Row) : Z :=
  match fields r !! "amount_ml" with
  | Some (Num n) => n
  | _ => 0
  end.

Definition sum_water (l : list Row) : Z :=
  List.fold_right (fun r acc => water_ml r + acc) 0 l.

(** Modelled from the spec: the dashboard router behind
    [GET /dashboard/today] and [GET /dashboard/daily/{date}] (not among
    the sources), "read-time aggregation joining that day's logged
    entries with the corresponding Garmin metric row", with the fields
    [Dashboard.jsx] reads. *)
Definition daily_summary (D : string) (s : Store) : DailySummary :=
  mkSummary
    (find_day D (garmin s))
    (List.filter (on_day D) (logs s FoodEntry))
    (Z.of_nat (length (List.filter (on_day D) (logs s Medication))))
    (sum_water (List.filter (on_day D) (logs s WaterIntake)))
    (List.filter (on_day D) (logs s Seizure))
    (List.filter (fun a => String.eqb (activity_date a) D) (workouts s)).

(** *** User settings *)

Definition str_field (o : gmap string value) (k : string) (old : string) : string :=
  match o !! k with
  | Some (Str v) => v
  | _ => old
  end.

(** Modelled from the spec: the handler of [PUT /user/me] (not among
    the sources).  The profile "holds encrypted Garmin credentials"; an
    update changes the fields it carries ("Leave blank to keep existing
    password", [Settings.jsx]). *)
Definition update_user (env : Env) (o : gmap string value) (u : User) : User :=
  mkUser (str_field o "email" (email u))
         (str_field o "garmin_username" (garmin_username u))
         (match o !! "garmin_password" with
          | Some (Str p) => Some (encrypt env p)
          | _ => garmin_password_encrypted u
          end).

(** *** Routing *)

(** The collection routes of [client.js]: the URL of the [post] of an
    entity and of the [get] that lists it.  The module has none for
    health events. *)
Definition collection (b : string) : option Entity :=
  if String.eqb b "/food/" then Some FoodEntry
  else if String.eqb b "/medications/" then Some Medication
  else if String.eqb b "/medications/schedules" then Some MedicationSchedule
  else if String.eqb b "/sickness/" then Some SicknessEntry
  else if String.eqb b "/seizures/" then Some Seizure
  else if String.eqb b "/notes/" then Some DailyNote
  else if String.eqb b "/water/" then Some WaterIntake
  else None.

(** The item routes of [client.js], the key interpolated after them. *)
Definition item (b : string) : option Entity :=
  if String.eqb b "/food/" then Some FoodEntry
  else if String.eqb b "/medications/" then Some Medication
  else if String.eqb b "/medications/schedules/" then Some MedicationSchedule
  else if String.eqb b "/sickness/" then Some SicknessEntry
  else if String.eqb b "/seizures/" then Some Seizure
  else if String.eqb b "/notes/" then Some DailyNote
  else if String.eqb b "/water/" then Some WaterIntake
  else None.

(** The entities [client.js] sends a [put] for: the water log is
    append and delete only. *)
Definition updatable (e : Entity) : bool :=
  match e with
  | WaterIntake | HealthEvent => false
  | _ => true
  end.

(** The entities [client.js] gets one row of. *)
Definition gettable (e : Entity) : bool :=
  match e with
  | MedicationSchedule | DailyNote => true
  | _ => false
  end.

Definition reply (st : Z) (d : Data) (s : Store) : Response * Store :=
  (mkResponse st d, s).

Definition sync_endpoint (env : Env) (o : gmap string value) (s : Store)
  : Response * Store :=
  let D :=
    match prop o "date" with
    | Str d => Some d
    | Null | Undefined => Some (sync_default env)
    | _ => None
    end in
  let force :=
    match prop o "force" with
    | Bool f => Some f
    | Null | Undefined => Some false
    | _ => None
    end in
  match D, force with
  | Some D, Some f =>
      match sync env D f s with
      | (Failed, s') => reply 500 (JsonObj ∅) s'
      | (_, s') => reply 200 (JsonObj ∅) s'
      end
  | _, _ => reply 422 (JsonObj ∅) s
  end.

Definition user_json (u : User) : gmap string value :=
  {[ "email" := Str (email u); "garmin_username" := Str (garmin_username u) ]}.

(** Modelled from the spec: the routing of the back end (its [main.py]
    and routers are not among the sources), the REST interface of
    section 6 for the requests [client.js] builds for the sync, the
    profile, the daily summary and the logs.  A request that reads leaves
    the store as it is; a [put] on the water log, which [client.js]
    never sends, is not served.  The routes of [getActivities],
    [checkGarminConfigured], [getDailyWaterTotal],
    [getDateRangeSummary] and of the export are left out of the model:
    the shape of their answers is in no source at hand. *)
Definition handle (env : Env) (r : Request) (s : Store) : Response * Store :=
  let b := base (url r) in
  match method r, arg (url r), body r with
  | POST, None, Some o =>
      if String.eqb b "/garmin/sync" then sync_endpoint env o s
      else
        match collection b with
        | Some e =>
            match create_entry e o s with
            | (Some row, s') => reply 200 (OneRow row) s'
            | (None, s') => reply 422 (JsonObj ∅) s'
            end
        | None => reply 404 (JsonObj ∅) s
        end
  | GET, None, None =>
      if String.eqb b "/dashboard/today"
      then reply 200 (Summary (daily_summary (today env) s)) s
      else if String.eqb b "/user/me"
      then reply 200 (JsonObj (user_json (user s))) s
      else if String.eqb b "/medications/schedules"
      then
        match prop (params r) "active_only" with
        | Bool a => reply 200 (Rows (read_schedules a s)) s
        | Undefined | Null => reply 200 (Rows (read_schedules true s)) s
        | _ => reply 422 (JsonObj ∅) s
        end
      else
        match prop (params r) "start_date", prop (params r) "end_date" with
        | Str lo, Str hi =>
            if String.eqb b "/garmin/data"
            then reply 200
                   (GarminRows (List.filter (fun g => in_range lo (date g) hi) (garmin s))) s
            else
              match collection b with
              | Some FoodEntry =>
                  reply 200
                    (Rows (List.filter (of_meal (prop (params r) "meal_type"))
                                       (read_entries FoodEntry lo hi s))) s
              | Some e => reply 200 (Rows (read_entries e lo hi s)) s
              | None => reply 404 (JsonObj ∅) s
              end
        | _, _ => reply 422 (JsonObj ∅) s
        end
  | GET, Some key, None =>
      if String.eqb b "/dashboard/daily/"
      then
        match key with
        | Str d => reply 200 (Summary (daily_summary d s)) s
        | _ => reply 422 (JsonObj ∅) s
        end
      else
        match item b with
        | Some e =>
            if gettable e
            then
              match read_entry e key s with
              | Some row => reply 200 (OneRow row) s
              | None => reply 404 (JsonObj ∅) s
              end
            else reply 405 (JsonObj ∅) s
        | None => reply 404 (JsonObj ∅) s
        end
  | PUT, None, Some o =>
      if String.eqb b "/user/me"
      then
        let u := update_user env o (user s) in
        reply 200 (JsonObj (user_json u)) (set_user u s)
      else reply 404 (JsonObj ∅) s
  | PUT, Some key, Some o =>
      match item b with
      | Some e =>
          if updatable e
          then
            match update_entry e key o s with
            | (true, s') => reply 200 (JsonObj ∅) s'
            | (false, s') => reply 404 (JsonObj ∅) s'
            end
          else reply 405 (JsonObj ∅) s
      | None => reply 404 (JsonObj ∅) s
      end
  | DELETE, Some key, None =>
      match item b with
      | Some e =>
          match delete_entry e key s with
          | (true, s') => reply 200 (JsonObj ∅) s'
          | (false, s') => reply 404 (JsonObj ∅) s'
          end
      | None => reply 404 (JsonObj ∅) s
      end
  | _, _, _ => reply 404 (JsonObj ∅) s
  end.

(** The server as the client sees it: always reachable. *)
Definition respond (env : Env) (r : Request) (s : Store)
  : option Response * Store :=
  let '(resp, s') := handle env r s in (Some resp, s').

(** The states the store can be in: the empty store, and whatever a
    request makes of a state it can be in, whatever the world outside
    is like at that moment. *)
Inductive reachable : Store -> Prop :=
| reachable_empty : reachable empty_store
| reachable_step s env r :
    reachable s -> reachable (snd (handle env r s)).

(** At most one row per calendar date. *)
Definition one_row_per_date (s : Store) : Prop :=
  NoDup (date <$> garmin s).

End Backend.

(** ** The functions of [client.js] by entity and operation *)

Module Crud.
Import Js Http Client.






End Crud.

(** ** JavaScript numbers in the statistics

    The metrics are integers far below 2^53, so their sums are exact; a
    quotient is kept as the exact rational.  What the model keeps of
    IEEE arithmetic is what decides the shape of the result: a division
    by zero gives [NaN] or an infinity, never an exception. *)

Module JsNum.

Inductive number : Type :=
| Fin (q : Q)
| NaN
| Inf (positive : bool).

Definition of_Z (z : Z) : number := Fin (inject_Z z).

Definition is_zero (q : Q) : bool := Qnum q =? 0.
Definition is_neg (q : Q) : bool := Qnum q <? 0.

(** [a / b] *)
Definition div (a b : number) : number :=
  match a, b with
  | NaN, _ | _, NaN => NaN
  | Inf _, Inf _ => NaN
  | Inf p, Fin y => Inf (if is_neg y then negb p else p)
  | Fin x, Inf _ => Fin 0
  | Fin x, Fin y =>
      if is_zero y
      then (if is_zero x then NaN else Inf (negb (is_neg x)))
      else Fin (x / y)
  end.

(** [Math.round(a)]: the nearest integer, a tie going up. *)
Definition Math_round (a : number) : number :=
  match a with
  | Fin x => Fin (inject_Z (Qfloor (x + (1 # 2))))
  | _ => a
  end.

Definition finite (a : number) : Prop :=
  match a with Fin _ => True | _ => False end.

End JsNum.

(** ** The pages *)

(** [QueryClient] is configured in [main.jsx], which is not among the
    sources at hand. *)
Module ReactQuery.

(** Modelled from the spec: the default [retry] of mutations, which
    [main.jsx] could set on the [QueryClient]: "no automatic retry" of a
    failed sync (section 7).  It is also the library's own default for
    mutations, and no [useMutation] of the pages sets [retry]. *)
Definition mutation_retry : nat := 0.

End ReactQuery.

(** *** [pages/Dashboard.jsx] *)

Module Dashboard.
Import Js Http Wire Fx.

Section WithServer.
Context {S : Type}.
Variable respond : Request -> S -> option Response * S.
(** How often the library runs a failed query again. *)
Variable query_retry : nat.

(** [queryFn] of the [todaySummary] query. *)
Definition todaySummary : M S Data :=
  response <- request respond Client.getTodaySummary ;;
  ret (data response).

Definition handleSync : M S unit :=
  emit (SetSyncing true) ;;;
  finally
    (try_catch
       (_ <- request respond (Client.syncGarminData Undefined Undefined) ;;
        refetch "todaySummary" query_retry todaySummary)
       (fun error =>
          emit (ConsoleError "Sync failed:" (LogError error)) ;;;
          emit (Alert "Failed to sync Garmin data. Please check your credentials in Settings.")))
    (emit (SetSyncing false)).

End WithServer.

End Dashboard.

(** *** [pages/GarminData.jsx] *)

Module GarminData.
Import Js Http Model Wire Fx JsNum.

Section WithServer.
Context {S : Type}.
Variable respond : Request -> S -> option Response * S.

Definition syncMutation : MutationOptions S (value * value) Response :=
  mkMutation
    (fun '(date, force) => request respond (Client.syncGarminData date force))
    (fun response =>
       emit (InvalidateQueries "garminData") ;;;
       match data_prop (data response) "message" with
       | None => throw (mkError None "TypeError")
       | Some m =>
           emit (SetSyncMessage
                   (Some (mkMessage "success"
                            (or_else m (Str "Data synced successfully!")))))
       end ;;;
       emit (ClearSyncMessageAfter 5000))
    (fun error =>
       emit (SetSyncMessage
               (Some (mkMessage "error"
                        (or_else (detail error)
                           (Str "Failed to sync data. Please check your Garmin credentials."))))) ;;;
       emit (ClearSyncMessageAfter 5000))
    ReactQuery.mutation_retry.

Definition handleManualSync (syncDate : string) (syncForce : bool) : M S unit :=
  emit (SetSyncMessage None) ;;;
  mutate syncMutation (Str syncDate, Bool syncForce).

End WithServer.

(** A cell of the summary: a number, or the string [toFixed] makes. *)
Inductive cell : Type :=
| CNum (n : number)
| CStr (s : string).

Record SummaryStats : Type := mkStats {
  avgSteps : cell;
  avgSleepHours : cell;
  avgRestingHR : cell;
  avgBodyBattery : cell
}.

(** [x || 0] on a metric: [null], [undefined] and [0] all give [0]. *)
Definition or_zero (x : option Z) : Z :=
  match x with
  | Some v => if v =? 0 then 0 else v
  | None => 0
  end.

(** [garminData.reduce((sum, d) => sum + (d.f || 0), 0)] *)
Definition reduce_sum (f : GarminDailyMetric -> option Z)
           (garminData : list GarminDailyMetric) : Z :=
  fold_left (fun sum d => sum + or_zero (f d)) garminData 0.

(** The sum of a metric over the days, a missing value counting 0. *)
Definition metric_total (f : GarminDailyMetric -> option Z)
           (l : list GarminDailyMetric) : Z :=
  foldr (fun d acc => default 0 (f d) + acc) 0 l.

(** The rational [total / n] rounded to the nearest integer, a tie
    going up. *)
Definition rounded_mean (total : Z) (n : nat) : Q :=
  inject_Z (Qfloor (inject_Z total / inject_Z (Z.of_nat n) + (1 # 2))).

Section Summary.
(** [x.toFixed(1)], the decimal rendering of a number. *)
Variable toFixed1 : number -> string.

Definition summary (garminData : list GarminDailyMetric) : SummaryStats :=
  let n := of_Z (Z.of_nat (length garminData)) in
  if (0 <? Z.of_nat (length garminData))
  then
    mkStats
      (CNum (Math_round (div (of_Z (reduce_sum steps garminData)) n)))
      (CStr (toFixed1
               (div (div (of_Z (reduce_sum sleep_duration_seconds garminData)) n)
                    (of_Z 3600))))
      (CNum (Math_round (div (of_Z (reduce_sum resting_heart_rate garminData)) n)))
      (CNum (Math_round (div (of_Z (reduce_sum body_battery_highest garminData)) n)))
  else
    mkStats (CNum (of_Z 0)) (CNum (of_Z 0)) (CNum (of_Z 0)) (CNum (of_Z 0)).

(** The same expressions without the guard on the length. *)
Definition unguarded_avgSteps (garminData : list GarminDailyMetric) : number :=
  Math_round (div (of_Z (reduce_sum steps garminData))
                  (of_Z (Z.of_nat (length garminData)))).

End Summary.

End GarminData.

(** *** [pages/Settings.jsx] *)

Module Settings.
Import Js Http Wire Fx.

Record FormData : Type := mkForm {
  email : string;
  garmin_username : string;
  garmin_password : string
}.

(** [{ ...formData }] *)
Definition spread (formData : FormData) : gmap string value :=
  {[ "email" := Str (email formData);
     "garmin_username" := Str (garmin_username formData);
     "garmin_password" := Str (garmin_password formData) ]}.

(** The object [handleSubmit] hands to the mutation. *)
Definition payload (formData : FormData) : gmap string value :=
  let data := spread formData in
  if falsy (prop data "garmin_password")
  then delete "garmin_password" data
  else data.

Section WithServer.
Context {S : Type}.
Variable respond : Request -> S -> option Response * S.

Definition updateMutation : MutationOptions S (gmap string value) Response :=
  mkMutation
    (fun data => request respond (Client.updateUser data))
    (fun _ =>
       emit (InvalidateQueries "user") ;;;
       emit (InvalidateQueries "garminConfigured") ;;;
       emit (Alert "Settings saved successfully!") ;;;
       emit ResetPassword)
    (fun _ => emit (Alert "Failed to save settings. Please try again."))
    ReactQuery.mutation_retry.

Definition handleSubmit (formData : FormData) : M S unit :=
  emit PreventDefault ;;;
  mutate updateMutation (payload formData).

End WithServer.

End Settings.

(** *** [pages/FoodLog.jsx]: the quick-add list *)

Module FoodLog.

(** A food entry as the page reads it; its description is a string
    (the form requires one). *)
Record FoodEntry : Type := mkFood {
  id : Z;
  date : string;
  time : string;
  meal_type : string;
  description : string;
  is_drink : bool;
  calories : option Z;
  volume_ml : option Z;
  notes : option string
}.

#[global] Instance FoodEntry_eq_dec : EqDecision FoodEntry.
Proof. solve_decision. Defined.

(** A JavaScript [Map] with string keys: it keeps its entries in the
    order the keys were first set. *)
Definition JsMap (V : Type) : Type := list (string * V).

Definition Map_has {V} (k : string) (m : JsMap V) : bool :=
  existsb (fun kv => String.eqb (fst kv) k) m.

Definition Map_set {V} (k : string) (v : V) (m : JsMap V) : JsMap V :=
  if Map_has k m
  then List.map (fun kv => if String.eqb (fst kv) k then (k, v) else kv) m
  else (m ++ [(k, v)])%list.

Definition Map_values {V} (m : JsMap V) : list V := List.map snd m.

(** ASCII lower-casing, the part of [toLowerCase] that the examples
    use. *)
Definition lower_ascii (c : Ascii.ascii) : Ascii.ascii :=
  let n := Ascii.nat_of_ascii c in
  if ((65 <=? n) && (n <=? 90))%nat then Ascii.ascii_of_nat (n + 32) else c.

Fixpoint ascii_toLowerCase (s : string) : string :=
  match s with
  | EmptyString => EmptyString
  | String c s' => String (lower_ascii c) (ascii_toLowerCase s')
  end.

(** Two strings that differ at most in the case of their letters A
    to Z, said without lower-casing either: character by character they
    are the same, or one is a capital and the other is 32 further on. *)
Definition is_upper (c : Ascii.ascii) : bool :=
  let n := Ascii.nat_of_ascii c in ((65 <=? n) && (n <=? 90))%nat.

Definition same_letter (a b : Ascii.ascii) : bool :=
  Ascii.eqb a b
  || (is_upper a && (Ascii.nat_of_ascii b =? Ascii.nat_of_ascii a + 32)%nat)
  || (is_upper b && (Ascii.nat_of_ascii a =? Ascii.nat_of_ascii b + 32)%nat).

Fixpoint same_ignoring_case (s t : string) : bool :=
  match s, t with
  | EmptyString, EmptyString => true
  | String a s', String b t' => same_letter a b && same_ignoring_case s' t'
  | _, _ => false
  end.

(** A string of ASCII characters: on these [toLowerCase] changes the
    letters A to Z and nothing else. *)
Fixpoint is_ascii (s : string) : bool :=
  match s with
  | EmptyString => true
  | String c s' => (Ascii.nat_of_ascii c <? 128)%nat && is_ascii s'
  end.

Section Recent.
(** [String.prototype.toLowerCase] *)
Variable toLowerCase : string -> string.

Definition key (entry : FoodEntry) : string := toLowerCase (description entry).

(** [fresh seen x]: the description of [x] is not yet a key of [seen]. *)
Definition fresh (seen : JsMap FoodEntry) (x : FoodEntry) : bool :=
  negb (Map_has (key x) seen).

(** The callback of [response.data.forEach]. *)
Definition remember (seen : JsMap FoodEntry) (entry : FoodEntry) : JsMap FoodEntry :=
  if negb (Map_has (key entry) seen)
  then Map_set (key entry) entry seen
  else seen.

(** [queryFn] of the [recentFoodEntries] query, on the entries the
    request returned. *)
Definition recentEntries (response_data : list FoodEntry) : list FoodEntry :=
  let seen := fold_left remember response_data [] in
  take 10 (Map_values seen).

(** The specification's reading: the entries before which no entry
    has the same description up to case, in the order of the
    input. *)
Fixpoint first_occurrences (l : list FoodEntry) : list FoodEntry :=
  match l with
  | [] => []
  | e :: l' =>
      e :: List.filter (fun x => negb (String.eqb (key x) (key e)))
                       (first_occurrences l')
  end.

End Recent.

End FoodLog.


(** ** Sample data for the examples *)

Module Sample.
Import Js Http Model Wire Fx.

Definition may_1 : GarminDailyMetric :=
  mkGarmin "2024-05-01" (Some 8000) (Some 52) (Some 70) (Some 140)
    (Some 27000) (Some 5400) (Some 14400) (Some 5400) (Some 1800)
    (Some 30) (Some 90) (Some 20).

Definition may_1_again : GarminDailyMetric :=
  mkGarmin "" (Some 9001) (Some 51) None None
    (Some 25200) None None None None None (Some 85) None.

Definition may_2 : GarminDailyMetric :=
  mkGarmin "2024-05-02" (Some 4001) None None None
    None None None None None None (Some 0) None.

(** Garmin Connect has data for the first of May only. *)
Definition env : Backend.Env :=
  Backend.mkEnv "2024-05-02" "2024-05-01"
    (fun D => if String.eqb D "2024-05-01" then Some may_1_again else None)
    (fun p => "enc:" +:+ p).

Definition store : Backend.Store :=
  Backend.mkStore (Backend.mkUser "a@b.c" "garmin-user" (Some "enc:secret"))
    [may_1; may_2] [] (fun _ => []) 0.

Definition world : World Backend.Store := mkWorld store [].

(** A server that cannot be reached. *)
Definition offline (r : Request) (s : unit) : option Response * unit := (None, s).

Definition seizure : gmap string value :=
  {[ "date" := Str "2024-05-01"; "severity" := Str "moderate" ]}.


Definition food (i : Z) (description : string) : FoodLog.FoodEntry :=
  FoodLog.mkFood i "2024-05-01" "2024-05-01T12:00" "lunch" description
    false None None None.

Definition foods : list FoodLog.FoodEntry :=
  [food 1 "Apple"; food 2 "apple"; food 3 "Pear"; food 4 "APPLE";
   food 5 "pear"; food 6 "Kiwi"].

(** A store with something in every log of the summary, on the
    first and on the second of May. *)
Definition row (i : Z) (d : string) (fields : gmap string value) : Row :=
  mkRow i d (<[ "date" := Str d ]> fields).

Definition busy_logs (e : Client.Entity) : list Row :=
  match e with
  | Client.FoodEntry =>
      [ row 1 "2024-05-01" {[ "description" := Str "Apple" ]};
        row 2 "2024-05-02" {[ "description" := Str "Porridge" ]};
        row 3 "2024-05-02" {[ "description" := Str "Pear" ]} ]
  | Client.Medication =>
      [ row 4 "2024-05-02" {[ "medication_name" := Str "Levetiracetam" ]};
        row 5 "2024-05-01" {[ "medication_name" := Str "Levetiracetam" ]};
        row 6 "2024-05-02" {[ "medication_name" := Str "Ibuprofen" ]} ]
  | Client.WaterIntake =>
      [ row 7 "2024-05-02" {[ "amount_ml" := Num 250 ]};
        row 8 "2024-05-01" {[ "amount_ml" := Num 300 ]};
        row 9 "2024-05-02" {[ "amount_ml" := Num 500 ]} ]
  | Client.Seizure =>
      [ row 10 "2024-05-02" {[ "severity" := Str "mild" ]} ]
  | _ => []
  end.

Definition busy_store : Backend.Store :=
  Backend.mkStore (Backend.mkUser "a@b.c" "garmin-user" (Some "enc:secret"))
    [may_1; may_2]
    [ mkActivity 11 "2024-05-01" {[ "activity_type" := Str "running" ]};
      mkActivity 12 "2024-05-02" {[ "activity_type" := Str "cycling" ]} ]
    busy_logs 13.


Definition blank_form : Settings.FormData := Settings.mkForm "a@b.c" "garmin-user" "".
Definition typed_form : Settings.FormData := Settings.mkForm "a@b.c" "garmin-user" "hunter2".

End Sample.


(** ** JavaScript strings *)

Module JsString.
Import Js.

(** [s.includes(c)] for a one-character [c]. *)
Fixpoint includes (c : Ascii.ascii) (s : string) : bool :=
  match s with
  | EmptyString => false
  | String a s' => if Ascii.eqb a c then true else includes c s'
  end.

(** [s.split(c)] for a one-character separator: the pieces between
    the separators, one more than there are separators. *)
Fixpoint split (c : Ascii.ascii) (s : string) : list string :=
  match s with
  | EmptyString => [EmptyString]
  | String a s' =>
      if Ascii.eqb a c then EmptyString :: split c s'
      else
        match split c s' with
        | piece :: rest => String a piece :: rest
        | [] => [String a EmptyString]
        end
  end.

(** [arr[i]] on an array of strings: [undefined] past the end. *)
Definition at_index (arr : list string) (i : nat) : value :=
  match arr !! i with
  | Some s => Str s
  | None => Undefined
  end.

(** [s.substring(0, n)] *)
Definition substring_to (n : nat) (s : string) : string :=
  String.substring 0 n s.

(** [ToString], as a template literal applies it; integers print in
    decimal (below 10^21, where JavaScript turns to exponents). *)
Definition ToString (v : value) : string :=
  match v with
  | Undefined => "undefined"
  | Null => "null"
  | Bool true => "true"
  | Bool false => "false"
  | Num n => pretty n
  | Str s => s
  end.

(** White space that [parseInt] skips.  A character of a string is a
    code unit below 256 here, and of these JavaScript counts as white
    space: tab, line feed, vertical tab, form feed, carriage return,
    space and the no-break space U+00A0 (the others, from U+1680 on, do
    not fit the type). *)
Definition is_space (c : Ascii.ascii) : bool :=
  let n := Ascii.N_of_ascii c in
  ((9 <=? n) && (n <=? 13) || (n =? 32) || (n =? 160))%N.

Fixpoint skip_spaces (s : string) : string :=
  match s with
  | String c s' => if is_space c then skip_spaces s' else s
  | EmptyString => s
  end.

(** The value of a character as a digit of the radix, if it is one. *)
Definition digit (radix : N) (c : Ascii.ascii) : option N :=
  let n := Ascii.N_of_ascii c in
  let d :=
    if ((48 <=? n) && (n <=? 57))%N then Some (n - 48)%N
    else if ((97 <=? n) && (n <=? 122))%N then Some (n - 87)%N
    else if ((65 <=? n) && (n <=? 90))%N then Some (n - 55)%N
    else None in
  match d with
  | Some d => if (d <? radix)%N then Some d else None
  | None => None
  end.

(** The longest prefix of digits, read from the left; what follows
    it is ignored.  No digit at all leaves [None]. *)
Fixpoint read_digits (radix : N) (acc : option N) (s : string)
  : option N * string :=
  match s with
  | String c s' =>
      match digit radix c with
      | Some d => read_digits radix (Some (radix * default 0%N acc + d)%N) s'
      | None => (acc, s)
      end
  | EmptyString => (acc, s)
  end.

(** [parseInt(s)] without a radix: white space, a sign, [0x] for
    hexadecimal, then digits; [None] is [NaN].  The result is the
    integer the digits denote.  JavaScript returns the double nearest to
    it, which is that integer as long as it is at most 2^53; what is
    proved of typed text below is bounded so. *)
Definition parseInt_string (s : string) : option Z :=
  let s := skip_spaces s in
  let '(negative, s) :=
    match s with
    | String "-"%char s' => (true, s')
    | String "+"%char s' => (false, s')
    | _ => (false, s)
    end in
  let '(radix, s) :=
    match s with
    | String "0"%char (String "x"%char s')
    | String "0"%char (String "X"%char s') => (16%N, s')
    | _ => (10%N, s)
    end in
  match fst (read_digits radix None s) with
  | Some n => Some (if negative then - Z.of_N n else Z.of_N n)
  | None => None
  end.

(** [parseInt(v)]: the argument is turned into a string first. *)
Definition parseInt (v : value) : option Z := parseInt_string (ToString v).

(** A number as JSON carries it: [NaN] is serialised as [null]. *)
Definition number_json (n : option Z) : value :=
  match n with
  | Some z => Num z
  | None => Null
  end.

(** No character of the string is [c]. *)
Definition free_of (c : Ascii.ascii) (s : string) : Prop := includes c s = false.

(** A decimal digit; a string of decimal digits; a string that does
    not begin with one. *)
Definition is_decimal (c : Ascii.ascii) : bool :=
  match digit 10 c with
  | Some _ => true
  | None => false
  end.

Fixpoint all_digits (s : string) : bool :=
  match s with
  | EmptyString => true
  | String c s' => is_decimal c && all_digits s'
  end.

Definition no_digit_ahead (s : string) : Prop :=
  match s with
  | String c _ => is_decimal c = false
  | EmptyString => True
  end.

End JsString.

(** ** [pages/Medications.jsx]: the times of a schedule, the time of a dose *)

Module Medications.
Import Js JsString.

(** [arr.filter((x, i) => p x i)] *)
Fixpoint filter_indexed {A} (p : A -> nat -> bool) (i : nat) (arr : list A)
  : list A :=
  match arr with
  | [] => []
  | x :: arr' =>
      if p x i then x :: filter_indexed p (S i) arr'
      else filter_indexed p (S i) arr'
  end.

(** [arr[i] = v] on a copy: inside the array the element is replaced;
    past its end the array grows, the places in between being holes,
    which read as [undefined]. *)
Definition array_set (arr : list value) (i : nat) (v : value) : list value :=
  if (i <? length arr)%nat then <[i := v]> arr
  else arr ++ replicate (i - length arr) Undefined ++ [v].

(** The times of a new schedule form. *)
Definition initial_times : list value := [Str "08:00"].

Definition addScheduleTime (schedule_times : list value) : list value :=
  schedule_times ++ [Str "12:00"].

Definition removeScheduleTime (index : nat) (schedule_times : list value)
  : list value :=
  filter_indexed (fun _ i => negb (i =? index)%nat) 0 schedule_times.

Definition updateScheduleTime (index : nat) (v : value)
           (schedule_times : list value) : list value :=
  let newTimes := schedule_times in
  array_set newTimes index v.

(** [schedule.schedule_times || ['08:00']] of [handleEditSchedule]:
    every array is truthy, the empty one too. *)
Definition edited_times (schedule_times : option (list value)) : list value :=
  match schedule_times with
  | Some arr => arr
  | None => initial_times
  end.

(** What the form lets the user do to the times: add one, change the
    one of a row that is shown, and remove a row while the remove
    button is shown, which is while there are two rows or more. *)
Inductive times_step : list value -> list value -> Prop :=
| step_add t : times_step t (addScheduleTime t)
| step_update t i v :
    (i < length t)%nat -> times_step t (updateScheduleTime i v t)
| step_remove t i :
    (i < length t)%nat -> (1 < length t)%nat ->
    times_step t (removeScheduleTime i t).

Inductive times_reachable (from : list value) : list value -> Prop :=
| reach_here : times_reachable from from
| reach_step t t' :
    times_reachable from t -> times_step t t' -> times_reachable from t'.

(** The time of day shown when a dose is edited ([handleEdit]). *)
Definition timeOnly (entry_time : string) : string :=
  if includes "T"%char entry_time
  then
    match at_index (split "T"%char entry_time) 1 with
    | Str piece => substring_to 5 piece
    | _ => ""   (* not reached: with a "T" there is a second piece *)
    end
  else "08:00".

(** [`${formData.date}T${formData.timeOfDay}`] of [handleSubmit]. *)
Definition datetime (date timeOfDay : string) : string :=
  date +:+ "T" +:+ timeOfDay.

End Medications.

(** ** [pages/FoodLog.jsx]: the form of an entry and the food database *)

Module FoodForm.
Import Js JsString.

(** The state of the form.  An amount is what the number input holds
    (a string) or, after [handleEdit], the number of the entry. *)
Record FormData : Type := mkForm {
  date : string;
  time : string;
  meal_type : string;
  description : string;
  is_drink : bool;
  calories : value;
  volume_ml : value;
  notes : string;
  save_to_database : value
}.

(** A row of the food database. *)
Record FoodItem : Type := mkItem {
  item_id : Z;
  name : string;
  item_is_drink : bool;
  item_calories : option Z;
  item_volume_ml : option Z;
  is_favorite : bool
}.

#[global] Instance FoodItem_eq_dec : EqDecision FoodItem.
Proof. solve_decision. Defined.

(** [x || ''] on a number of an entry. *)
Definition number_or_blank (x : option Z) : value :=
  or_else (match x with Some n => Num n | None => Null end) (Str "").

(** [x || ''] on a text of an entry. *)
Definition text_or_blank (x : option string) : string :=
  match x with
  | Some s => s
  | None => ""
  end.

Definition handleEdit (entry : FoodLog.FoodEntry) : FormData :=
  mkForm (FoodLog.date entry) (FoodLog.time entry) (FoodLog.meal_type entry)
    (FoodLog.description entry) (FoodLog.is_drink entry)
    (number_or_blank (FoodLog.calories entry))
    (number_or_blank (FoodLog.volume_ml entry))
    (text_or_blank (FoodLog.notes entry))
    Undefined.

(** [selectFoodFromDatabase]: the id that is selected and the form,
    for the date shown and the time of the clock. *)
Definition selectFoodFromDatabase (foodItem : FoodItem)
           (selectedDate now : string) : value * FormData :=
  (Num (item_id foodItem),
   mkForm selectedDate now "breakfast" (name foodItem) (item_is_drink foodItem)
     (number_or_blank (item_calories foodItem))
     (number_or_blank (item_volume_ml foodItem))
     "" (Bool false)).

(** [formData.time.split('T')[1] || '12:00'] *)
Definition timePortion (time : string) : string :=
  match at_index (split "T" time) 1 with
  | Str piece => if truthy (Str piece) then piece else "12:00"
  | _ => "12:00"
  end.

Definition combinedDateTime (formData : FormData) : string :=
  date formData +:+ "T" +:+ timePortion (time formData).

(** [x ? parseInt(x) : null], as the JSON body carries it. *)
Definition amount (x : value) : value :=
  if truthy x then number_json (parseInt x) else Null.

(** [a && b] *)
Definition and_then (a b : value) : value := if truthy a then b else a.

Definition updateData (formData : FormData) : gmap string value :=
  {[ "time" := Str (combinedDateTime formData);
     "meal_type" := Str (meal_type formData);
     "description" := Str (description formData);
     "is_drink" := Bool (is_drink formData);
     "calories" := amount (calories formData);
     "volume_ml" := amount (volume_ml formData);
     "notes" := or_else (Str (notes formData)) Null ]}.

Definition createData (formData : FormData) (selectedFoodId : value)
  : gmap string value :=
  {[ "date" := Str (date formData);
     "time" := Str (combinedDateTime formData);
     "meal_type" := Str (meal_type formData);
     "description" := Str (description formData);
     "is_drink" := Bool (is_drink formData);
     "calories" := amount (calories formData);
     "volume_ml" := amount (volume_ml formData);
     "notes" := or_else (Str (notes formData)) Null;
     "food_database_id" := selectedFoodId;
     "save_to_database" :=
       and_then (save_to_database formData) (Bool (falsy selectedFoodId)) ]}.

(** The request [handleSubmit] has the mutation send: an update of the
    entry that is edited, or else a creation. *)
Definition submitted (editingEntry : option FoodLog.FoodEntry)
           (formData : FormData) (selectedFoodId : value) : Http.Request :=
  match editingEntry with
  | Some entry =>
      Client.updateFoodEntry (Num (FoodLog.id entry)) (updateData formData)
  | None => Client.createFoodEntry (createData formData selectedFoodId)
  end.

(** What an edit that changes nothing sends back for an amount and
    for the notes of the entry. *)
Definition kept_amount (x : option Z) : value :=
  match x with
  | Some n => if n =? 0 then Null else Num n
  | None => Null
  end.

Definition kept_text (x : option string) : value :=
  match x with
  | Some s => if String.eqb s "" then Null else Str s
  | None => Null
  end.

(** [favoriteFoods] and [frequentFoods] *)
Definition favoriteFoods (foodDatabase : list FoodItem) : list FoodItem :=
  List.filter (fun food => is_favorite food) foodDatabase.

Definition frequentFoods (foodDatabase : list FoodItem) : list FoodItem :=
  take 10 (List.filter (fun food => negb (is_favorite food)) foodDatabase).

End FoodForm.

(** ** [pages/Seizures.jsx]: the duration shown *)

Module Seizures.
Import Js JsString.

(** [formatDuration(seizure.duration_seconds)], the duration being an
    integer or [null]. *)
Definition formatDuration (seconds : option Z) : string :=
  match seconds with
  | None => "Not recorded"
  | Some n =>
      if n =? 0 then "Not recorded"
      else
        let mins := n / 60 in          (* Math.floor(seconds / 60) *)
        let secs := Z.rem n 60 in      (* seconds % 60 *)
        if 0 <? mins
        then pretty mins +:+ "m " +:+ pretty secs +:+ "s"
        else pretty secs +:+ "s"
  end.

(** Reading a duration back from what is shown: a number and [s], or
    a number, [m ], a number and [s]. *)
Definition read_duration (shown : string) : option Z :=
  match read_digits 10 None shown with
  | (Some a, String "s"%char EmptyString) => Some (Z.of_N a)
  | (Some a, String "m"%char (String " "%char rest)) =>
      match read_digits 10 None rest with
      | (Some b, String "s"%char EmptyString) => Some (60 * Z.of_N a + Z.of_N b)
      | _ => None
      end
  | _ => None
  end.

End Seizures.

(** ** [pages/HealthEvents.jsx]: event types, the form of an event *)

Module HealthEvents.
Import Js JsString.

Record EventType : Type := mkType {
  value : string;
  label : string;
  color : string
}.

#[global] Instance EventType_eq_dec : EqDecision EventType.
Proof. solve_decision. Defined.

Definition EVENT_TYPES : list EventType :=
  [ mkType "surgery" "Surgery" "bg-red-100 text-red-800";
    mkType "hospitalization" "Hospitalization" "bg-orange-100 text-orange-800";
    mkType "doctor_visit" "Doctor Visit" "bg-blue-100 text-blue-800";
    mkType "vaccination" "Vaccination" "bg-green-100 text-green-800";
    mkType "diagnosis" "Diagnosis" "bg-purple-100 text-purple-800";
    mkType "procedure" "Procedure" "bg-yellow-100 text-yellow-800";
    mkType "test_result" "Test Result" "bg-cyan-100 text-cyan-800";
    mkType "other" "Other" "bg-gray-100 text-gray-800" ].

(** [et.value === eventType] *)
Definition is_type (eventType : Js.value) (et : EventType) : bool :=
  match eventType with
  | Str s => String.eqb (value et) s
  | _ => false
  end.

(** [EVENT_TYPES.find(...) || EVENT_TYPES[EVENT_TYPES.length - 1]];
    [None] would be [undefined]. *)
Definition getEventTypeInfo (eventType : Js.value) : option EventType :=
  match List.find (is_type eventType) EVENT_TYPES with
  | Some et => Some et
  | None => EVENT_TYPES !! (length EVENT_TYPES - 1)%nat
  end.

(** A health event as the server returns it: a text is a string or
    [null]. *)
Record Event : Type := mkEvent {
  id : Z;
  date : string;
  time : option string;
  event_type : option string;
  title : option string;
  description : option string;
  location : option string;
  provider : option string;
  follow_up_date : option string;
  outcome : option string;
  notes : option string
}.

Record FormData : Type := mkForm {
  f_date : string;
  hasTime : bool;
  timeOfDay : string;
  f_event_type : string;
  f_title : string;
  f_description : string;
  f_location : string;
  f_provider : string;
  f_follow_up_date : string;
  f_outcome : string;
  f_notes : string
}.

(** [x || d] on a text of an event. *)
Definition text_or (x : option string) (d : string) : string :=
  match x with
  | Some s => if String.eqb s "" then d else s
  | None => d
  end.

(** [x || null] on a field of the form. *)
Definition or_null (s : string) : Js.value := or_else (Str s) Null.

Section WithClock.
(** [format(parseISO(t), 'HH:mm')] and [format(new Date(), 'HH:mm')]
    of date-fns. *)
Variable clock_time : string -> string.
Variable now : string.

Definition handleEdit (event : Event) : FormData :=
  let hasTime := match time event with
                 | Some t => truthy (Str t)
                 | None => false
                 end in
  mkForm (date event) hasTime
    (if hasTime then clock_time (text_or (time event) "") else now)
    (text_or (event_type event) "other")
    (text_or (title event) "")
    (text_or (description event) "")
    (text_or (location event) "")
    (text_or (provider event) "")
    (text_or (follow_up_date event) "")
    (text_or (outcome event) "")
    (text_or (notes event) "").

End WithClock.

(** The [data] of [handleSubmit]. *)
Definition submit_data (formData : FormData) : gmap string Js.value :=
  {[ "date" := Str (f_date formData);
     "time" := if hasTime formData
               then Str (f_date formData +:+ "T" +:+ timeOfDay formData)
               else Null;
     "event_type" := Str (f_event_type formData);
     "title" := Str (f_title formData);
     "description" := or_null (f_description formData);
     "location" := or_null (f_location formData);
     "provider" := or_null (f_provider formData);
     "follow_up_date" := or_null (f_follow_up_date formData);
     "outcome" := or_null (f_outcome formData);
     "notes" := or_null (f_notes formData) ]}.

(** A text of an event as JSON. *)
Definition text_json (x : option string) : Js.value :=
  match x with
  | Some s => Str s
  | None => Null
  end.

(** The fields of an event, as the server sent them. *)
Definition event_json (event : Event) : gmap string Js.value :=
  {[ "date" := Str (date event);
     "time" := text_json (time event);
     "event_type" := text_json (event_type event);
     "title" := text_json (title event);
     "description" := text_json (description event);
     "location" := text_json (location event);
     "provider" := text_json (provider event);
     "follow_up_date" := text_json (follow_up_date event);
     "outcome" := text_json (outcome event);
     "notes" := text_json (notes event) ]}.

(** A text that is [null] or not empty. *)
Definition tidy (x : option string) : Prop := x <> Some "".

End HealthEvents.

(** ** [components/Layout.jsx] and [App.jsx]: navigation *)

Module Layout.

Record NavItem : Type := mkNav { path : string; label : string }.

#[global] Instance NavItem_eq_dec : EqDecision NavItem.
Proof. solve_decision. Defined.

Definition navItems : list NavItem :=
  [ mkNav "/" "Dashboard";
    mkNav "/food" "Food Log";
    mkNav "/medications" "Medications";
    mkNav "/seizures" "Seizures";
    mkNav "/sickness" "Sickness";
    mkNav "/health-events" "Health Events";
    mkNav "/garmin" "Garmin Data";
    mkNav "/export" "Export";
    mkNav "/settings" "Settings" ].

(** [location.pathname === item.path] *)
Definition isActive (pathname : string) (item : NavItem) : bool :=
  String.eqb pathname (path item).

(** The paths of the routes of [App.jsx]: the index route of [/] and
    its children. *)
Definition route_paths : list string :=
  "/" :: (String.append "/" <$>
            ["food"; "medications"; "seizures"; "sickness"; "garmin";
             "export"; "settings"]).

End Layout.

(** ** [pages/Settings.jsx]: loading the form *)

Module SettingsQuery.

(** The profile as [GET /user/me] returns it: a text is a string or
    [null]. *)
Record UserInfo : Type := mkInfo {
  email : option string;
  garmin_username : option string
}.

(** What the [user] query puts in the form:
    [response.data.email || ''], [response.data.garmin_username || '']
    and an empty password. *)
Definition loaded (user : UserInfo) : Settings.FormData :=
  Settings.mkForm
    (match email user with Some s => s | None => "" end)
    (match garmin_username user with Some s => s | None => "" end)
    "".

End SettingsQuery.

(** ** [pages/Export.jsx] *)

Module ExportPage.
Import Js Http Wire Fx JsString.

Definition export_request (startDate endDate exportFormat : string)
  : gmap string value :=
  {[ "start_date" := Str startDate;
     "end_date" := Str endDate;
     "format" := Str exportFormat;
     "include_garmin" := Bool true;
     "include_food" := Bool true;
     "include_medications" := Bool true;
     "include_sickness" := Bool true;
     "include_seizures" := Bool true;
     "include_notes" := Bool true;
     "include_water" := Bool true;
     "include_health_events" := Bool true ]}.

(** [error.response?.data?.detail || error.message || 'Unknown error'] *)
Definition failure_message (error : Error) : value :=
  or_else (or_else (detail error) (Str (message error))) (Str "Unknown error").

Section WithServer.
Context {S : Type}.
Variable respond : Request -> S -> option Response * S.

Definition exportMutation : MutationOptions S (gmap string value) Response :=
  mkMutation
    (fun data => request respond (Client.exportData data))
    (fun response =>
       match data_prop (data response) "file_path" with
       | None => throw (mkError None "TypeError")
       | Some file_path =>
           emit (Alert ("Data exported successfully! File: " +:+ ToString file_path))
       end)
    (fun error =>
       emit (Alert ("Export failed: " +:+ ToString (failure_message error))))
    ReactQuery.mutation_retry.

Definition handleExport (startDate endDate exportFormat : string) : M S unit :=
  mutate exportMutation (export_request startDate endDate exportFormat).

End WithServer.

End ExportPage.

(** ** [pages/Seizures.jsx]: the form of a seizure *)

Module SeizureForm.
Import Js JsString.

(** A seizure as the server returns it. *)
Record Seizure : Type := mkSeizure {
  id : Z;
  time : string;
  seizure_type : option string;
  duration_seconds : option Z;
  severity : option string;
  triggers : option string;
  warning_signs : option string;
  post_seizure_state : option string;
  location : option string;
  activity_before : option string;
  notes : option string
}.

(** The state of the form; the duration is what the number input
    holds (a string) or, after [handleEdit], the number of the
    seizure. *)
Record FormData : Type := mkForm {
  f_date : string;
  f_timeOfDay : string;
  f_seizure_type : string;
  f_duration_seconds : value;
  f_severity : string;
  f_triggers : string;
  f_warning_signs : string;
  f_post_seizure_state : string;
  f_location : string;
  f_activity_before : string;
  f_notes : string
}.

Section WithClock.
(** [format(parseISO(t), 'yyyy-MM-dd')] and
    [format(parseISO(t), 'HH:mm')] of date-fns. *)
Variable day_of : string -> string.
Variable time_of : string -> string.

Definition handleEdit (seizure : Seizure) : FormData :=
  mkForm (day_of (time seizure)) (time_of (time seizure))
    (HealthEvents.text_or (seizure_type seizure) "")
    (FoodForm.number_or_blank (duration_seconds seizure))
    (HealthEvents.text_or (severity seizure) "moderate")
    (HealthEvents.text_or (triggers seizure) "")
    (HealthEvents.text_or (warning_signs seizure) "")
    (HealthEvents.text_or (post_seizure_state seizure) "")
    (HealthEvents.text_or (location seizure) "")
    (HealthEvents.text_or (activity_before seizure) "")
    (HealthEvents.text_or (notes seizure) "").

End WithClock.

(** The [data] of [handleSubmit]. *)
Definition submit_data (formData : FormData) : gmap string value :=
  {[ "date" := Str (f_date formData);
     "time" := Str (f_date formData +:+ "T" +:+ f_timeOfDay formData);
     "seizure_type" := HealthEvents.or_null (f_seizure_type formData);
     "duration_seconds" := FoodForm.amount (f_duration_seconds formData);
     "severity" := HealthEvents.or_null (f_severity formData);
     "triggers" := HealthEvents.or_null (f_triggers formData);
     "warning_signs" := HealthEvents.or_null (f_warning_signs formData);
     "post_seizure_state" := HealthEvents.or_null (f_post_seizure_state formData);
     "location" := HealthEvents.or_null (f_location formData);
     "activity_before" := HealthEvents.or_null (f_activity_before formData);
     "notes" := HealthEvents.or_null (f_notes formData) ]}.

(** The request [handleSubmit] has a mutation send. *)
Definition submitted (editingSeizure : option Seizure) (formData : FormData)
  : Http.Request :=
  match editingSeizure with
  | Some seizure => Client.updateSeizure (Num (id seizure)) (submit_data formData)
  | None => Client.createSeizure (submit_data formData)
  end.

End SeizureForm.

(** ** Reading a trace *)

Module Trace.
Import Http Wire Fx.

(** The alerts of a trace, in order. *)
Definition alerts (t : list Event) : list string :=
  omap (fun ev => match ev with Alert msg => Some msg | _ => None end) t.

(** The requests of a trace, in order. *)
Definition sent (t : list Event) : list Request :=
  omap (fun ev => match ev with Sent r => Some r | _ => None end) t.

(** The [syncing] flag of the dashboard: the last value set. *)
Fixpoint syncing (t : list Event) (cur : bool) : bool :=
  match t with
  | [] => cur
  | SetSyncing b :: t' => syncing t' b
  | _ :: t' => syncing t' cur
  end.

(** What a request or a query leaves in the trace: requests, what the
    interceptor logs and the outcome of a query. *)
Definition background (ev : Event) : Prop :=
  match ev with
  | Sent _ | ConsoleError _ _ | QuerySettled _ _ => True
  | _ => False
  end.

(** A computation that only adds events of a kind to the trace. *)
Definition adds {S A} (P : Event -> Prop) (m : M S A) : Prop :=
  forall w, exists new, trace (snd (m w)) = (trace w ++ new)%list /\ Forall P new.

(** A request that is answered with a status in 2xx. *)
Definition accepted {S} (respond : Request -> S -> option Response * S)
           (r : Request) (s : S) : Prop :=
  exists resp, fst (respond r s) = Some resp /\ ok_status (status resp) = true.

End Trace.

(** ** More sample data *)

Module Cases.
Import Js Http Wire.

Definition porridge : FoodLog.FoodEntry :=
  FoodLog.mkFood 7 "2024-05-01" "2024-05-01T08:30" "breakfast" "Porridge"
    false (Some 320) (Some 0) (Some "with honey").

Definition checkup : HealthEvents.Event :=
  HealthEvents.mkEvent 3 "2024-05-01" None (Some "doctor_visit") (Some "Check-up")
    None (Some "Clinic") None None None (Some "bring results").

Definition night_seizure : SeizureForm.Seizure :=
  SeizureForm.mkSeizure 4 "2024-05-01T21:15:00" (Some "focal") (Some 95) None
    None None (Some "tired") None None None.

(** Stand-ins for the date-fns functions, on an ISO time. *)
Definition day_of (t : string) : string := String.substring 0 10 t.
Definition time_of (t : string) : string := String.substring 11 5 t.

(** A server that accepts every request. *)
Definition online (r : Request) (s : unit) : option Response * unit :=
  (Some (mkResponse 200
           (JsonObj {[ "message" := Str "Synced 1 day";
                       "file_path" := Str "exports/health.json" ]})), s).

(** A server that refuses every request, and says why. *)
Definition refusing (r : Request) (s : unit) : option Response * unit :=
  (Some (mkResponse 400 (JsonObj {[ "detail" := Str "No Garmin credentials" ]})), s).

(** A snack after midnight, logged for the day before. *)
Definition late_snack : FoodLog.FoodEntry :=
  FoodLog.mkFood 8 "2024-05-01" "2024-05-02T00:30" "snack" "Toast"
    false None None None.

(** The no-break space, U+00A0. *)
Definition nbsp : Ascii.ascii := Ascii.ascii_of_nat 160.

End Cases.

(** ** What the pages import from [api/client.js] *)

Module Pages.

(** Each page with the names of its [import { ... } from '../api/client']. *)
Definition imports : list (string * list string) :=
  [ ("Settings.jsx", ["getUser"; "updateUser"; "checkGarminConfigured"]);
    ("Dashboard.jsx", ["getTodaySummary"; "syncGarminData"]);
    ("Sickness.jsx",
     ["createSicknessEntry"; "getSicknessEntries"; "updateSicknessEntry";
      "deleteSicknessEntry"]);
    ("Export.jsx", ["exportData"; "getAIAnalysisPrompt"]);
    ("FoodLog.jsx",
     ["getFoodEntries"; "createFoodEntry"; "updateFoodEntry"; "deleteFoodEntry";
      "getFoodDatabase"; "toggleFoodFavorite"]);
    ("GarminData.jsx", ["getGarminData"; "syncGarminData"]);
    ("HealthEvents.jsx",
     ["createHealthEvent"; "getHealthEvents"; "updateHealthEvent";
      "deleteHealthEvent"]);
    ("Medications.jsx",
     ["getMedications"; "createMedication"; "updateMedication"; "deleteMedication";
      "getMedicationSchedules"; "createMedicationSchedule";
      "updateMedicationSchedule"; "deleteMedicationSchedule"]);
    ("Seizures.jsx",
     ["createSeizure"; "getSeizures"; "updateSeizure"; "deleteSeizure"]) ].

(** A page imports a name. *)
Definition imported (page name : string) : Prop :=
  exists names, (page, names) ∈ imports /\ name ∈ names.

End Pages.

(** * Properties *)

(** ** The exports of [client.js] *)

(** The table of exports agrees with the functions: a function listed
    with arguments builds, on any arguments, a request of the listed
    method and route. *)
Lemma exports_follow_definitions :
  (forall d, Http.method (Client.createSeizure d) = Http.POST) /\
  (forall a b, Http.method (Client.getSeizures a b) = Http.GET) /\
  (forall i d, Http.method (Client.updateSeizure i d) = Http.PUT) /\
  (forall i, Http.method (Client.deleteSeizure i) = Http.DELETE) /\
  (forall i, Http.method (Client.deleteWaterIntake i) = Http.DELETE) /\
  (forall d f, Http.url (Client.syncGarminData d f) = Http.lit "/garmin/sync").
Proof. repeat split. Qed.

Lemma exports_have_distinct_names : NoDup (fst <$> Client.exports).
Proof. apply (bool_decide_unpack _). vm_compute. reflexivity. Qed.

(** C4, as stated, fails: the module exports no update operation for
    water intake (no function of that name, and no [PUT] under
    [/water/]), and none of the four health-event operations that
    [HealthEvents.jsx] imports. *)
Lemma crud_exports_incomplete :
  ~ (forall e o, Client.provides e o = true) /\
  Client.provides Client.WaterIntake Client.Update = false /\
  Client.serves Client.WaterIntake Client.Update = false /\
  Client.exported "updateWaterIntake" = false /\
  forallb (Client.provides Client.HealthEvent) Client.ops = false /\
  Client.exported "createHealthEvent" = false.
Proof.
  split; [| repeat split; vm_compute; reflexivity].
  intros H. specialize (H Client.WaterIntake Client.Update).
  vm_compute in H. discriminate.
Qed.

(** C4, amended: for food entries, medications, medication schedules,
    sickness entries, seizures and daily notes the module exports the
    create, read, update and delete operations; for water intake it
    exports create, read and delete, and no update. *)
Theorem crud_exports :
  (forall o, Client.provides Client.FoodEntry o = true
             /\ Client.serves Client.FoodEntry o = true) /\
  (forall o, Client.provides Client.Medication o = true
             /\ Client.serves Client.Medication o = true) /\
  (forall o, Client.provides Client.MedicationSchedule o = true
             /\ Client.serves Client.MedicationSchedule o = true) /\
  (forall o, Client.provides Client.SicknessEntry o = true
             /\ Client.serves Client.SicknessEntry o = true) /\
  (forall o, Client.provides Client.Seizure o = true
             /\ Client.serves Client.Seizure o = true) /\
  (forall o, Client.provides Client.DailyNote o = true
             /\ Client.serves Client.DailyNote o = true) /\
  (forall o, Client.provides Client.WaterIntake o
             = match o with Client.Update => false | _ => true end) /\
  (forall o, Client.serves Client.WaterIntake o
             = match o with Client.Update => false | _ => true end).
Proof. repeat split; destruct o; vm_compute; reflexivity. Qed.

Section RecentEntries.
Import FoodLog.
Variable toLowerCase : string -> string.

Local Abbreviation key := (FoodLog.key toLowerCase).
Local Abbreviation fresh := (FoodLog.fresh toLowerCase).
Local Abbreviation remember := (FoodLog.remember toLowerCase).
Local Abbreviation first_occurrences := (FoodLog.first_occurrences toLowerCase).
Local Abbreviation recentEntries := (FoodLog.recentEntries toLowerCase).

Lemma Map_has_app {V} k (m1 m2 : JsMap V) :
  Map_has k (m1 ++ m2)%list = Map_has k m1 || Map_has k m2.
Proof. apply existsb_app. Qed.

Lemma Map_set_new {V} k (v : V) m :
  Map_has k m = false -> Map_set k v m = (m ++ [(k, v)])%list.
Proof. intros H. unfold Map_set. now rewrite H. Qed.

Lemma remember_seen seen e :
  Map_has (key e) seen = true -> remember seen e = seen.
Proof. intros H. unfold FoodLog.remember. now rewrite H. Qed.

Lemma remember_new seen e :
  Map_has (key e) seen = false ->
  remember seen e = (seen ++ [(key e, e)])%list.
Proof.
  intros H. unfold FoodLog.remember. rewrite H. simpl.
  now apply Map_set_new.
Qed.

Lemma filter_filter_absorb (f g : FoodEntry -> bool) l :
  (forall x, f x = true -> g x = true) ->
  List.filter f (List.filter g l) = List.filter f l.
Proof.
  intros Hfg. induction l as [|x l IH]; simpl; [reflexivity|].
  destruct (g x) eqn:Hg; simpl.
  - now rewrite IH.
  - destruct (f x) eqn:Hf; [|exact IH].
    apply Hfg in Hf. congruence.
Qed.

Lemma filter_filter_and (f g : FoodEntry -> bool) l :
  List.filter f (List.filter g l) = List.filter (fun x => f x && g x) l.
Proof.
  induction l as [|x l IH]; simpl; [reflexivity|].
  destruct (g x); simpl; rewrite ?andb_true_r, ?andb_false_r.
  - destruct (f x); now rewrite IH.
  - exact IH.
Qed.

(** The map after the loop, for any map before it. *)
Lemma fold_remember l : forall seen,
  Map_values (fold_left remember l seen)
  = (Map_values seen ++ List.filter (fresh seen) (first_occurrences l))%list.
Proof.
  induction l as [|e l IH]; intros seen; simpl.
  - now rewrite app_nil_r.
  - rewrite IH. unfold FoodLog.fresh at 2.
    destruct (Map_has (key e) seen) eqn:Hhas; simpl.
    + rewrite (remember_seen _ _ Hhas). f_equal.
      symmetry. apply filter_filter_absorb.
      intros x Hx. unfold FoodLog.fresh in Hx.
      destruct (String.eqb_spec (key x) (key e)) as [Heq|]; [|reflexivity].
      rewrite Heq, Hhas in Hx. discriminate.
    + rewrite (remember_new _ _ Hhas).
      unfold Map_values. rewrite map_app. simpl.
      rewrite <- app_assoc. simpl. do 2 f_equal.
      rewrite filter_filter_and.
      apply filter_ext. intros x. unfold FoodLog.fresh.
      rewrite Map_has_app. simpl. rewrite orb_false_r, negb_orb.
      f_equal. f_equal. apply String.eqb_sym.
Qed.

(** The loop computes the first occurrences. *)
Lemma recentEntries_first_occurrences l :
  recentEntries l = take 10 (first_occurrences l).
Proof.
  unfold FoodLog.recentEntries. rewrite fold_remember. simpl.
  f_equal. apply forallb_filter_id. apply forallb_forall. reflexivity.
Qed.

Lemma filter_is_sublist (f : FoodEntry -> bool) l :
  sublist (List.filter f l) l.
Proof.
  induction l as [|x l IH]; simpl; [constructor|].
  destruct (f x); now constructor.
Qed.

Lemma first_occurrences_sublist l : sublist (first_occurrences l) l.
Proof.
  induction l as [|e l IH]; simpl; [constructor|].
  apply sublist_skip. etrans; [apply filter_is_sublist | exact IH].
Qed.

Lemma first_occurrences_NoDup l : NoDup (key <$> first_occurrences l).
Proof.
  induction l as [|e l IH]; simpl; [constructor|].
  constructor.
  - intros Hin. apply list_elem_of_fmap in Hin as (x & Hk & Hx).
    apply list_elem_of_In, filter_In in Hx as [_ Hx].
    rewrite <- Hk, String.eqb_refl in Hx. discriminate.
  - eapply sublist_NoDup; [exact IH|].
    apply fmap_sublist, filter_is_sublist.
Qed.

(** An entry at position [i] is the first of its description when no
    earlier entry has the same key. *)
Lemma first_occurrences_first l e :
  e ∈ first_occurrences l ->
  exists i, l !! i = Some e /\
            forall j x, (j < i)%nat -> l !! j = Some x -> key x <> key e.
Proof.
  revert e. induction l as [|e0 l IH]; intros e; simpl.
  - intros H. inversion H.
  - intros H. apply elem_of_cons in H as [->|H].
    + exists 0%nat. split; [reflexivity|]. intros j x Hj. lia.
    + apply list_elem_of_In, filter_In in H as [H Hne].
      apply list_elem_of_In, IH in H as (i & Hi & Hfirst).
      exists (S i). split; [exact Hi|].
      intros [|j] x Hj Hx; simpl in Hx.
      * injection Hx as <-. intros Heq. rewrite Heq, String.eqb_refl in Hne.
        discriminate.
      * apply (Hfirst j); [lia | exact Hx].
Qed.

Lemma first_occurrences_cover l x :
  x ∈ l -> exists e, e ∈ first_occurrences l /\ key e = key x.
Proof.
  induction l as [|e0 l IH]; intros H; [inversion H|].
  simpl. apply elem_of_cons in H as [->|H].
  - exists e0. split; [left | reflexivity].
  - destruct (IH H) as (e & He & Hk).
    destruct (String.eqb_spec (key e) (key e0)) as [Heq|Hne].
    + exists e0. split; [left | congruence].
    + exists e. split; [|exact Hk]. right.
      apply list_elem_of_In, filter_In. split; [now apply list_elem_of_In|].
      apply negb_true_iff. now apply String.eqb_neq.
Qed.

(** Lower-casing tells two characters apart exactly when they are
    not the same letter. *)
Lemma nat_of_lower_ascii (c : Ascii.ascii) :
  Ascii.nat_of_ascii (lower_ascii c)
  = if is_upper c then (Ascii.nat_of_ascii c + 32)%nat else Ascii.nat_of_ascii c.
Proof.
  unfold lower_ascii, is_upper.
  destruct ((65 <=? Ascii.nat_of_ascii c) && (Ascii.nat_of_ascii c <=? 90))%nat eqn:E;
    [|reflexivity].
  apply andb_true_iff in E as [_ E]. apply Nat.leb_le in E.
  apply Ascii.nat_ascii_embedding. lia.
Qed.

Lemma nat_of_ascii_inj (a b : Ascii.ascii) :
  Ascii.nat_of_ascii a = Ascii.nat_of_ascii b -> a = b.
Proof.
  intros H. rewrite <- (Ascii.ascii_nat_embedding a), <- (Ascii.ascii_nat_embedding b).
  now rewrite H.
Qed.

Lemma lower_ascii_same (a b : Ascii.ascii) :
  lower_ascii a = lower_ascii b <-> same_letter a b = true.
Proof.
  unfold same_letter.
  rewrite !orb_true_iff, !andb_true_iff, !Nat.eqb_eq, Ascii.eqb_eq.
  assert (Hl : lower_ascii a = lower_ascii b <->
               Ascii.nat_of_ascii (lower_ascii a) = Ascii.nat_of_ascii (lower_ascii b)).
  { split; [now intros -> | apply nat_of_ascii_inj]. }
  rewrite Hl, !nat_of_lower_ascii.
  assert (Hu : forall c, is_upper c = true <->
                 (65 <= Ascii.nat_of_ascii c <= 90)%nat).
  { intros c. unfold is_upper. rewrite andb_true_iff, !Nat.leb_le. reflexivity. }
  destruct (is_upper a) eqn:Ea, (is_upper b) eqn:Eb;
    try (apply Hu in Ea); try (apply Hu in Eb);
    try (assert (~ (65 <= Ascii.nat_of_ascii a <= 90)%nat)
           by (rewrite <- Hu, Ea; discriminate));
    try (assert (~ (65 <= Ascii.nat_of_ascii b <= 90)%nat)
           by (rewrite <- Hu, Eb; discriminate));
    split.
  all: try (intros H'; left; left; apply nat_of_ascii_inj; lia).
  all: try (intros [[->|[_ H']]|[_ H']]; lia).
  all: try (intros [[->|[? H']]|[? H']]; first [lia | discriminate]).
  - intros H'. left. right. split; [reflexivity | lia].
  - intros H'. right. split; [reflexivity | lia].
Qed.

Lemma ascii_toLowerCase_same (s t : string) :
  ascii_toLowerCase s = ascii_toLowerCase t <-> same_ignoring_case s t = true.
Proof.
  revert t. induction s as [|a s IH]; intros [|b t]; simpl;
    try (split; [discriminate | discriminate]); [tauto|].
  rewrite andb_true_iff, <- IH, <- lower_ascii_same.
  split; [intros [= H1 H2]; now split | intros [-> ->]; reflexivity].
Qed.

Lemma NoDup_fmap_eq {A B} (f : A -> B) (l : list A) (x y : A) :
  NoDup (f <$> l) -> x ∈ l -> y ∈ l -> f x = f y -> x = y.
Proof.
  induction l as [|z l IH]; intros Hnd Hx Hy Hf; [inversion Hx|].
  rewrite fmap_cons in Hnd. apply NoDup_cons in Hnd as [Hz Hnd].
  apply elem_of_cons in Hx as [->|Hx]; apply elem_of_cons in Hy as [->|Hy].
  - reflexivity.
  - exfalso. apply Hz. rewrite Hf. now apply list_elem_of_fmap_2.
  - exfalso. apply Hz. rewrite <- Hf. now apply list_elem_of_fmap_2.
  - now apply IH.
Qed.

(** On a string of ASCII characters [toLowerCase] turns the letters A
    to Z into a to z and leaves the rest. *)
Hypothesis toLowerCase_ascii :
  forall s, is_ascii s = true -> toLowerCase s = ascii_toLowerCase s.

(** C8: the quick-add list has at most ten entries; it is the first
    ten of the entries that are the first of their description, case
    ignored, in the order of the input: no two of its entries share a
    description, each is the first entry of its description, and every
    description of the input is represented unless the list is full.
    Case is ignored in this sense: two ASCII descriptions count as the
    same exactly when they differ in the case of letters only, and of
    such entries the list holds one at most. *)
Theorem recentEntries_spec (l : list FoodEntry) :
  (length (recentEntries l) <= 10)%nat /\
  recentEntries l = take 10 (first_occurrences l) /\
  NoDup (key <$> recentEntries l) /\
  sublist (recentEntries l) l /\
  (forall e, e ∈ recentEntries l ->
     exists i, l !! i = Some e /\
               forall j x, (j < i)%nat -> l !! j = Some x -> key x <> key e) /\
  (forall x, x ∈ l ->
     (exists e, e ∈ recentEntries l /\ key e = key x) \/
     length (recentEntries l) = 10%nat) /\
  (forall x y,
     is_ascii (description x) = true -> is_ascii (description y) = true ->
     (key x = key y <->
      same_ignoring_case (description x) (description y) = true)) /\
  (forall x y,
     x ∈ recentEntries l -> y ∈ recentEntries l ->
     is_ascii (description x) = true -> is_ascii (description y) = true ->
     same_ignoring_case (description x) (description y) = true -> x = y).
Proof.
  assert (Hcase : forall x y,
            is_ascii (description x) = true -> is_ascii (description y) = true ->
            (key x = key y <->
             same_ignoring_case (description x) (description y) = true)).
  { intros x y Hx Hy. unfold FoodLog.key.
    rewrite (toLowerCase_ascii _ Hx), (toLowerCase_ascii _ Hy).
    apply ascii_toLowerCase_same. }
  assert (Hnd : NoDup (key <$> recentEntries l)).
  { rewrite recentEntries_first_occurrences.
    eapply sublist_NoDup; [apply first_occurrences_NoDup|].
    apply fmap_sublist, sublist_take. }
  assert (Hlast : forall x y,
            x ∈ recentEntries l -> y ∈ recentEntries l ->
            is_ascii (description x) = true -> is_ascii (description y) = true ->
            same_ignoring_case (description x) (description y) = true -> x = y).
  { intros x y Hx Hy Ax Ay Hs.
    apply (NoDup_fmap_eq key (recentEntries l)); try assumption.
    now apply Hcase. }
  split; [|split; [|split; [exact Hnd|split; [|split; [|split; [|split;
    [exact Hcase | exact Hlast]]]]]]];
    rewrite recentEntries_first_occurrences;
    pose proof (sublist_take (first_occurrences l) 10) as Htake.
  - rewrite length_take. lia.
  - reflexivity.
  - etrans; [exact Htake | apply first_occurrences_sublist].
  - intros e He. apply first_occurrences_first.
    eapply elem_of_sublist; eassumption.
  - intros x Hx.
    destruct (le_lt_dec (length (first_occurrences l)) 10) as [Hle|Hgt].
    + left. rewrite take_ge by exact Hle. now apply first_occurrences_cover.
    + right. rewrite length_take. lia.
Qed.

End RecentEntries.
(** ** The summary statistics of [GarminData.jsx] *)

Section SummaryStatistics.
Import Model JsNum GarminData.
Variable toFixed1 : number -> string.

Lemma or_zero_default x : or_zero x = default 0 x.
Proof.
  destruct x as [v|]; simpl; [|reflexivity].
  destruct (Z.eqb_spec v 0); congruence.
Qed.

Lemma reduce_sum_from f l a :
  fold_left (fun sum d => sum + or_zero (f d)) l a = a + metric_total f l.
Proof.
  revert a. induction l as [|d l IH]; intros a; simpl.
  - lia.
  - rewrite IH, or_zero_default. unfold metric_total. simpl. lia.
Qed.

Lemma reduce_sum_total f l : reduce_sum f l = metric_total f l.
Proof. unfold reduce_sum. now rewrite reduce_sum_from. Qed.

(** [Math.round(total / n)] in integers. *)
Lemma rounded_mean_floor (t : Z) (n : nat) :
  (0 < n)%nat ->
  rounded_mean t n = inject_Z ((2 * t + Z.of_nat n) / (2 * Z.of_nat n)).
Proof.
  intros Hn. unfold rounded_mean. f_equal.
  destruct n as [|n]; [lia|].
  unfold Qfloor, Qdiv, Qmult, Qplus, Qinv, inject_Z. simpl.
  f_equal; lia.
Qed.

Lemma div_by_length (t : Z) (d : GarminDailyMetric) l :
  div (of_Z t) (of_Z (Z.of_nat (length (d :: l))))
  = Fin (inject_Z t / inject_Z (Z.of_nat (length (d :: l)))).
Proof. reflexivity. Qed.

(** C10: the summary is defined on every list.  On the empty list it
    is the constant of zeros, and the quotient is not taken (without
    the guard it would be [NaN]); on a non-empty list each average is
    the sum of the metric, a missing value counting 0, divided by the
    length of the list; no cell is ever [NaN] or infinite. *)
Theorem summary_total :
  summary toFixed1 [] = mkStats (CNum (Fin 0)) (CNum (Fin 0)) (CNum (Fin 0)) (CNum (Fin 0)) /\
  unguarded_avgSteps [] = NaN /\
  (forall d l,
     let g := d :: l in
     let n := length g in
     summary toFixed1 g =
     mkStats
       (CNum (Fin (rounded_mean (metric_total steps g) n)))
       (CStr (toFixed1
                (Fin (inject_Z (metric_total sleep_duration_seconds g)
                      / inject_Z (Z.of_nat n) / inject_Z 3600))))
       (CNum (Fin (rounded_mean (metric_total resting_heart_rate g) n)))
       (CNum (Fin (rounded_mean (metric_total body_battery_highest g) n)))) /\
  (forall g,
     (exists a b c, avgSteps (summary toFixed1 g) = CNum (Fin a) /\
                    avgRestingHR (summary toFixed1 g) = CNum (Fin b) /\
                    avgBodyBattery (summary toFixed1 g) = CNum (Fin c)) /\
     (avgSleepHours (summary toFixed1 g) = CNum (Fin 0) \/
      exists q, avgSleepHours (summary toFixed1 g) = CStr (toFixed1 (Fin q)))).
Proof.
  assert (Hcons : forall d l,
     summary toFixed1 (d :: l) =
     mkStats
       (CNum (Fin (rounded_mean (metric_total steps (d :: l)) (length (d :: l)))))
       (CStr (toFixed1
                (Fin (inject_Z (metric_total sleep_duration_seconds (d :: l))
                      / inject_Z (Z.of_nat (length (d :: l))) / inject_Z 3600))))
       (CNum (Fin (rounded_mean (metric_total resting_heart_rate (d :: l)) (length (d :: l)))))
       (CNum (Fin (rounded_mean (metric_total body_battery_highest (d :: l)) (length (d :: l)))))).
  { intros d l. unfold summary.
    replace (0 <? Z.of_nat (length (d :: l))) with true
      by (symmetry; apply Z.ltb_lt; simpl; lia).
    rewrite !reduce_sum_total, !div_by_length. reflexivity. }
  split; [reflexivity|]. split; [reflexivity|]. split; [exact Hcons|].
  intros [|d l].
  - split; [exists 0%Q, 0%Q, 0%Q; repeat split | left; reflexivity].
  - rewrite Hcons. simpl. split; [|right]; eauto 10.
Qed.

End SummaryStatistics.
(** ** Effects: what a handler leaves in the world *)

Section Handlers.
Import Js Http Wire Fx.
Context {S : Type}.
Variable respond : Request -> S -> option Response * S.

Lemma emit_run (ev : Event) (w : World S) :
  emit ev w = (Normal tt, mkWorld (server w) (trace w ++ [ev])).
Proof. reflexivity. Qed.

(** The three ways a request ends. *)
Lemma request_run (r : Request) (w : World S) :
  request respond r w =
  match respond r (server w) with
  | (Some resp, s') =>
      if ok_status (status resp)
      then (Normal resp, mkWorld s' (trace w ++ [Sent r]))
      else (Throw (mkError (Some resp) (status_message (status resp))),
            mkWorld s' ((trace w ++ [Sent r]) ++
                        [ConsoleError "API Error:"
                           match data resp with
                           | NoData => LogText (status_message (status resp))
                           | d => LogData d
                           end]))
  | (None, s') =>
      (Throw (mkError None "Network Error"),
       mkWorld s' ((trace w ++ [Sent r]) ++
                   [ConsoleError "API Error:" (LogText "Network Error")]))
  end.
Proof.
  unfold request. destruct (respond r (server w)) as [[resp|] s']; [|reflexivity].
  destruct (ok_status (status resp)); [reflexivity|].
  destruct resp as [st []]; reflexivity.
Qed.

Lemma request_server (r : Request) (w : World S) :
  server (snd (request respond r w)) = snd (respond r (server w)).
Proof.
  rewrite request_run. destruct (respond r (server w)) as [[resp|] s']; [|reflexivity].
  now destruct (ok_status (status resp)).
Qed.

End Handlers.

(** ** The settings form *)

Section SettingsForm.
Import Js Http Wire Fx Settings.

Lemma spread_password (f : FormData) :
  prop (spread f) "garmin_password" = Str (garmin_password f).
Proof.
  unfold prop, spread.
  rewrite lookup_insert_ne by discriminate.
  rewrite lookup_insert_ne by discriminate.
  now rewrite lookup_singleton_eq.
Qed.

Lemma falsy_Str (s : string) : falsy (Str s) = true <-> s = "".
Proof.
  unfold falsy. simpl. rewrite negb_involutive. apply String.eqb_eq.
Qed.

Lemma payload_blank (f : FormData) :
  garmin_password f = "" ->
  payload f = {[ "email" := Str (email f);
                  "garmin_username" := Str (garmin_username f) ]}.
Proof.
  intros H. unfold payload. rewrite spread_password.
  rewrite (proj2 (falsy_Str _) H). unfold spread.
  rewrite delete_insert_ne by discriminate.
  rewrite delete_insert_ne by discriminate.
  rewrite delete_singleton_eq. now rewrite insert_empty.
Qed.

Lemma payload_given (f : FormData) :
  garmin_password f <> "" -> payload f = spread f.
Proof.
  intros H. unfold payload. rewrite spread_password.
  destruct (falsy (Str (garmin_password f))) eqn:E; [|reflexivity].
  apply falsy_Str in E. contradiction.
Qed.

Lemma handle_updateUser env (o : gmap string value) (s : Backend.Store) :
  Backend.handle env (Client.updateUser o) s =
  (mkResponse 200
     (JsonObj (Backend.user_json (Backend.update_user env o (Backend.user s)))),
   Backend.set_user (Backend.update_user env o (Backend.user s)) s).
Proof. reflexivity. Qed.

(** What submitting the form does, against the store. *)
Lemma handleSubmit_run env (f : FormData) (w : World Backend.Store) :
  handleSubmit (Backend.respond env) f w =
  (Normal tt,
   mkWorld
     (Backend.set_user
        (Backend.update_user env (payload f) (Backend.user (server w)))
        (server w))
     (trace w ++
      [PreventDefault; Sent (Client.updateUser (payload f));
       InvalidateQueries "user"; InvalidateQueries "garminConfigured";
       Alert "Settings saved successfully!"; ResetPassword])).
Proof.
  unfold handleSubmit, mutate, swallow, try_catch, bind.
  rewrite emit_run. cbn [updateMutation retry retrying mutationFn ReactQuery.mutation_retry].
  rewrite request_run. cbn [server]. unfold Backend.respond.
  rewrite handle_updateUser. simpl.
  rewrite <- !app_assoc. reflexivity.
Qed.

(** C9: the form is sent once, as [PUT /user/me].  With the password
    field empty the payload carries the keys [email] and
    [garmin_username] only, and the stored password is what it was; a
    password that is not empty is in the payload as typed. *)
Theorem settings_password_kept env (f : FormData) (w : World Backend.Store) :
  let w' := snd (handleSubmit (Backend.respond env) f w) in
  trace w' = (trace w ++
      [PreventDefault; Sent (Client.updateUser (payload f));
       InvalidateQueries "user"; InvalidateQueries "garminConfigured";
       Alert "Settings saved successfully!"; ResetPassword])%list /\
  (garmin_password f = "" ->
     payload f = {[ "email" := Str (email f);
                    "garmin_username" := Str (garmin_username f) ]} /\
     dom (payload f) = ({[ "email"; "garmin_username" ]} : gset string) /\
     Backend.garmin_password_encrypted (Backend.user (server w'))
     = Backend.garmin_password_encrypted (Backend.user (server w))) /\
  (garmin_password f <> "" ->
     payload f = spread f /\
     payload f !! "garmin_password" = Some (Str (garmin_password f)) /\
     Backend.garmin_password_encrypted (Backend.user (server w'))
     = Some (Backend.encrypt env (garmin_password f))).
Proof.
  intros w'. subst w'. rewrite handleSubmit_run. simpl.
  split; [reflexivity|]. split.
  - intros H. rewrite (payload_blank _ H). split; [reflexivity|]. split.
    + rewrite dom_insert_L, dom_singleton_L. reflexivity.
    + rewrite lookup_insert_ne by discriminate.
      now rewrite lookup_singleton_ne by discriminate.
  - intros H. rewrite (payload_given _ H). split; [reflexivity|].
    pose proof (spread_password f) as Hp. unfold prop in Hp.
    destruct (spread f !! "garmin_password") as [v|] eqn:E; [|discriminate].
    subst v. split; reflexivity.
Qed.

End SettingsForm.
(** ** A failed sync is reported and not repeated *)

Section SyncFailure.
Import Js Http Wire Fx.
Context {S : Type}.
Variable respond : Request -> S -> option Response * S.
Variable query_retry : nat.

Lemma sync_requests_app (a b : list Event) :
  sync_requests (a ++ b) = (sync_requests a + sync_requests b)%nat.
Proof.
  induction a as [|ev a IH]; simpl; [reflexivity|].
  destruct ev; try exact IH.
  destruct (is_sync_request r); simpl; now rewrite IH.
Qed.

Lemma shown_message_app (a b : list Event) cur :
  shown_message (a ++ b) cur = shown_message b (shown_message a cur).
Proof.
  revert cur. induction a as [|ev a IH]; intros cur; simpl; [reflexivity|].
  destruct ev; apply IH.
Qed.

Lemma quiet_ret {A} (a : A) : quiet (ret a : M S A).
Proof. intros w. reflexivity. Qed.

Lemma quiet_emit (ev : Event) :
  (forall r, ev = Sent r -> is_sync_request r = false) ->
  quiet (emit ev : M S unit).
Proof.
  intros H w. simpl. rewrite sync_requests_app. simpl.
  destruct ev; simpl; try lia.
  rewrite (H r eq_refl). lia.
Qed.

Lemma quiet_bind {A B} (m : M S A) (k : A -> M S B) :
  quiet m -> (forall a, quiet (k a)) -> quiet (bind m k).
Proof.
  intros Hm Hk w. unfold bind. specialize (Hm w).
  destruct (m w) as [[a|e] w1]; simpl in *.
  - now rewrite Hk.
  - exact Hm.
Qed.

Lemma quiet_try_catch {A} (m : M S A) (h : Error -> M S A) :
  quiet m -> (forall e, quiet (h e)) -> quiet (try_catch m h).
Proof.
  intros Hm Hh w. unfold try_catch. specialize (Hm w).
  destruct (m w) as [[a|e] w1]; simpl in *.
  - exact Hm.
  - now rewrite Hh.
Qed.

Lemma quiet_retrying {A} (n : nat) (fn : M S A) :
  quiet fn -> quiet (retrying n fn).
Proof.
  intros H. induction n as [|n IH]; simpl; [exact H|].
  apply quiet_try_catch; [exact H | intros _; exact IH].
Qed.

Lemma request_count (r : Request) (w : World S) :
  sync_requests (trace (snd (request respond r w)))
  = (sync_requests (trace w) + if is_sync_request r then 1 else 0)%nat.
Proof.
  rewrite request_run.
  destruct (respond r (server w)) as [[resp|] s'];
    [destruct (ok_status (status resp))|]; simpl;
    rewrite ?sync_requests_app; simpl;
    destruct (is_sync_request r); simpl; lia.
Qed.

Lemma quiet_request (r : Request) :
  is_sync_request r = false -> quiet (request respond r).
Proof. intros H w. rewrite request_count, H. lia. Qed.

(** Fetching the summary again sends no sync request and throws
    nothing, however often the query is tried. *)
Lemma quiet_refetch_summary :
  quiet (refetch "todaySummary" query_retry (Dashboard.todaySummary respond)).
Proof.
  unfold refetch. apply quiet_try_catch.
  - apply quiet_bind.
    + apply quiet_retrying. unfold Dashboard.todaySummary.
      apply quiet_bind; [now apply quiet_request | intros; apply quiet_ret].
    + intros d. now apply quiet_emit.
  - intros _. now apply quiet_emit.
Qed.

Lemma refetch_normal key n (q : M S Data) (w : World S) :
  fst (refetch key n q w) = Normal tt.
Proof.
  unfold refetch, try_catch, bind.
  destruct (retrying n q w) as [[d|e] w1]; reflexivity.
Qed.

Lemma sync_request_is_sync d f :
  is_sync_request (Client.syncGarminData d f) = true.
Proof. reflexivity. Qed.

(** The button of the dashboard. *)
Lemma handleSync_count (w : World S) :
  sync_requests (trace (snd (Dashboard.handleSync respond query_retry w)))
  = Datatypes.S (sync_requests (trace w)).
Proof.
  unfold Dashboard.handleSync, bind, finally, try_catch.
  rewrite emit_run.
  set (w0 := mkWorld (server w) (trace w ++ [SetSyncing true])).
  pose proof (request_count (Client.syncGarminData Undefined Undefined) w0) as Hc.
  rewrite sync_request_is_sync in Hc.
  destruct (request respond (Client.syncGarminData Undefined Undefined) w0)
    as [[resp|e] w1]; simpl in Hc.
  - pose proof (quiet_refetch_summary w1) as Hq.
    pose proof (refetch_normal "todaySummary" query_retry
                  (Dashboard.todaySummary respond) w1) as Hn.
    destruct (refetch "todaySummary" query_retry (Dashboard.todaySummary respond) w1)
      as [c w2]; simpl in *. subst c. simpl.
    rewrite sync_requests_app, Hq, Hc. unfold w0. simpl.
    rewrite sync_requests_app. simpl. lia.
  - simpl. rewrite !sync_requests_app, Hc. unfold w0. simpl.
    rewrite sync_requests_app. simpl. lia.
Qed.

Lemma handleSync_rejected (w : World S) :
  rejected respond (Client.syncGarminData Undefined Undefined) (server w) ->
  exists what e,
    Dashboard.handleSync respond query_retry w =
    (Normal tt,
     mkWorld (snd (respond (Client.syncGarminData Undefined Undefined) (server w)))
       (trace w ++
        [SetSyncing true;
         Sent (Client.syncGarminData Undefined Undefined);
         ConsoleError "API Error:" what;
         ConsoleError "Sync failed:" (LogError e);
         Alert "Failed to sync Garmin data. Please check your credentials in Settings.";
         SetSyncing false])).
Proof.
  unfold rejected, Dashboard.handleSync, bind, finally, try_catch.
  rewrite emit_run, request_run. cbn [server trace].
  destruct (respond (Client.syncGarminData Undefined Undefined) (server w))
    as [[resp|] s']; simpl.
  - intros ->. eexists _, _. simpl. rewrite <- !app_assoc. reflexivity.
  - intros _. eexists _, _. rewrite <- !app_assoc. reflexivity.
Qed.

(** The manual sync of the Garmin page. *)
Lemma handleManualSync_count (D : string) (force : bool) (w : World S) :
  sync_requests (trace (snd (GarminData.handleManualSync respond D force w)))
  = Datatypes.S (sync_requests (trace w)).
Proof.
  unfold GarminData.handleManualSync, mutate, swallow, try_catch, bind.
  rewrite emit_run.
  cbn [GarminData.syncMutation retry retrying mutationFn onSuccess onError
       ReactQuery.mutation_retry].
  rewrite request_run. cbn [server trace].
  destruct (respond (Client.syncGarminData (Str D) (Bool force)) (server w))
    as [[resp|] s']; simpl.
  - destruct (ok_status (status resp)); simpl.
    + destruct (data_prop (data resp) "message"); simpl;
        rewrite !sync_requests_app; simpl; lia.
    + rewrite !sync_requests_app; simpl; lia.
  - rewrite !sync_requests_app; simpl; lia.
Qed.

Lemma handleManualSync_rejected (D : string) (force : bool) (w : World S) :
  rejected respond (Client.syncGarminData (Str D) (Bool force)) (server w) ->
  exists what e,
    GarminData.handleManualSync respond D force w =
    (Normal tt,
     mkWorld (snd (respond (Client.syncGarminData (Str D) (Bool force)) (server w)))
       (trace w ++
        [SetSyncMessage None;
         Sent (Client.syncGarminData (Str D) (Bool force));
         ConsoleError "API Error:" what;
         SetSyncMessage
           (Some (mkMessage "error"
                    (or_else (detail e)
                       (Str "Failed to sync data. Please check your Garmin credentials."))));
         ClearSyncMessageAfter 5000])).
Proof.
  unfold rejected, GarminData.handleManualSync, mutate, swallow, try_catch, bind.
  rewrite emit_run.
  cbn [GarminData.syncMutation retry retrying mutationFn onSuccess onError
       ReactQuery.mutation_retry].
  rewrite request_run. cbn [server trace].
  destruct (respond (Client.syncGarminData (Str D) (Bool force)) (server w))
    as [[resp|] s']; simpl.
  - intros ->. eexists _, _. simpl. rewrite <- !app_assoc. reflexivity.
  - intros _. eexists _, _. rewrite <- !app_assoc. reflexivity.
Qed.

(** C3: one user action sends exactly one sync request, whatever
    comes of it.  When the request is rejected the dashboard logs the
    error and raises the alert, the Garmin page shows the error message
    (the detail the server gave, or else its own text), and neither
    sends the request again. *)
Theorem sync_failure_reported_once (w : World S) (D : string) (force : bool) :
  let d := snd (Dashboard.handleSync respond query_retry w) in
  let g := snd (GarminData.handleManualSync respond D force w) in
  sync_requests (trace d) = Datatypes.S (sync_requests (trace w)) /\
  sync_requests (trace g) = Datatypes.S (sync_requests (trace w)) /\
  (rejected respond (Client.syncGarminData Undefined Undefined) (server w) ->
   exists what e,
     trace d =
     (trace w ++
      [SetSyncing true;
       Sent (Client.syncGarminData Undefined Undefined);
       ConsoleError "API Error:" what;
       ConsoleError "Sync failed:" (LogError e);
       Alert "Failed to sync Garmin data. Please check your credentials in Settings.";
       SetSyncing false])%list) /\
  (rejected respond (Client.syncGarminData (Str D) (Bool force)) (server w) ->
   exists what e,
     let shown :=
       mkMessage "error"
         (or_else (detail e)
            (Str "Failed to sync data. Please check your Garmin credentials.")) in
     trace g =
     (trace w ++
      [SetSyncMessage None;
       Sent (Client.syncGarminData (Str D) (Bool force));
       ConsoleError "API Error:" what;
       SetSyncMessage (Some shown);
       ClearSyncMessageAfter 5000])%list /\
     forall cur, shown_message (trace g) cur = Some shown).
Proof.
  intros d g. subst d g.
  split; [apply handleSync_count|]. split; [apply handleManualSync_count|].
  split.
  - intros H. destruct (handleSync_rejected w H) as (what & e & ->).
    now exists what, e.
  - intros H. destruct (handleManualSync_rejected D force w H) as (what & e & ->).
    exists what, e. simpl. split; [reflexivity|].
    intros cur. now rewrite shown_message_app.
Qed.

End SyncFailure.
(** ** The Garmin table *)

Section GarminTable.
Import Js Http Model Wire Backend.

Implicit Types (t : list GarminDailyMetric) (row g : GarminDailyMetric).

Lemma is_day_true D g : is_day D g = true <-> date g = D.
Proof. apply String.eqb_eq. Qed.

Lemma has_day_elem D t : has_day D t = true <-> D ∈ date <$> t.
Proof.
  unfold has_day. rewrite existsb_exists, list_elem_of_fmap.
  split; intros (g & H1 & H2).
  - exists g. apply is_day_true in H2. split; [easy | now apply list_elem_of_In].
  - exists g. split; [now apply list_elem_of_In | now apply is_day_true].
Qed.

Lemma date_with_date D g : date (with_date D g) = D.
Proof. reflexivity. Qed.

(** Replacing the rows of a date by a row of that date moves no date. *)
Lemma dates_replace row t :
  date <$> List.map (fun r => if is_day (date row) r then row else r) t
  = date <$> t.
Proof.
  induction t as [|g t IH]; [reflexivity|].
  cbn [List.map]. rewrite !fmap_cons, IH. f_equal.
  destruct (is_day (date row) g) eqn:E; [|reflexivity].
  apply is_day_true in E. congruence.
Qed.

Lemma dates_upsert row t :
  date <$> upsert row t
  = if has_day (date row) t then date <$> t else ((date <$> t) ++ [date row])%list.
Proof.
  unfold upsert. destruct (has_day (date row) t).
  - apply dates_replace.
  - now rewrite fmap_app.
Qed.

Lemma has_day_upsert row t : has_day (date row) (upsert row t) = true.
Proof.
  apply has_day_elem. rewrite dates_upsert.
  destruct (has_day (date row) t) eqn:E.
  - now apply has_day_elem.
  - apply elem_of_app. right. now left.
Qed.

Lemma upsert_NoDup row t : NoDup (date <$> t) -> NoDup (date <$> upsert row t).
Proof.
  intros H. rewrite dates_upsert.
  destruct (has_day (date row) t) eqn:E; [exact H|].
  apply NoDup_app. split; [exact H|]. split.
  - intros D HD Hin. apply list_elem_of_singleton in Hin. subst D.
    apply has_day_elem in HD. congruence.
  - apply NoDup_singleton.
Qed.

Lemma upsert_length row t :
  has_day (date row) t = true -> length (upsert row t) = length t.
Proof. intros H. unfold upsert. rewrite H. apply length_map. Qed.

(** After the upsert every row of the date is the row written. *)
Lemma upsert_rows_of_date row t g :
  g ∈ upsert row t -> date g = date row -> g = row.
Proof.
  unfold upsert. destruct (has_day (date row) t) eqn:E.
  - intros Hin Hd. apply list_elem_of_In, in_map_iff in Hin as (r & Hr & _).
    destruct (is_day (date row) r) eqn:Er; [easy|]. subst g.
    apply is_day_true in Hd. congruence.
  - intros Hin Hd. apply elem_of_app in Hin as [Hin|Hin].
    + assert (has_day (date row) t = true); [|congruence].
      apply has_day_elem. rewrite <- Hd. now apply list_elem_of_fmap_2.
    + now apply list_elem_of_singleton in Hin.
Qed.

Lemma find_day_some D t g : find_day D t = Some g -> g ∈ t /\ date g = D.
Proof.
  intros H. apply find_some in H as [H1 H2].
  split; [now apply list_elem_of_In | now apply is_day_true].
Qed.

Lemma find_day_none D t : find_day D t = None -> forall g, g ∈ t -> date g <> D.
Proof.
  intros H g Hg Hd. apply list_elem_of_In in Hg.
  pose proof (find_none _ _ H g Hg) as Hn.
  apply is_day_true in Hd. congruence.
Qed.

(** With one row per date the row of a date is the one [find_day]
    finds. *)
Lemma find_day_unique D t g :
  NoDup (date <$> t) -> g ∈ t -> date g = D -> find_day D t = Some g.
Proof.
  induction t as [|g0 t IH]; intros Hnd Hin Hd; [inversion Hin|].
  simpl in Hnd. apply NoDup_cons in Hnd as [Hnotin Hnd].
  unfold find_day. simpl. destruct (is_day D g0) eqn:E.
  - apply is_day_true in E. apply elem_of_cons in Hin as [->|Hin]; [reflexivity|].
    exfalso. apply Hnotin. rewrite E, <- Hd. now apply list_elem_of_fmap_2.
  - apply elem_of_cons in Hin as [->|Hin].
    + apply is_day_true in Hd. congruence.
    + now apply IH.
Qed.

Lemma find_day_upsert row t : find_day (date row) (upsert row t) = Some row.
Proof.
  destruct (find_day (date row) (upsert row t)) as [g|] eqn:E.
  - apply find_day_some in E as [Hin Hd]. f_equal.
    now apply (upsert_rows_of_date row t).
  - exfalso. pose proof (has_day_upsert row t) as H.
    apply has_day_elem, list_elem_of_fmap in H as (g & Hd & Hin).
    now apply (find_day_none _ _ E g).
Qed.

Lemma find_day_upsert_other D row t :
  D <> date row -> find_day D (upsert row t) = find_day D t.
Proof.
  intros Hne. unfold upsert, find_day.
  assert (Hrow : is_day D row = false).
  { apply not_true_iff_false. rewrite is_day_true. congruence. }
  destruct (has_day (date row) t).
  - induction t as [|g t IH]; simpl; [reflexivity|].
    destruct (is_day (date row) g) eqn:E.
    + rewrite Hrow. apply is_day_true in E.
      assert (is_day D g = false) as ->; [|exact IH].
      apply not_true_iff_false. rewrite is_day_true. congruence.
    + destruct (is_day D g); [reflexivity | exact IH].
  - induction t as [|g t IH]; simpl.
    + now rewrite Hrow.
    + destruct (is_day D g); [reflexivity | exact IH].
Qed.

(** *** Sync *)

Lemma sync_skip env D s :
  has_day D (garmin s) = true -> sync env D false s = (Skipped, s).
Proof. intros H. unfold sync. now rewrite H. Qed.

Lemma sync_write env D force s agg :
  has_day D (garmin s) && negb force = false ->
  garmin_connect env D = Some agg ->
  sync env D force s
  = (Written, set_garmin (upsert (with_date D agg) (garmin s)) s).
Proof. intros H1 H2. unfold sync. now rewrite H1, H2. Qed.

Lemma sync_twice env D s :
  snd (sync env D false (snd (sync env D false s))) = snd (sync env D false s).
Proof.
  unfold sync at 2 3. rewrite andb_true_r.
  destruct (has_day D (garmin s)) eqn:Hd; simpl.
  - now rewrite sync_skip.
  - destruct (garmin_connect env D) as [agg|] eqn:Hg; simpl.
    + rewrite sync_skip; [reflexivity|]. simpl.
      apply (has_day_upsert (with_date D agg)).
    + unfold sync. now rewrite Hd, Hg.
Qed.

Lemma sync_preserves env D force s :
  one_row_per_date s -> one_row_per_date (snd (sync env D force s)).
Proof.
  unfold one_row_per_date, sync. intros H.
  destruct (has_day D (garmin s) && negb force); [exact H|].
  destruct (garmin_connect env D); [|exact H].
  simpl. now apply upsert_NoDup.
Qed.

Lemma handle_sync env (D : string) (f : bool) s :
  handle env (Client.syncGarminData (Str D) (Bool f)) s =
  match sync env D f s with
  | (Failed, s') => reply 500 (JsonObj ∅) s'
  | (_, s') => reply 200 (JsonObj ∅) s'
  end.
Proof. reflexivity. Qed.

Lemma handle_sync_store env (D : string) (f : bool) s :
  snd (handle env (Client.syncGarminData (Str D) (Bool f)) s)
  = snd (sync env D f s).
Proof. rewrite handle_sync. now destruct (sync env D f s) as [[] s']. Qed.

End GarminTable.
Section GarminSync.
Import Js Http Model Wire Fx Backend.

(** The manual sync leaves the server as the one request left it. *)
Lemma handleManualSync_server {S} (respond : Request -> S -> option Response * S)
      (D : string) (force : bool) (w : World S) :
  server (snd (GarminData.handleManualSync respond D force w))
  = snd (respond (Client.syncGarminData (Str D) (Bool force)) (server w)).
Proof.
  unfold GarminData.handleManualSync, mutate, swallow, try_catch, bind.
  rewrite emit_run.
  cbn [GarminData.syncMutation retry retrying mutationFn onSuccess onError
       ReactQuery.mutation_retry].
  rewrite request_run. cbn [server trace].
  destruct (respond (Client.syncGarminData (Str D) (Bool force)) (server w))
    as [[resp|] s']; simpl; [|reflexivity].
  destruct (ok_status (status resp)); simpl; [|reflexivity].
  destruct (data_prop (data resp) "message"); reflexivity.
Qed.

Lemma respond_store env r s :
  snd (Backend.respond env r s) = snd (handle env r s).
Proof. unfold Backend.respond. now destruct (handle env r s). Qed.

(** The second sync is skipped whatever Garmin Connect answers then,
    provided the first one found or wrote a row. *)
Lemma sync_twice_any_env env1 env2 D s :
  has_day D (garmin s) = true \/ is_Some (garmin_connect env1 D) ->
  snd (sync env2 D false (snd (sync env1 D false s))) = snd (sync env1 D false s).
Proof.
  intros H. unfold sync at 2 3. rewrite andb_true_r.
  destruct (has_day D (garmin s)) eqn:Hd; simpl.
  - now rewrite sync_skip.
  - destruct H as [H|[agg Hagg]]; [discriminate|]. rewrite Hagg. simpl.
    rewrite sync_skip; [reflexivity|]. simpl.
    apply (has_day_upsert (with_date D agg)).
Qed.

Lemma readonly_ret {S A} (a : A) : readonly (ret a : M S A).
Proof. intros w. reflexivity. Qed.

Lemma readonly_emit {S} (ev : Event) : readonly (emit ev : M S unit).
Proof. intros w. reflexivity. Qed.

Lemma readonly_bind {S A B} (m : M S A) (k : A -> M S B) :
  readonly m -> (forall a, readonly (k a)) -> readonly (bind m k).
Proof.
  intros Hm Hk w. unfold bind. specialize (Hm w).
  destruct (m w) as [[a|e] w1]; simpl in *; [|exact Hm].
  now rewrite Hk.
Qed.

Lemma readonly_try_catch {S A} (m : M S A) (h : Error -> M S A) :
  readonly m -> (forall e, readonly (h e)) -> readonly (try_catch m h).
Proof.
  intros Hm Hh w. unfold try_catch. specialize (Hm w).
  destruct (m w) as [[a|e] w1]; simpl in *; [exact Hm|].
  now rewrite Hh.
Qed.

Lemma readonly_retrying {S A} (n : nat) (fn : M S A) :
  readonly fn -> readonly (retrying n fn).
Proof.
  intros H. induction n as [|n IH]; simpl; [exact H|].
  apply readonly_try_catch; [exact H | intros _; exact IH].
Qed.

(** Fetching the summary again does not touch the store. *)
Lemma readonly_refetch_summary env n :
  readonly (refetch "todaySummary" n (Dashboard.todaySummary (Backend.respond env))).
Proof.
  unfold refetch. apply readonly_try_catch.
  - apply readonly_bind; [|intros; apply readonly_emit].
    apply readonly_retrying. unfold Dashboard.todaySummary.
    apply readonly_bind; [|intros; apply readonly_ret].
    intros w. now rewrite request_server.
  - intros _. apply readonly_emit.
Qed.

Lemma handle_sync_default env s :
  snd (handle env (Client.syncGarminData Undefined Undefined) s)
  = snd (sync env (sync_default env) false s).
Proof.
  change (handle env (Client.syncGarminData Undefined Undefined) s)
    with (match sync env (sync_default env) false s with
          | (Failed, s') => reply 500 (JsonObj ∅) s'
          | (_, s') => reply 200 (JsonObj ∅) s'
          end).
  now destruct (sync env (sync_default env) false s) as [[] s'].
Qed.

(** The button of the dashboard leaves the store as the sync of the
    default date leaves it. *)
Lemma handleSync_server env n (w : World Store) :
  server (snd (Dashboard.handleSync (Backend.respond env) n w))
  = snd (sync env (sync_default env) false (server w)).
Proof.
  unfold Dashboard.handleSync, bind, finally, try_catch.
  rewrite emit_run.
  set (w0 := mkWorld (server w) (trace w ++ [SetSyncing true])).
  pose proof (request_server (Backend.respond env)
                (Client.syncGarminData Undefined Undefined) w0) as Hs.
  rewrite respond_store, handle_sync_default in Hs.
  destruct (request (Backend.respond env)
              (Client.syncGarminData Undefined Undefined) w0) as [[resp|e] w1];
    simpl in Hs.
  - pose proof (readonly_refetch_summary env n w1) as Hr.
    destruct (refetch "todaySummary" n
                (Dashboard.todaySummary (Backend.respond env)) w1) as [[|e] w2];
      simpl in *; congruence.
  - simpl. exact Hs.
Qed.

(** C1: with [force = false], syncing a date twice leaves the store
    that syncing it once leaves: as an operation on the store, as a
    request to [/garmin/sync], as two manual syncs from the Garmin page,
    and as two clicks on the sync button of the dashboard. *)
Theorem sync_idempotent env (D : string) (s : Store) (w : World Store) (n : nat) :
  snd (sync env D false (snd (sync env D false s))) = snd (sync env D false s) /\
  (let r := Client.syncGarminData (Str D) (Bool false) in
   snd (handle env r (snd (handle env r s))) = snd (handle env r s)) /\
  (let once := snd (GarminData.handleManualSync (Backend.respond env) D false w) in
   let twice := snd (GarminData.handleManualSync (Backend.respond env) D false once) in
   server twice = server once /\
   garmin (server twice) = garmin (server once)) /\
  (let once := snd (Dashboard.handleSync (Backend.respond env) n w) in
   let twice := snd (Dashboard.handleSync (Backend.respond env) n once) in
   server twice = server once).
Proof.
  split; [apply sync_twice|]. split; [|split].
  - simpl. rewrite !handle_sync_store. apply sync_twice.
  - simpl. rewrite !handleManualSync_server, !respond_store, !handle_sync_store.
    rewrite sync_twice. split; reflexivity.
  - simpl. rewrite !handleSync_server. apply sync_twice.
Qed.

(** The row that is written has the date of the sync and every
    metric of the aggregate. *)
Lemma with_date_metrics D agg :
  date (with_date D agg) = D /\
  steps (with_date D agg) = steps agg /\
  resting_heart_rate (with_date D agg) = resting_heart_rate agg /\
  avg_heart_rate (with_date D agg) = avg_heart_rate agg /\
  max_heart_rate (with_date D agg) = max_heart_rate agg /\
  sleep_duration_seconds (with_date D agg) = sleep_duration_seconds agg /\
  deep_sleep_seconds (with_date D agg) = deep_sleep_seconds agg /\
  light_sleep_seconds (with_date D agg) = light_sleep_seconds agg /\
  rem_sleep_seconds (with_date D agg) = rem_sleep_seconds agg /\
  awake_seconds (with_date D agg) = awake_seconds agg /\
  avg_stress_level (with_date D agg) = avg_stress_level agg /\
  body_battery_highest (with_date D agg) = body_battery_highest agg /\
  body_battery_lowest (with_date D agg) = body_battery_lowest agg.
Proof. repeat split. Qed.

(** C2: when the date has a row, a sync without [force] leaves the store
    as it is; a sync with [force], once the aggregate is computed,
    replaces the row of that date by the aggregate, so that the row of
    the date then holds every metric of the aggregate, and leaves the
    rows of the other dates alone. *)
Theorem sync_existing_row env (D : string) (s : Store) :
  has_day D (garmin s) = true ->
  sync env D false s = (Skipped, s) /\
  snd (handle env (Client.syncGarminData (Str D) (Bool false)) s) = s /\
  forall agg, garmin_connect env D = Some agg ->
    let s' := snd (sync env D true s) in
    snd (handle env (Client.syncGarminData (Str D) (Bool true)) s) = s' /\
    find_day D (garmin s') = Some (with_date D agg) /\
    (forall g, g ∈ garmin s' -> date g = D -> g = with_date D agg) /\
    (forall D', D' <> D -> find_day D' (garmin s') = find_day D' (garmin s)) /\
    length (garmin s') = length (garmin s) /\
    (exists g, find_day D (garmin s') = Some g /\ g ∈ garmin s') /\
    (forall g, g ∈ garmin s' -> date g = D ->
       steps g = steps agg /\
       resting_heart_rate g = resting_heart_rate agg /\
       avg_heart_rate g = avg_heart_rate agg /\
       max_heart_rate g = max_heart_rate agg /\
       sleep_duration_seconds g = sleep_duration_seconds agg /\
       deep_sleep_seconds g = deep_sleep_seconds agg /\
       light_sleep_seconds g = light_sleep_seconds agg /\
       rem_sleep_seconds g = rem_sleep_seconds agg /\
       awake_seconds g = awake_seconds agg /\
       avg_stress_level g = avg_stress_level agg /\
       body_battery_highest g = body_battery_highest agg /\
       body_battery_lowest g = body_battery_lowest agg).
Proof.
  intros Hrow. split; [now apply sync_skip|]. split.
  - now rewrite handle_sync_store, sync_skip.
  - intros agg Hagg s'. subst s'.
    rewrite handle_sync_store.
    rewrite (sync_write env D true s agg) by (try apply andb_false_r; easy).
    simpl. split; [reflexivity|]. split; [|split; [|split; [|split; [|split]]]].
    + apply (find_day_upsert (with_date D agg)).
    + intros g Hg Hd. now apply (upsert_rows_of_date _ (garmin s)).
    + intros D' Hne. now apply find_day_upsert_other.
    + now apply upsert_length.
    + exists (with_date D agg).
      pose proof (find_day_upsert (with_date D agg) (garmin s)) as Hf.
      split; [exact Hf|]. now apply find_day_some in Hf as [Hin _].
    + intros g Hg Hd.
      rewrite (upsert_rows_of_date (with_date D agg) (garmin s) g Hg Hd).
      apply with_date_metrics.
Qed.

(** A request changes the Garmin table through [sync] only. *)
Lemma handle_garmin env r s :
  garmin (snd (handle env r s)) = garmin s \/
  exists D f, garmin (snd (handle env r s)) = garmin (snd (sync env D f s)).
Proof.
  unfold handle, sync_endpoint, create_entry, update_entry, delete_entry, reply.
  repeat case_match; simplify_eq; simpl; eauto.
  all: right; eexists _, _; match goal with H : sync _ _ _ _ = _ |- _ => now rewrite H end.
Qed.

Lemma reachable_one_row s : reachable s -> one_row_per_date s.
Proof.
  induction 1 as [|s env r _ IH]; [constructor|].
  unfold one_row_per_date in *.
  destruct (handle_garmin env r s) as [->|(D & f & ->)]; [exact IH|].
  now apply sync_preserves.
Qed.

(** C5: every state the store can reach has at most one row per date
    in the Garmin table, and a sync keeps it so: it replaces the row of
    the date where there is one and adds a row only where there is
    none. *)
Theorem one_row_per_date_invariant :
  (forall s, reachable s -> one_row_per_date s) /\
  (forall env D force s,
     one_row_per_date s -> one_row_per_date (snd (sync env D force s))) /\
  (forall env D force s,
     has_day D (garmin s) = true ->
     length (garmin (snd (sync env D force s))) = length (garmin s)).
Proof.
  split; [exact reachable_one_row|]. split; [exact sync_preserves|].
  intros env D force s H. unfold sync. rewrite H. simpl.
  destruct force; simpl; [|reflexivity].
  destruct (garmin_connect env D); [|reflexivity].
  simpl. now apply upsert_length.
Qed.

End GarminSync.
(** ** The daily summary *)

Section DailySummary.
Import Js Http Model Wire Backend.
Import Client (FoodEntry, Medication, Seizure, WaterIntake).

Lemma on_day_true D r : on_day D r = true <-> rdate r = D.
Proof. apply String.eqb_eq. Qed.

Lemma elem_of_on_day D (l : list Row) r :
  r ∈ List.filter (on_day D) l <-> r ∈ l /\ rdate r = D.
Proof.
  rewrite !list_elem_of_In, filter_In, on_day_true. reflexivity.
Qed.

(** C6: the summary of a date is computed when it is read and the
    store is returned as it was; it holds the food entries and the
    seizures logged for the date, in the order of their logs, the number
    of medications and the total of the water logged for it (the sum of
    the millilitres of its rows, a row without a number counting 0), the
    activities of the date, and the Garmin row of the date, if there is
    one. *)
Theorem daily_summary_joins env (D : string) (s : Store) :
  handle env (Client.getDailySummary (Str D)) s
  = (mkResponse 200 (Summary (daily_summary D s)), s) /\
  handle env Client.getTodaySummary s
  = (mkResponse 200 (Summary (daily_summary (today env) s)), s) /\
  let sm := daily_summary D s in
  (forall r, r ∈ food_entries sm <-> r ∈ logs s FoodEntry /\ rdate r = D) /\
  sublist (food_entries sm) (logs s FoodEntry) /\
  (forall r, r ∈ seizures sm <-> r ∈ logs s Seizure /\ rdate r = D) /\
  sublist (seizures sm) (logs s Seizure) /\
  medication_count sm
  = Z.of_nat (length (filter (fun r => rdate r = D) (logs s Medication))) /\
  total_water_ml sm
  = foldr Z.add 0 (water_ml <$> filter (fun r => rdate r = D) (logs s WaterIntake)) /\
  (forall r n, fields r !! "amount_ml" = Some (Num n) -> water_ml r = n) /\
  (forall r, (forall n, fields r !! "amount_ml" <> Some (Num n)) -> water_ml r = 0) /\
  (forall a, a ∈ activities sm <-> a ∈ workouts s /\ activity_date a = D) /\
  (forall g, garmin_data sm = Some g -> g ∈ garmin s /\ date g = D) /\
  (garmin_data sm = None -> forall g, g ∈ garmin s -> date g <> D) /\
  (one_row_per_date s ->
   forall g, g ∈ garmin s -> date g = D -> garmin_data sm = Some g).
Proof.
  assert (Hfilter : forall l : list Row,
            List.filter (on_day D) l = filter (fun r => rdate r = D) l).
  { induction l as [|r l IH]; [reflexivity|].
    simpl. rewrite filter_cons, IH.
    destruct (decide (rdate r = D)) as [Hd|Hd].
    - apply on_day_true in Hd. now rewrite Hd.
    - destruct (on_day D r) eqn:E; [|reflexivity].
      apply on_day_true in E. contradiction. }
  split; [reflexivity|]. split; [reflexivity|]. simpl.
  split; [intros r; apply elem_of_on_day|].
  split; [rewrite Hfilter; apply sublist_filter|].
  split; [intros r; apply elem_of_on_day|].
  split; [rewrite Hfilter; apply sublist_filter|].
  split; [now rewrite Hfilter|].
  split.
  { rewrite Hfilter. unfold sum_water.
    induction (filter (fun r => rdate r = D) (logs s WaterIntake)) as [|r l IH];
      [reflexivity|]. simpl. now rewrite IH. }
  split; [intros r n Hn; unfold water_ml; now rewrite Hn|].
  split.
  { intros r Hn. unfold water_ml.
    destruct (fields r !! "amount_ml") as [[| | |n|]|] eqn:E; try reflexivity.
    now contradiction (Hn n). }
  split.
  { intros a. rewrite !list_elem_of_In, filter_In, String.eqb_eq. reflexivity. }
  split; [intros g; apply find_day_some|].
  split; [apply find_day_none|].
  intros Hinv g Hg Hd. now apply find_day_unique.
Qed.

End DailySummary.

(** ** The logs *)

Section CrudCycle.
Import Js Http Model Wire Backend.
Import Client (Entity, FoodEntry, Medication, MedicationSchedule,
               SicknessEntry, Seizure, HealthEvent, DailyNote, WaterIntake).


Lemma logs_set_log_other e e' t s : e' <> e -> logs (set_log e t s) e' = logs s e'.
Proof. intros H. simpl. now rewrite decide_False. Qed.













(** A [put] on the water log, which [client.js] never sends, is not
    served. *)
Lemma water_put_not_served env (i : value) (D : gmap string value) s :
  handle env (Client.apiClient_put (tpl "/water/" i) D) s
  = (mkResponse 405 (JsonObj ∅), s).
Proof. reflexivity. Qed.


End CrudCycle.
(** ** The properties at the sample data *)

Section Samples.
Import Js Http Model Wire Fx.

Example sample_recent :
  FoodLog.id <$> FoodLog.recentEntries FoodLog.ascii_toLowerCase Sample.foods
  = [1; 3; 6].
Proof. reflexivity. Qed.

Example sample_summary :
  GarminData.summary (fun _ => "7.3") [Sample.may_1; Sample.may_2]
  = GarminData.mkStats
      (GarminData.CNum (JsNum.Fin 6001)) (GarminData.CStr "7.3")
      (GarminData.CNum (JsNum.Fin 26)) (GarminData.CNum (JsNum.Fin 45)).
Proof. reflexivity. Qed.

Example sample_sync_skipped :
  Backend.sync Sample.env "2024-05-01" false Sample.store
  = (Backend.Skipped, Sample.store).
Proof. reflexivity. Qed.

Example sample_sync_failed :
  Backend.sync Sample.env "2024-05-03" true Sample.store
  = (Backend.Failed, Sample.store).
Proof. reflexivity. Qed.

Example sample_sync_forced :
  Backend.garmin (snd (Backend.sync Sample.env "2024-05-01" true Sample.store))
  = [with_date "2024-05-01" Sample.may_1_again; Sample.may_2].
Proof. reflexivity. Qed.

(** C2 at the sample store: the first of May has a row with 8000
    steps; Garmin Connect now reports 9001. *)
Lemma sync_existing_row_sample :
  Backend.has_day "2024-05-01" (Backend.garmin Sample.store) = true /\
  Backend.garmin_connect Sample.env "2024-05-01" = Some Sample.may_1_again /\
  steps <$> Backend.find_day "2024-05-01" (Backend.garmin Sample.store)
  = Some (Some 8000) /\
  Backend.sync Sample.env "2024-05-01" false Sample.store
  = (Backend.Skipped, Sample.store) /\
  Backend.find_day "2024-05-01"
    (Backend.garmin (snd (Backend.sync Sample.env "2024-05-01" true Sample.store)))
  = Some (with_date "2024-05-01" Sample.may_1_again) /\
  exists g,
    Backend.find_day "2024-05-01"
      (Backend.garmin (snd (Backend.sync Sample.env "2024-05-01" true Sample.store)))
    = Some g /\
    steps g = Some 9001 /\ resting_heart_rate g = Some 51 /\
    sleep_duration_seconds g = Some 25200 /\ avg_heart_rate g = None.
Proof.
  split; [reflexivity|]. split; [reflexivity|]. split; [reflexivity|].
  destruct (sync_existing_row Sample.env "2024-05-01" Sample.store eq_refl)
    as (Hskip & _ & Hforce).
  split; [exact Hskip|].
  destruct (Hforce Sample.may_1_again eq_refl)
    as (_ & Hfind & _ & _ & _ & (g & Hg & Hin) & Hmetrics).
  split; [exact Hfind|].
  exists g. split; [exact Hg|].
  assert (Hd : date g = "2024-05-01").
  { rewrite Hfind in Hg. now injection Hg as <-. }
  destruct (Hmetrics g Hin Hd) as (H1 & H2 & H3 & _ & H5 & _).
  rewrite H1, H2, H3, H5. repeat split.
Defined.

(** C3 at a server that cannot be reached. *)
Lemma sync_failure_sample :
  rejected Sample.offline (Client.syncGarminData Undefined Undefined) tt /\
  exists what e,
    trace (snd (Dashboard.handleSync Sample.offline 3 (mkWorld tt []))) =
    [SetSyncing true;
     Sent (Client.syncGarminData Undefined Undefined);
     ConsoleError "API Error:" what;
     ConsoleError "Sync failed:" (LogError e);
     Alert "Failed to sync Garmin data. Please check your credentials in Settings.";
     SetSyncing false].
Proof.
  split; [exact I|].
  exact (proj1 (proj2 (proj2
           (sync_failure_reported_once Sample.offline 3 (mkWorld tt []) "2024-05-01" false)))
           I).
Defined.

(** C5 at the store after two syncs of the same date, the second
    one forced, and at the sample store, where the date that is synced
    has a row. *)
Lemma one_row_per_date_sample :
  Backend.has_day "2024-05-01"
    (Backend.garmin
       (snd (Backend.handle Sample.env
               (Client.syncGarminData (Str "2024-05-01") (Bool false))
               Backend.empty_store))) = true /\
  Backend.one_row_per_date
    (snd (Backend.handle Sample.env
            (Client.syncGarminData (Str "2024-05-01") (Bool true))
            (snd (Backend.handle Sample.env
                    (Client.syncGarminData (Str "2024-05-01") (Bool false))
                    Backend.empty_store)))) /\
  Backend.one_row_per_date Sample.store /\
  Backend.has_day "2024-05-01" (Backend.garmin Sample.store) = true /\
  Backend.one_row_per_date
    (snd (Backend.sync Sample.env "2024-05-01" true Sample.store)) /\
  length (Backend.garmin (snd (Backend.sync Sample.env "2024-05-01" true Sample.store)))
  = 2%nat /\
  date <$> Backend.garmin (snd (Backend.sync Sample.env "2024-05-01" true Sample.store))
  = ["2024-05-01"; "2024-05-02"].
Proof.
  destruct one_row_per_date_invariant as (Hreach & Hsync & Hlen).
  assert (Hone : Backend.one_row_per_date Sample.store).
  { apply (bool_decide_unpack _). reflexivity. }
  split; [reflexivity|]. split.
  { apply Hreach. do 2 apply Backend.reachable_step. apply Backend.reachable_empty. }
  split; [exact Hone|]. split; [reflexivity|].
  split; [exact (Hsync Sample.env "2024-05-01" true Sample.store Hone)|].
  split; [exact (Hlen Sample.env "2024-05-01" true Sample.store eq_refl)|].
  reflexivity.
Defined.

(** C6 at a store with rows in every log, on two days: the summary
    of the second of May. *)
Lemma daily_summary_sample :
  Backend.one_row_per_date Sample.busy_store /\
  garmin_data (Backend.daily_summary "2024-05-02" Sample.busy_store)
  = Some Sample.may_2 /\
  id <$> food_entries (Backend.daily_summary "2024-05-02" Sample.busy_store) = [2; 3] /\
  id <$> seizures (Backend.daily_summary "2024-05-02" Sample.busy_store) = [10] /\
  medication_count (Backend.daily_summary "2024-05-02" Sample.busy_store) = 2 /\
  total_water_ml (Backend.daily_summary "2024-05-02" Sample.busy_store) = 750 /\
  total_water_ml (Backend.daily_summary "2024-05-01" Sample.busy_store) = 300 /\
  activity_id <$> activities (Backend.daily_summary "2024-05-02" Sample.busy_store)
  = [12] /\
  snd (Backend.handle Sample.env (Client.getDailySummary (Str "2024-05-02"))
         Sample.busy_store) = Sample.busy_store.
Proof.
  assert (H : Backend.one_row_per_date Sample.busy_store).
  { apply (bool_decide_unpack _). reflexivity. }
  split; [exact H|].
  destruct (daily_summary_joins Sample.env "2024-05-02" Sample.busy_store)
    as (Hread & _ & _ & _ & _ & _ & Hmed & Hwater & _ & _ & _ & _ & _ & Hrow).
  destruct (daily_summary_joins Sample.env "2024-05-01" Sample.busy_store)
    as (_ & _ & _ & _ & _ & _ & _ & Hwater1 & _).
  split; [apply (Hrow H Sample.may_2); [right; left | reflexivity]|].
  split; [reflexivity|]. split; [reflexivity|].
  split; [rewrite Hmed; reflexivity|].
  split; [rewrite Hwater; reflexivity|].
  split; [rewrite Hwater1; reflexivity|].
  split; [reflexivity|].
  now rewrite Hread.
Defined.


(** C8 at the sample entries: of the three apples the first is kept,
    and the pear that is kept is the first pear. *)
Lemma recentEntries_sample :
  Sample.food 1 "Apple" ∈ FoodLog.recentEntries FoodLog.ascii_toLowerCase Sample.foods /\
  (Sample.food 2 "apple" ∉ FoodLog.recentEntries FoodLog.ascii_toLowerCase Sample.foods) /\
  (Sample.food 4 "APPLE" ∉ FoodLog.recentEntries FoodLog.ascii_toLowerCase Sample.foods) /\
  FoodLog.key FoodLog.ascii_toLowerCase (Sample.food 4 "APPLE")
  = FoodLog.key FoodLog.ascii_toLowerCase (Sample.food 1 "Apple") /\
  Sample.food 3 "Pear" ∈ FoodLog.recentEntries FoodLog.ascii_toLowerCase Sample.foods /\
  exists i, Sample.foods !! i = Some (Sample.food 3 "Pear") /\
    forall j x, (j < i)%nat -> Sample.foods !! j = Some x ->
      FoodLog.key FoodLog.ascii_toLowerCase x
      <> FoodLog.key FoodLog.ascii_toLowerCase (Sample.food 3 "Pear").
Proof.
  destruct (recentEntries_spec FoodLog.ascii_toLowerCase (fun s _ => eq_refl)
              Sample.foods)
    as (_ & _ & _ & _ & Hfirst & _ & Hcase & Hone).
  assert (H1 : Sample.food 1 "Apple"
               ∈ FoodLog.recentEntries FoodLog.ascii_toLowerCase Sample.foods)
    by left.
  assert (H3 : Sample.food 3 "Pear"
               ∈ FoodLog.recentEntries FoodLog.ascii_toLowerCase Sample.foods)
    by (right; left).
  split; [exact H1|]. split; [|split; [|split; [|split]]].
  - intros H2.
    pose proof (Hone _ _ H1 H2 eq_refl eq_refl eq_refl) as Heq. discriminate Heq.
  - intros H4.
    pose proof (Hone _ _ H1 H4 eq_refl eq_refl eq_refl) as Heq. discriminate Heq.
  - apply (Hcase (Sample.food 4 "APPLE") (Sample.food 1 "Apple")); reflexivity.
  - exact H3.
  - exact (Hfirst (Sample.food 3 "Pear") H3).
Defined.

(** C9 at a form with the password left blank. *)
Lemma settings_password_sample :
  Settings.garmin_password Sample.blank_form = "" /\
  Settings.payload Sample.blank_form
  = {[ "email" := Str "a@b.c"; "garmin_username" := Str "garmin-user" ]} /\
  Backend.garmin_password_encrypted
    (Backend.user
       (server (snd (Settings.handleSubmit (Backend.respond Sample.env)
                       Sample.blank_form Sample.world))))
  = Some "enc:secret".
Proof.
  split; [reflexivity|].
  destruct (settings_password_kept Sample.env Sample.blank_form Sample.world)
    as (_ & Hblank & _).
  destruct (Hblank eq_refl) as (Hp & _ & Hs).
  split; [exact Hp | exact Hs].
Defined.

End Samples.


(** ** Strings: pieces and prefixes *)

Section Strings.
Import Js JsString.

Lemma split_nonempty c s : split c s <> [].
Proof.
  destruct s as [|a s]; simpl; [discriminate|].
  destruct (Ascii.eqb a c); [discriminate|].
  destruct (split c s); discriminate.
Qed.

Lemma split_free c s : free_of c s -> split c s = [s].
Proof.
  unfold free_of. induction s as [|a s IH]; simpl; [reflexivity|].
  destruct (Ascii.eqb a c); [discriminate|].
  intros H. now rewrite (IH H).
Qed.

(** The first piece ends at the first separator. *)
Lemma split_at_first c a b :
  free_of c a -> split c (a +:+ String c b) = a :: split c b.
Proof.
  unfold free_of. induction a as [|x a IH]; simpl.
  - intros _. now rewrite Ascii.eqb_refl.
  - destruct (Ascii.eqb x c); [discriminate|].
    intros H. now rewrite (IH H).
Qed.

Lemma includes_app_sep c a b : includes c (a +:+ String c b) = true.
Proof.
  induction a as [|x a IH]; simpl.
  - now rewrite Ascii.eqb_refl.
  - destruct (Ascii.eqb x c); [reflexivity | exact IH].
Qed.

Lemma substring_to_short n s :
  (String.length s <= n)%nat -> substring_to n s = s.
Proof.
  unfold substring_to. revert n. induction s as [|a s IH]; intros [|n] H;
    simpl in *; try reflexivity; try lia.
  f_equal. apply IH. lia.
Qed.

Lemma substring_to_app s rest :
  substring_to (String.length s) (s +:+ rest) = s.
Proof.
  unfold substring_to. induction s as [|a s IH]; simpl.
  - now destruct rest.
  - now rewrite IH.
Qed.

Lemma string_app_assoc (a b c : string) : (a +:+ b) +:+ c = a +:+ (b +:+ c).
Proof.
  induction a as [|x a IH]; [reflexivity|].
  change (String x ((a +:+ b) +:+ c) = String x (a +:+ (b +:+ c))).
  now rewrite IH.
Qed.

(** The first piece of a string that begins with a separator-free
    part begins with that part. *)
Lemma split_head_app c a b :
  free_of c a ->
  exists piece rest,
    split c b = piece :: rest /\ split c (a +:+ b) = (a +:+ piece) :: rest.
Proof.
  unfold free_of. induction a as [|x a IH].
  - intros _. destruct (split c b) as [|piece rest] eqn:E;
      [now apply split_nonempty in E|].
    exists piece, rest. split; [reflexivity | exact E].
  - simpl. destruct (Ascii.eqb x c) eqn:Hx; [discriminate|].
    intros H. destruct (IH H) as (piece & rest & H1 & H2).
    exists piece, rest. split; [exact H1|].
    rewrite H2. reflexivity.
Qed.

End Strings.

(** ** The times of a medication schedule *)

Section ScheduleTimes.
Import Js JsString Medications.

Lemma filter_indexed_skip (index k : nat) (l : list value) :
  (index < k)%nat ->
  filter_indexed (fun _ i => negb (i =? index)%nat) k l = l.
Proof.
  revert k. induction l as [|x l IH]; intros k Hk; simpl; [reflexivity|].
  destruct (Nat.eqb_spec k index); [lia|]. simpl.
  f_equal. apply IH. lia.
Qed.

Lemma filter_indexed_remove (index k : nat) (l : list value) :
  (k <= index)%nat ->
  filter_indexed (fun _ i => negb (i =? index)%nat) k l
  = (take (index - k) l ++ drop (S (index - k)) l)%list.
Proof.
  revert k. induction l as [|x l IH]; intros k Hk; simpl.
  - now destruct (index - k)%nat.
  - destruct (Nat.eqb_spec k index) as [->|Hne]; simpl.
    + rewrite Nat.sub_diag. simpl. rewrite drop_0.
      apply filter_indexed_skip. lia.
    + replace (index - k)%nat with (S (index - S k)) by lia. simpl.
      f_equal. apply IH. lia.
Qed.

Lemma removeScheduleTime_take_drop (index : nat) (t : list value) :
  removeScheduleTime index t = (take index t ++ drop (S index) t)%list.
Proof.
  unfold removeScheduleTime. rewrite filter_indexed_remove by lia.
  now rewrite Nat.sub_0_r.
Qed.

Lemma removeScheduleTime_length (index : nat) (t : list value) :
  (index < length t)%nat -> S (length (removeScheduleTime index t)) = length t.
Proof.
  intros Hi. rewrite removeScheduleTime_take_drop.
  rewrite length_app, length_take, length_drop. lia.
Qed.

Lemma updateScheduleTime_length (index : nat) (v : value) (t : list value) :
  (index < length t)%nat -> length (updateScheduleTime index v t) = length t.
Proof.
  intros Hi. unfold updateScheduleTime, array_set.
  destruct (Nat.ltb_spec index (length t)); [apply length_insert | lia].
Qed.

(** X1: removing the time of a row takes exactly that one element
    out and keeps the others in their order; an index past the end
    removes nothing. *)
Theorem removeScheduleTime_spec (index : nat) (t : list value) :
  removeScheduleTime index t = (take index t ++ drop (S index) t)%list /\
  ((index < length t)%nat ->
     S (length (removeScheduleTime index t)) = length t /\
     (forall j, (j < index)%nat -> removeScheduleTime index t !! j = t !! j) /\
     (forall j, (index <= j)%nat -> removeScheduleTime index t !! j = t !! S j)) /\
  ((length t <= index)%nat -> removeScheduleTime index t = t).
Proof.
  pose proof (removeScheduleTime_take_drop index t) as H.
  split; [exact H|]. rewrite H. split.
  - intros Hi. split; [|split].
    + rewrite length_app, length_take, length_drop. lia.
    + intros j Hj. rewrite lookup_app_l by (rewrite length_take; lia).
      now apply lookup_take_lt.
    + intros j Hj. rewrite lookup_app_r by (rewrite length_take; lia).
      rewrite length_take, lookup_drop. f_equal. lia.
  - intros Hi. rewrite take_ge by lia. rewrite drop_ge by lia.
    apply app_nil_r.
Qed.

(** X2: changing the time of a row replaces that element and no other;
    an index past the end makes the array grow up to it, the places in
    between being holes. *)
Theorem updateScheduleTime_spec (index : nat) (v : value) (t : list value) :
  updateScheduleTime index v t !! index = Some v /\
  (forall j, (j < length t)%nat -> j <> index ->
     updateScheduleTime index v t !! j = t !! j) /\
  ((index < length t)%nat ->
     length (updateScheduleTime index v t) = length t) /\
  ((length t <= index)%nat ->
     length (updateScheduleTime index v t) = S index /\
     forall j, (length t <= j < index)%nat ->
       updateScheduleTime index v t !! j = Some Undefined).
Proof.
  unfold updateScheduleTime, array_set.
  destruct (Nat.ltb_spec index (length t)) as [Hlt|Hge].
  - split; [now apply list_lookup_insert_eq|]. split; [|split].
    + intros j _ Hj. now apply list_lookup_insert_ne.
    + intros _. apply length_insert.
    + lia.
  - split; [|split; [|split]].
    + rewrite lookup_app_r by lia.
      rewrite lookup_app_r by (rewrite length_replicate; lia).
      rewrite length_replicate. now replace (index - length t - (index - length t))%nat with 0%nat by lia.
    + intros j Hj _. now apply lookup_app_l.
    + lia.
    + intros _. split.
      * rewrite !length_app, length_replicate. simpl. lia.
      * intros j Hj. rewrite lookup_app_r by lia.
        rewrite lookup_app_l by (rewrite length_replicate; lia).
        apply lookup_replicate. split; [reflexivity | lia].
Qed.

Lemma times_step_nonempty t t' : times_step t t' -> t <> [] -> t' <> [].
Proof.
  intros Hstep Hne. destruct Hstep as [t|t i v Hi|t i Hi Hlen].
  - unfold addScheduleTime. now destruct t.
  - intros Heq. apply (f_equal length) in Heq.
    rewrite (updateScheduleTime_length i v t Hi) in Heq. simpl in Heq. lia.
  - intros Heq. apply (f_equal length) in Heq.
    pose proof (removeScheduleTime_length i t Hi) as Hl. simpl in Heq. lia.
Qed.

(** X3: the buttons of the form never leave a schedule without a
    time: from the times of a new form, or from any times that are not
    empty, every list the user can reach has a time.  Times loaded for
    editing are not empty unless the server sent an empty array, which
    [||] lets through. *)
Theorem schedule_times_never_empty (from t : list value) :
  from <> [] -> times_reachable from t ->
  t <> [] /\
  initial_times <> [] /\
  edited_times None = initial_times /\
  edited_times (Some []) = [].
Proof.
  intros Hfrom Hreach. split; [|repeat split; discriminate].
  induction Hreach as [|t t' _ IH Hstep]; [exact Hfrom|].
  now apply (times_step_nonempty t t').
Qed.

(** X4: a time that was just added is the last one, and removing it
    gives the times back. *)
Theorem addScheduleTime_undo (t : list value) :
  length (addScheduleTime t) = S (length t) /\
  addScheduleTime t !! length t = Some (Str "12:00") /\
  (forall j, (j < length t)%nat -> addScheduleTime t !! j = t !! j) /\
  removeScheduleTime (length t) (addScheduleTime t) = t.
Proof.
  unfold addScheduleTime. split; [|split; [|split]].
  - rewrite length_app. simpl. lia.
  - rewrite lookup_app_r by lia. now rewrite Nat.sub_diag.
  - intros j Hj. now apply lookup_app_l.
  - rewrite removeScheduleTime_take_drop.
    rewrite take_app_length. rewrite drop_ge by (rewrite length_app; simpl; lia).
    apply app_nil_r.
Qed.

End ScheduleTimes.

(** ** The time of a dose *)

Section DoseTime.
Import Js JsString Medications.

Lemma timeOnly_after_date date rest :
  free_of "T" date ->
  timeOnly (date +:+ String "T" rest)
  = match split "T" rest with
    | piece :: _ => substring_to 5 piece
    | [] => ""
    end.
Proof.
  intros Hd. unfold timeOnly.
  rewrite includes_app_sep, (split_at_first _ _ _ Hd).
  unfold at_index. simpl.
  pose proof (split_nonempty "T" rest). now destruct (split "T" rest).
Qed.

(** X5: the time of day that [handleSubmit] puts after the date is the
    one [handleEdit] reads back, also when the server has added
    seconds to it; a time without a [T] is shown as 08:00. *)
Theorem timeOnly_round_trip (date timeOfDay : string) :
  free_of "T" date -> free_of "T" timeOfDay ->
  (String.length timeOfDay <= 5)%nat ->
  timeOnly (datetime date timeOfDay) = timeOfDay /\
  (String.length timeOfDay = 5%nat ->
   forall seconds, timeOnly (datetime date timeOfDay +:+ seconds) = timeOfDay) /\
  timeOnly date = "08:00".
Proof.
  intros Hd Ht Hlen. unfold datetime. split; [|split].
  - change (date +:+ "T" +:+ timeOfDay) with (date +:+ String "T" timeOfDay).
    rewrite (timeOnly_after_date _ _ Hd), (split_free _ _ Ht).
    now apply substring_to_short.
  - intros Hfive seconds.
    rewrite !string_app_assoc.
    change (date +:+ "T" +:+ timeOfDay +:+ seconds)
      with (date +:+ String "T" (timeOfDay +:+ seconds)).
    rewrite (timeOnly_after_date _ _ Hd).
    destruct (split_head_app "T" timeOfDay seconds Ht) as (piece & rest & _ & ->).
    rewrite <- Hfive. apply substring_to_app.
  - unfold timeOnly. unfold free_of in Hd. now rewrite Hd.
Qed.

End DoseTime.

(** ** Numbers in and out of strings *)

Section Digits.
Import Js JsString.

Lemma digit_pretty_char (d : N) :
  (d < 10)%N -> digit 10 (pretty_N_char d) = Some d.
Proof.
  intros H.
  assert (d = 0 \/ d = 1 \/ d = 2 \/ d = 3 \/ d = 4 \/ d = 5 \/ d = 6
          \/ d = 7 \/ d = 8 \/ d = 9)%N as Hd by lia.
  repeat (destruct Hd as [->|Hd]; [reflexivity|]). now subst.
Qed.

Lemma pretty_N_go_app (x : N) : forall s rest,
  pretty_N_go x s +:+ rest = pretty_N_go x (s +:+ rest).
Proof.
  induction (N.lt_wf_0 x) as [x _ IH]. intros s rest.
  destruct (N.eq_dec x 0%N) as [->|Hx]; [now rewrite !pretty_N_go_0|].
  rewrite (pretty_N_go_step x s), (pretty_N_go_step x (s +:+ rest)) by lia.
  rewrite IH by (apply N.div_lt; lia). reflexivity.
Qed.

(** Reading the digits that [pretty] wrote continues from their
    value. *)
Lemma read_pretty_go (x : N) :
  (0 < x)%N ->
  exists k, forall acc s,
    read_digits 10 acc (pretty_N_go x s)
    = read_digits 10 (Some (default 0 acc * 10 ^ k + x))%N s.
Proof.
  induction (N.lt_wf_0 x) as [x _ IH]. intros Hx.
  pose proof (N.div_mod x 10%N ltac:(lia)) as Hdm.
  assert (Hd : digit 10 (pretty_N_char (x `mod` 10)) = Some (x `mod` 10)%N)
    by (apply digit_pretty_char, N.mod_lt; lia).
  destruct (N.eq_dec (x / 10)%N 0%N) as [Hz|Hnz].
  - exists 1%N. intros acc s. rewrite pretty_N_go_step by exact Hx.
    rewrite Hz, pretty_N_go_0. cbn [read_digits]. rewrite Hd.
    do 2 f_equal. rewrite N.pow_1_r. rewrite Hz in Hdm.
    generalize dependent (x `mod` 10)%N. intros r Hr _.
    generalize (default 0%N acc). intros a. lia.
  - destruct (IH (x / 10)%N) as [k Hk];
      [apply N.div_lt; lia | apply N.neq_0_lt_0; exact Hnz |].
    exists (k + 1)%N. intros acc s. rewrite pretty_N_go_step by exact Hx.
    rewrite Hk. cbn [read_digits]. rewrite Hd.
    do 2 f_equal. cbn [default from_option id].
    rewrite N.pow_add_r, N.pow_1_r.
    clear IH Hk Hd Hnz Hx.
    set (a := default 0%N acc). set (p := (10 ^ k)%N).
    set (q := (x `div` 10)%N) in *. set (r := (x `mod` 10)%N) in *.
    clearbody a p q r. subst x. ring.
Qed.

Lemma read_digits_stop acc s :
  no_digit_ahead s -> read_digits 10 acc s = (acc, s).
Proof.
  destruct s as [|c s]; [reflexivity|]. unfold no_digit_ahead, is_decimal.
  simpl. now destruct (digit 10 c).
Qed.

(** A number that [pretty] wrote is read back, up to the first
    character that is not a digit. *)
Lemma read_pretty (x : N) (rest : string) :
  no_digit_ahead rest ->
  read_digits 10 None (pretty x +:+ rest) = (Some x, rest).
Proof.
  intros Hrest. unfold pretty, pretty_N.
  destruct (decide (x = 0%N)) as [->|Hx].
  - change ("0" +:+ rest) with (String "0" rest). simpl.
    now apply read_digits_stop.
  - rewrite pretty_N_go_app.
    destruct (read_pretty_go x) as [k Hk]; [lia|].
    rewrite Hk. simpl. now apply read_digits_stop.
Qed.

Lemma all_digits_pretty_go (x : N) : forall s,
  all_digits s = true -> all_digits (pretty_N_go x s) = true.
Proof.
  induction (N.lt_wf_0 x) as [x _ IH]. intros s Hs.
  destruct (N.eq_dec x 0%N) as [->|Hx]; [now rewrite pretty_N_go_0|].
  rewrite pretty_N_go_step by lia. apply IH; [apply N.div_lt; lia|].
  simpl. rewrite Hs, andb_true_r. unfold is_decimal.
  now rewrite digit_pretty_char by (apply N.mod_lt; lia).
Qed.

Lemma is_decimal_plain (c : ascii) :
  is_decimal c = true ->
  is_space c = false /\ c <> "-"%char /\ c <> "+"%char
  /\ c <> "x"%char /\ c <> "X"%char.
Proof.
  destruct c as [[] [] [] [] [] [] [] []]; vm_compute; intros H;
    try discriminate H; repeat split; discriminate.
Qed.

Lemma radix_of_digits (s : string) :
  all_digits s = true ->
  match s with
  | String "0"%char (String "x"%char s')
  | String "0"%char (String "X"%char s') => (16%N, s')
  | _ => (10%N, s)
  end = (10%N, s).
Proof.
  intros Hs. destruct s as [|c [|c2 s]]; [reflexivity | |].
  - now destruct c as [[] [] [] [] [] [] [] []].
  - simpl in Hs. apply andb_true_iff in Hs as [_ Hs].
    apply andb_true_iff in Hs as [Hc2 _].
    destruct (is_decimal_plain c2 Hc2) as (_ & _ & _ & Hx & HX).
    destruct c as [[] [] [] [] [] [] [] []]; try reflexivity;
      destruct c2 as [[] [] [] [] [] [] [] []]; try reflexivity; congruence.
Qed.

(** On a string of decimal digits [parseInt] has nothing to skip. *)
Lemma parseInt_string_digits (s : string) :
  all_digits s = true ->
  parseInt_string s = Z.of_N <$> fst (read_digits 10 None s) /\
  parseInt_string (String "-" s) = (fun n => - Z.of_N n) <$> fst (read_digits 10 None s).
Proof.
  intros Hs. pose proof (radix_of_digits s Hs) as Hradix. split.
  - destruct s as [|c s]; [reflexivity|].
    pose proof Hs as Hs'. simpl in Hs'. apply andb_true_iff in Hs' as [Hc _].
    destruct (is_decimal_plain c Hc) as (Hsp & Hm & Hp & _).
    unfold parseInt_string. cbn [skip_spaces]. rewrite Hsp.
    assert (Hsign : match String c s with
                    | String "-"%char s' => (true, s')
                    | String "+"%char s' => (false, s')
                    | _ => (false, String c s)
                    end = (false, String c s)).
    { destruct c as [[] [] [] [] [] [] [] []]; try reflexivity; congruence. }
    rewrite Hsign, Hradix.
    destruct (fst (read_digits 10 None (String c s))); reflexivity.
  - unfold parseInt_string. cbn [skip_spaces].
    change (is_space "-") with false. cbv iota. rewrite Hradix.
    destruct (fst (read_digits 10 None s)); reflexivity.
Qed.

Lemma pretty_N_digits (x : N) :
  all_digits (pretty x) = true /\ read_digits 10 None (pretty x) = (Some x, "").
Proof.
  split.
  - unfold pretty, pretty_N. destruct (decide (x = 0%N)); [reflexivity|].
    now apply all_digits_pretty_go.
  - pose proof (read_pretty x "" I) as H.
    replace (pretty x +:+ "") with (pretty x) in H; [exact H|].
    generalize (pretty x). intros s. induction s as [|c s IH]; [reflexivity|].
    change (String c s = String c (s +:+ "")). now rewrite <- IH.
Qed.

(** [parseInt] of an integer is that integer: its decimal text is
    parsed back. *)
Lemma parseInt_Num (n : Z) : parseInt (Num n) = Some n.
Proof.
  unfold parseInt, ToString. destruct n as [|p|p].
  - reflexivity.
  - change (pretty (Z.pos p)) with (pretty (N.pos p)).
    destruct (pretty_N_digits (N.pos p)) as [Hd Hr].
    destruct (parseInt_string_digits _ Hd) as [-> _]. now rewrite Hr.
  - change (pretty (Z.neg p)) with (String "-" (pretty (N.pos p))).
    destruct (pretty_N_digits (N.pos p)) as [Hd Hr].
    destruct (parseInt_string_digits _ Hd) as [_ ->]. now rewrite Hr.
Qed.

End Digits.

(** ** The form of a food entry *)

Section FoodEntryForm.
Import Js Http JsString FoodForm.

Lemma timePortion_after d t :
  free_of "T" d -> free_of "T" t ->
  timePortion (d +:+ String "T" t) = if String.eqb t "" then "12:00" else t.
Proof.
  intros Hd Ht. unfold timePortion, at_index.
  rewrite (split_at_first _ _ _ Hd), (split_free _ _ Ht). simpl.
  now destruct (String.eqb t "").
Qed.

Lemma combinedDateTime_time (f : FormData) (d t : string) :
  time f = d +:+ "T" +:+ t -> free_of "T" d -> free_of "T" t -> t <> "" ->
  combinedDateTime f = date f +:+ "T" +:+ t.
Proof.
  intros Htime Hd Ht Hne. unfold combinedDateTime. rewrite Htime.
  change (d +:+ "T" +:+ t) with (d +:+ String "T" t).
  rewrite (timePortion_after _ _ Hd Ht).
  now destruct (String.eqb_spec t "").
Qed.

(** X6: the time that is sent is the date of the date field, a [T] and
    a time of day that is never empty: the time of day of the time
    field, whatever date that field shows, and 12:00 when the field has
    none. *)
Theorem combinedDateTime_on_date (f : FormData) :
  combinedDateTime f = date f +:+ "T" +:+ timePortion (time f) /\
  timePortion (time f) <> "" /\
  (free_of "T" (time f) -> timePortion (time f) = "12:00") /\
  (forall d t, time f = d +:+ "T" +:+ t -> free_of "T" d -> free_of "T" t ->
     t <> "" -> combinedDateTime f = date f +:+ "T" +:+ t).
Proof.
  split; [reflexivity|]. split; [|split].
  - unfold timePortion. destruct (at_index (split "T" (time f)) 1); try discriminate.
    simpl. destruct (String.eqb_spec s ""); simpl; [discriminate | assumption].
  - intros H. unfold timePortion, at_index. now rewrite (split_free _ _ H).
  - intros d t. apply combinedDateTime_time.
Qed.

Lemma amount_number_or_blank (x : option Z) :
  amount (number_or_blank x) = kept_amount x.
Proof.
  destruct x as [n|]; [|reflexivity].
  unfold number_or_blank, or_else, amount, kept_amount. simpl.
  destruct (Z.eqb_spec n 0) as [->|Hn]; simpl; [reflexivity|].
  destruct (Z.eqb_spec n 0); [contradiction|]. simpl.
  now rewrite parseInt_Num.
Qed.

Lemma notes_text_or_blank (x : option string) :
  or_else (Str (text_or_blank x)) Null = kept_text x.
Proof.
  destruct x as [s|]; [|reflexivity].
  unfold or_else, kept_text. simpl. now destruct (String.eqb s "").
Qed.

Lemma string_length_app (a b : string) :
  String.length (a +:+ b) = (String.length a + String.length b)%nat.
Proof. induction a as [|x a IH]; simpl; [reflexivity | now rewrite IH]. Qed.

Lemma string_app_inv_tail (a b s : string) : a +:+ s = b +:+ s -> a = b.
Proof.
  revert b. induction a as [|x a IH]; intros [|y b] H.
  - reflexivity.
  - apply (f_equal String.length) in H.
    rewrite !string_length_app in H. simpl in H. lia.
  - apply (f_equal String.length) in H.
    rewrite !string_length_app in H. simpl in H. lia.
  - change (String x (a +:+ s) = String y (b +:+ s)) in H.
    injection H as -> H. f_equal. now apply IH.
Qed.

(** X7: saving an entry that was opened for editing and not changed
    sends the entry back with its meal, description and drink flag, its
    amounts and notes, and with a time that is the date of the entry, a
    [T] and the time of day of its time.  That is the time of the entry
    exactly when its time lies on its date: the time of an entry logged
    for another day than its time is moved to the day of its date.  What
    is lost besides is an amount of 0 and empty notes, which are sent as
    [null]; the date is not sent at all. *)
Theorem edit_unchanged (entry : FoodLog.FoodEntry) (d t : string) :
  FoodLog.time entry = d +:+ "T" +:+ t ->
  free_of "T" d -> free_of "T" t -> t <> "" ->
  updateData (handleEdit entry) =
    {[ "time" := Str (FoodLog.date entry +:+ "T" +:+ t);
       "meal_type" := Str (FoodLog.meal_type entry);
       "description" := Str (FoodLog.description entry);
       "is_drink" := Bool (FoodLog.is_drink entry);
       "calories" := kept_amount (FoodLog.calories entry);
       "volume_ml" := kept_amount (FoodLog.volume_ml entry);
       "notes" := kept_text (FoodLog.notes entry) ]} /\
  (updateData (handleEdit entry) !! "time" = Some (Str (FoodLog.time entry))
   <-> d = FoodLog.date entry) /\
  updateData (handleEdit entry) !! "date" = None /\
  submitted (Some entry) (handleEdit entry) Null
  = Client.updateFoodEntry (Num (FoodLog.id entry)) (updateData (handleEdit entry)).
Proof.
  intros Htime Hd Ht Hne.
  assert (Hc : combinedDateTime (handleEdit entry) = FoodLog.date entry +:+ "T" +:+ t).
  { now rewrite (combinedDateTime_time (handleEdit entry) d t Htime Hd Ht Hne). }
  assert (Hdata : updateData (handleEdit entry) =
    {[ "time" := Str (FoodLog.date entry +:+ "T" +:+ t);
       "meal_type" := Str (FoodLog.meal_type entry);
       "description" := Str (FoodLog.description entry);
       "is_drink" := Bool (FoodLog.is_drink entry);
       "calories" := kept_amount (FoodLog.calories entry);
       "volume_ml" := kept_amount (FoodLog.volume_ml entry);
       "notes" := kept_text (FoodLog.notes entry) ]}).
  { unfold updateData. rewrite Hc. simpl.
    now rewrite !amount_number_or_blank, notes_text_or_blank. }
  split; [exact Hdata|]. split; [|split; [|reflexivity]].
  - rewrite Hdata, lookup_insert_eq, Htime. split.
    + intros [= H]. symmetry. now apply (string_app_inv_tail _ _ ("T" +:+ t)).
    + now intros ->.
  - unfold updateData.
    now rewrite !lookup_insert_ne, lookup_singleton_ne by discriminate.
Qed.

(** X8: an entry made from a food of the database carries the id of
    that food and is not saved to the database again; in general an
    entry is saved to the database only when the form asks for it and
    no food is selected. *)
Theorem database_pick_not_saved_again (item : FoodItem) (selectedDate now : string)
        (f : FormData) (selectedFoodId : value) :
  (let '(picked, form) := selectFoodFromDatabase item selectedDate now in
   createData form picked !! "food_database_id" = Some (Num (item_id item)) /\
   createData form picked !! "save_to_database" = Some (Bool false) /\
   createData form picked !! "description" = Some (Str (name item)) /\
   createData form picked !! "date" = Some (Str selectedDate) /\
   submitted None form picked = Client.createFoodEntry (createData form picked)) /\
  (createData f selectedFoodId !! "save_to_database" = Some (Bool true) ->
   truthy (save_to_database f) = true /\ truthy selectedFoodId = false).
Proof.
  split.
  - simpl. repeat split;
      repeat (rewrite lookup_insert_ne by discriminate);
      first [apply lookup_insert_eq | apply lookup_singleton_eq].
  - unfold createData.
    repeat (rewrite lookup_insert_ne by discriminate).
    rewrite lookup_singleton_eq. unfold and_then, falsy.
    destruct (truthy (save_to_database f)) eqn:Hs.
    + intros [= H]. split; [reflexivity|]. now apply negb_true_iff.
    + intros [= H]. rewrite H in Hs. discriminate.
Qed.

(** X9: the two lists of the food database do not overlap: a food is
    among the favourites exactly when it is one; the other list holds
    foods that are no favourites, ten at most, and all of them when
    there are no more than ten. *)
Theorem food_lists_partition (db : list FoodItem) :
  (forall food, food ∈ favoriteFoods db <-> food ∈ db /\ is_favorite food = true) /\
  (forall food, food ∈ frequentFoods db -> food ∈ db /\ is_favorite food = false) /\
  (forall food, food ∈ favoriteFoods db -> food ∉ frequentFoods db) /\
  (length (frequentFoods db) <= 10)%nat /\
  sublist (favoriteFoods db) db /\ sublist (frequentFoods db) db /\
  ((length db <= 10 + length (favoriteFoods db))%nat ->
   forall food, food ∈ db -> food ∈ favoriteFoods db \/ food ∈ frequentFoods db).
Proof.
  assert (Hsub : forall (p : FoodItem -> bool) l, sublist (List.filter p l) l).
  { intros p l. induction l as [|x l IH]; simpl; [constructor|].
    destruct (p x); now constructor. }
  assert (Hfreq : forall food, food ∈ frequentFoods db ->
                    food ∈ db /\ is_favorite food = false).
  { intros food H. unfold frequentFoods in H.
    pose proof (elem_of_sublist _ _ _ H (sublist_take _ _)) as H'.
    apply list_elem_of_In, filter_In in H' as [H1 H2].
    split; [now apply list_elem_of_In | now apply negb_true_iff]. }
  split; [|split; [exact Hfreq|split; [|split; [|split; [|split]]]]].
  - intros food. unfold favoriteFoods.
    now rewrite !list_elem_of_In, filter_In.
  - intros food Hfav Hf. apply Hfreq in Hf as [_ Hf].
    apply list_elem_of_In, filter_In in Hfav as [_ Hfav]. congruence.
  - unfold frequentFoods. rewrite length_take. lia.
  - apply Hsub.
  - unfold frequentFoods. etrans; [apply sublist_take | apply Hsub].
  - intros Hlen food Hin.
    destruct (is_favorite food) eqn:Hf.
    + left. apply list_elem_of_In, filter_In. split; [now apply list_elem_of_In | exact Hf].
    + right. unfold frequentFoods. rewrite take_ge.
      * apply list_elem_of_In, filter_In.
        split; [now apply list_elem_of_In | now rewrite Hf].
      * pose proof (filter_length (fun food => is_favorite food) db) as Hl.
        unfold favoriteFoods in Hlen. lia.
Qed.

End FoodEntryForm.

(** ** The duration of a seizure *)

Section Duration.
Import Js JsString Seizures.

Lemma pretty_Z_nonneg (z : Z) : 0 <= z -> pretty z = pretty (Z.to_N z).
Proof. destruct z as [|p|p]; [reflexivity | reflexivity | lia]. Qed.

Lemma read_pretty_Z (z : Z) (rest : string) :
  0 <= z -> no_digit_ahead rest ->
  read_digits 10 None (pretty z +:+ rest) = (Some (Z.to_N z), rest).
Proof.
  intros Hz Hrest. rewrite (pretty_Z_nonneg z Hz). now apply read_pretty.
Qed.

Lemma formatDuration_positive (n : Z) :
  0 < n ->
  formatDuration (Some n) =
  if n <? 60 then pretty n +:+ "s"
  else pretty (n / 60) +:+ "m " +:+ pretty (n mod 60) +:+ "s".
Proof.
  intros Hn. unfold formatDuration.
  destruct (Z.eqb_spec n 0); [lia|].
  rewrite Z.rem_mod_nonneg by lia.
  destruct (Z.ltb_spec n 60) as [Hlt|Hge].
  - rewrite Z.div_small, Z.mod_small by lia. reflexivity.
  - destruct (Z.ltb_spec 0 (n / 60)) as [_|Hm]; [reflexivity|].
    pose proof (Z.div_le_lower_bound n 60 1). lia.
Qed.

Lemma read_duration_format (n : Z) :
  0 < n -> read_duration (formatDuration (Some n)) = Some n.
Proof.
  intros Hn. rewrite (formatDuration_positive n Hn). unfold read_duration.
  destruct (Z.ltb_spec n 60) as [Hlt|Hge].
  - rewrite read_pretty_Z by first [lia | reflexivity]. rewrite Z2N.id by lia. reflexivity.
  - pose proof (Z.div_le_lower_bound n 60 1 ltac:(lia) ltac:(lia)) as Hm.
    pose proof (Z.mod_pos_bound n 60 ltac:(lia)) as Hs.
    rewrite read_pretty_Z by first [lia | reflexivity].
    change ("m " +:+ pretty (n `mod` 60) +:+ "s")
      with (String "m" (String " " (pretty (n `mod` 60) +:+ "s"))).
    cbv iota beta.
    rewrite read_pretty_Z by first [lia | reflexivity].
    rewrite !Z2N.id by lia. f_equal.
    pose proof (Z.div_mod n 60). lia.
Qed.

(** X10: "Not recorded" is shown for no duration and for a duration of
    0, and for no other; the durations above 0 are shown as seconds
    below a minute and as minutes and seconds from a minute on, in a
    way that tells every two of them apart: the text reads back as the
    duration. *)
Theorem formatDuration_faithful :
  (forall seconds,
     formatDuration seconds = "Not recorded" <-> seconds = None \/ seconds = Some 0) /\
  (forall n, 0 < n ->
     formatDuration (Some n) =
     if n <? 60 then pretty n +:+ "s"
     else pretty (n / 60) +:+ "m " +:+ pretty (n mod 60) +:+ "s") /\
  (forall n, 0 < n -> read_duration (formatDuration (Some n)) = Some n) /\
  (forall a b, 0 < a -> 0 < b ->
     formatDuration (Some a) = formatDuration (Some b) -> a = b).
Proof.
  split; [|split; [exact formatDuration_positive|split; [exact read_duration_format|]]].
  - intros [n|]; [|split; [now left | reflexivity]].
    split; [|intros [H|[= ->]]; [discriminate | reflexivity]].
    intros H. right. f_equal.
    destruct (Z.lt_trichotomy n 0) as [Hneg|[->|Hpos]]; [exfalso | reflexivity | exfalso].
    + unfold formatDuration in H. destruct (Z.eqb_spec n 0); [lia|].
      destruct (Z.ltb_spec 0 (n / 60)) as [Hm|_].
      { pose proof (Z.div_lt_upper_bound n 60 0). lia. }
      pose proof (Z.rem_nonpos n 60 ltac:(lia) ltac:(lia)) as Hr.
      destruct (Z.rem n 60) as [|p|p]; [discriminate H | lia | discriminate H].
    + pose proof (read_duration_format n Hpos) as Hr.
      rewrite H in Hr. discriminate Hr.
  - intros a b Ha Hb H.
    pose proof (read_duration_format a Ha) as Hra.
    pose proof (read_duration_format b Hb) as Hrb.
    rewrite H in Hra. congruence.
Qed.

End Duration.

(** ** Health events *)

Section EventTypes.
Import Js HealthEvents.

(** X11: every event type, known or not, gets an entry of the table
    (never [undefined]): the entry of that value for the eight known
    values, and the entry "other" for everything else, [null]
    included. *)
Theorem getEventTypeInfo_total (eventType : Js.value) :
  exists et,
    getEventTypeInfo eventType = Some et /\
    et ∈ EVENT_TYPES /\
    (forall s, eventType = Str s -> s ∈ value <$> EVENT_TYPES -> value et = s) /\
    ((forall s, eventType = Str s -> s ∉ value <$> EVENT_TYPES) ->
     value et = "other").
Proof.
  unfold getEventTypeInfo.
  destruct (List.find (is_type eventType) EVENT_TYPES) as [et|] eqn:Hfind.
  - exists et. apply find_some in Hfind as [Hin Hty].
    split; [reflexivity|]. split; [now apply list_elem_of_In|].
    destruct eventType as [| | | |s]; try discriminate Hty.
    apply String.eqb_eq in Hty. split.
    + now intros s' [= <-] _.
    + intros Hnot. exfalso. apply (Hnot s eq_refl).
      rewrite <- Hty. apply list_elem_of_fmap_2. now apply list_elem_of_In.
  - eexists. split; [reflexivity|]. split; [repeat constructor|]. split.
    + intros s -> Hin. exfalso.
      apply list_elem_of_fmap in Hin as (et & -> & Hin).
      apply list_elem_of_In in Hin.
      pose proof (find_none _ _ Hfind et Hin) as Hn. simpl in Hn.
      now rewrite String.eqb_refl in Hn.
    + reflexivity.
Qed.

Lemma or_null_text_or (x : option string) :
  tidy x -> or_null (text_or x "") = text_json x.
Proof.
  unfold tidy, or_null, text_or, or_else. destruct x as [s|]; [|reflexivity].
  intros H. destruct (String.eqb_spec s "") as [->|Hs]; [contradiction|].
  simpl. now destruct (String.eqb_spec s "").
Qed.

(** X12: saving an event that was opened for editing and not changed
    sends the event back as it was, when it has no time, a type and a
    title, and its other texts are [null] or not empty.  An event
    whose type is missing is sent back with the type "other". *)
Theorem event_edit_unchanged clock_time now (event : Event) :
  time event = None ->
  (exists ty, event_type event = Some ty /\ ty <> "") ->
  (exists t, title event = Some t) ->
  tidy (description event) -> tidy (location event) -> tidy (provider event) ->
  tidy (follow_up_date event) -> tidy (outcome event) -> tidy (notes event) ->
  submit_data (handleEdit clock_time now event) = event_json event /\
  (forall other : Event,
     event_type other = None ->
     submit_data (handleEdit clock_time now other) !! "event_type"
     = Some (Str "other")).
Proof.
  intros Htime (ty & Hty & Hne) (t & Ht) Hd Hl Hp Hf Ho Hn. split.
  - unfold submit_data, event_json, handleEdit. rewrite Htime. simpl.
    rewrite !or_null_text_or by assumption.
    rewrite Hty, Ht. simpl.
    destruct (String.eqb_spec ty ""); [contradiction|].
    destruct (String.eqb_spec t "") as [->|]; reflexivity.
  - intros other Hother. unfold submit_data, handleEdit. simpl.
    rewrite Hother. simpl.
    repeat (rewrite lookup_insert_ne by discriminate).
    apply lookup_insert_eq.
Qed.

(** X13: no optional text of an event is sent as an empty string: it
    is sent as [null]; and the time that is sent is on the date of the
    event, or [null]. *)
Theorem submit_data_tidy (f : FormData) (k : string) :
  k ∈ ["description"; "location"; "provider"; "follow_up_date"; "outcome"; "notes"] ->
  (submit_data f !! k = Some Null \/
   exists s, submit_data f !! k = Some (Str s) /\ s <> "") /\
  (submit_data f !! "time" = Some Null \/
   submit_data f !! "time" = Some (Str (f_date f +:+ "T" +:+ timeOfDay f))).
Proof.
  assert (Hor : forall s, or_null s = Null \/ (or_null s = Str s /\ s <> "")).
  { intros s. unfold or_null, or_else. simpl.
    destruct (String.eqb_spec s ""); simpl; [now left | now right]. }
  intros Hk. split.
  - unfold submit_data.
    repeat (apply elem_of_cons in Hk as [->|Hk];
            [repeat (rewrite lookup_insert_ne by discriminate);
             rewrite ?lookup_insert_eq, ?lookup_singleton_eq;
             match goal with |- context [or_null ?s] =>
               destruct (Hor s) as [->|[-> ?]]; [now left | right; eauto] end|]).
    inversion Hk.
  - unfold submit_data. rewrite lookup_insert_ne by discriminate.
    rewrite lookup_insert_eq. destruct (hasTime f); [now right | now left].
Qed.

End EventTypes.

(** ** Navigation *)

Section Navigation.
Import Layout.

Lemma nav_paths_distinct : NoDup (path <$> navItems).
Proof. apply (bool_decide_unpack _). vm_compute. reflexivity. Qed.

Lemma filter_active_le (pathname : string) (items : list NavItem) :
  NoDup (path <$> items) ->
  (length (List.filter (isActive pathname) items) <= 1)%nat /\
  (pathname ∉ path <$> items -> List.filter (isActive pathname) items = []).
Proof.
  induction items as [|it items IH]; intros Hnd; simpl; [split; [lia | reflexivity]|].
  rewrite fmap_cons in Hnd. apply NoDup_cons in Hnd as [Hnotin Hnd].
  destruct (IH Hnd) as [IH1 IH2].
  destruct (isActive pathname it) eqn:Hact.
  - apply String.eqb_eq in Hact. split.
    + simpl. rewrite IH2; [simpl; lia|]. now rewrite Hact.
    + intros H. exfalso. apply H. rewrite Hact. now left.
  - apply String.eqb_neq in Hact.
    split; [exact IH1|]. intros H. apply IH2. intros Hin. apply H. now right.
Qed.

(** X14: whatever the path of the page, at most one item of the
    navigation is highlighted, and one is exactly when the path is the
    path of an item. *)
Theorem one_active_item (pathname : string) :
  (length (List.filter (isActive pathname) navItems) <= 1)%nat /\
  (length (List.filter (isActive pathname) navItems) = 1%nat
   <-> pathname ∈ path <$> navItems).
Proof.
  destruct (filter_active_le pathname navItems nav_paths_distinct) as [Hle Hnone].
  split; [exact Hle|]. split.
  - intros Hone. destruct (decide (pathname ∈ path <$> navItems)) as [|Hn]; [assumption|].
    rewrite (Hnone Hn) in Hone. discriminate.
  - intros Hin. apply list_elem_of_fmap in Hin as (it & -> & Hin).
    assert (Hex : it ∈ List.filter (isActive (path it)) navItems).
    { apply list_elem_of_In, filter_In. split; [now apply list_elem_of_In|].
      apply String.eqb_refl. }
    destruct (List.filter (isActive (path it)) navItems) as [|x [|y l]];
      [inversion Hex | reflexivity | simpl in Hle; lia].
Qed.

(** X15: every item of the navigation leads to a route of [App.jsx],
    but for "Health Events", whose path has no route. *)
Theorem nav_items_routed (item : NavItem) :
  item ∈ navItems ->
  (path item ∈ route_paths <-> path item <> "/health-events").
Proof.
  intros Hin.
  repeat (apply elem_of_cons in Hin as [->|Hin];
          [split; [intros H; try discriminate;
                   apply (bool_decide_pack _) in H; vm_compute in H; now destruct H
                  |intros H; try (now contradiction H);
                   apply (bool_decide_unpack _); vm_compute; exact I]|]).
  inversion Hin.
Qed.

End Navigation.
(** ** What the handlers report *)

Section Reports.
Import Js Http Wire Fx Trace JsString.
Context {S : Type}.
Variable respond : Request -> S -> option Response * S.
Variable query_retry : nat.

Lemma alerts_app (a b : list Event) : alerts (a ++ b) = (alerts a ++ alerts b)%list.
Proof. apply omap_app. Qed.

Lemma sent_app (a b : list Event) : sent (a ++ b) = (sent a ++ sent b)%list.
Proof. apply omap_app. Qed.

Lemma syncing_app (a b : list Event) cur :
  syncing (a ++ b) cur = syncing b (syncing a cur).
Proof.
  revert cur. induction a as [|ev a IH]; intros cur; simpl; [reflexivity|].
  destruct ev; apply IH.
Qed.

Lemma or_else_truthy (a b : value) : truthy a = true -> or_else a b = a.
Proof. unfold or_else. now intros ->. Qed.

Lemma status_message_nonempty (st : Z) : status_message st <> "".
Proof. discriminate. Qed.

Ltac listed := repeat constructor.
Ltac unlisted :=
  let H := fresh in
  intros H; repeat (apply elem_of_cons in H as [H|H]; [discriminate H|]);
  inversion H.

Lemma accepted_not_rejected (r : Request) (s : S) :
  accepted respond r s <-> ~ rejected respond r s.
Proof.
  unfold accepted, rejected. destruct (fst (respond r s)) as [resp|].
  - split.
    + intros (resp' & [= <-] & H). congruence.
    + intros H. exists resp. split; [reflexivity|].
      destruct (ok_status (status resp)); [reflexivity | now contradiction H].
  - split; [now intros (resp & H & _) | intros H; now contradiction H].
Qed.

(** X16: saving the settings sends the form once, whatever the
    server does, and nothing is thrown.  When the request is accepted
    the user is told so, both queries are invalidated and the password
    field is emptied; when it is rejected the user is told that, the
    password typed stays in the form and no query is invalidated. *)
Theorem settings_submit_reported (f : Settings.FormData) (w : World S) :
  let r := Client.updateUser (Settings.payload f) in
  let out := Settings.handleSubmit respond f w in
  exists new,
    fst out = Normal tt /\
    server (snd out) = snd (respond r (server w)) /\
    trace (snd out) = (trace w ++ new)%list /\
    sent new = [r] /\
    (accepted respond r (server w) ->
       alerts new = ["Settings saved successfully!"] /\
       ResetPassword ∈ new /\
       InvalidateQueries "user" ∈ new /\ InvalidateQueries "garminConfigured" ∈ new) /\
    (rejected respond r (server w) ->
       alerts new = ["Failed to save settings. Please try again."] /\
       (ResetPassword ∉ new) /\ (forall key, InvalidateQueries key ∉ new)).
Proof.
  intros r out. subst out.
  unfold Settings.handleSubmit, mutate, swallow, try_catch, bind.
  rewrite emit_run.
  cbn [Settings.updateMutation retry retrying mutationFn onSuccess onError
       ReactQuery.mutation_retry].
  rewrite request_run. cbn [server trace]. fold r.
  unfold accepted, rejected.
  destruct (respond r (server w)) as [[resp|] s']; simpl.
  - destruct (ok_status (status resp)) eqn:Hok; simpl.
    + eexists. split; [reflexivity|]. split; [reflexivity|].
      split; [rewrite <- !app_assoc; reflexivity|]. simpl.
      split; [reflexivity|]. split.
      * intros _. split; [reflexivity|]. repeat split; listed.
      * intros [=].
    + eexists. split; [reflexivity|]. split; [reflexivity|].
      split; [rewrite <- !app_assoc; reflexivity|]. simpl.
      split; [reflexivity|]. split.
      * intros (resp' & [= <-] & H). congruence.
      * intros _. split; [reflexivity|]. split; [unlisted | intros key; unlisted].
  - eexists. split; [reflexivity|]. split; [reflexivity|].
    split; [rewrite <- !app_assoc; reflexivity|]. simpl.
    split; [reflexivity|]. split.
    + intros (resp' & [=] & _).
    + intros _. split; [reflexivity|]. split; [unlisted | intros key; unlisted].
Qed.


(** X18: an export sends one request and ends with exactly one
    alert, whatever the server does.  An accepted export names the file
    of the response; a rejected one shows the detail the server gave
    or else the message of the error, which is never empty, so that
    "Unknown error" is not what a rejected request shows. *)
Theorem export_reported (startDate endDate exportFormat : string) (w : World S) :
  let r := Client.exportData (ExportPage.export_request startDate endDate exportFormat) in
  let out := ExportPage.handleExport respond startDate endDate exportFormat w in
  exists new,
    fst out = Normal tt /\
    trace (snd out) = (trace w ++ new)%list /\
    sent new = [r] /\
    length (alerts new) = 1%nat /\
    (forall resp o,
       fst (respond r (server w)) = Some resp -> ok_status (status resp) = true ->
       data resp = JsonObj o ->
       alerts new = ["Data exported successfully! File: " +:+ ToString (prop o "file_path")]) /\
    (rejected respond r (server w) ->
       exists e,
         response e = fst (respond r (server w)) /\ message e <> "" /\
         alerts new =
           ["Export failed: " +:+ ToString (or_else (detail e) (Str (message e)))]).
Proof.
  assert (Hfail : forall e, message e <> "" ->
            ExportPage.failure_message e = or_else (detail e) (Str (message e))).
  { intros e He. unfold ExportPage.failure_message.
    apply or_else_truthy. unfold or_else.
    destruct (truthy (detail e)) eqn:Hd; [exact Hd|]. simpl.
    now destruct (String.eqb_spec (message e) ""). }
  intros r out. subst out.
  unfold ExportPage.handleExport, mutate, swallow, try_catch, bind.
  cbn [ExportPage.exportMutation retry retrying mutationFn onSuccess onError
       ReactQuery.mutation_retry].
  rewrite request_run. cbn [server trace]. fold r.
  unfold rejected.
  destruct (respond r (server w)) as [[resp|] s']; cbv beta iota.
  - destruct (ok_status (status resp)) eqn:Hok; cbv beta iota.
    + simpl. destruct (data_prop (data resp) "file_path") as [file_path|] eqn:Hp; simpl.
      * eexists. split; [reflexivity|].
        split; [rewrite <- !app_assoc; reflexivity|]. simpl.
        split; [reflexivity|]. split; [reflexivity|]. split.
        -- intros resp' o [= <-] _ Hd. rewrite Hd in Hp. simpl in Hp.
           now injection Hp as <-.
        -- intros H. simpl in H. congruence.
      * eexists. split; [reflexivity|].
        split; [rewrite <- !app_assoc; reflexivity|]. simpl.
        split; [reflexivity|]. split; [reflexivity|]. split.
        -- intros resp' o [= <-] _ Hd. rewrite Hd in Hp. discriminate Hp.
        -- intros H. simpl in H. congruence.
    + rewrite Hfail by apply status_message_nonempty. simpl.
      eexists. split; [reflexivity|].
      split; [rewrite <- !app_assoc; reflexivity|]. simpl.
      split; [reflexivity|]. split; [reflexivity|]. split.
      * intros resp' o [= <-] H. congruence.
      * intros _. exists (mkError (Some resp) (status_message (status resp))).
        split; [reflexivity|]. split; [apply status_message_nonempty|].
        reflexivity.
  - rewrite Hfail by discriminate. simpl.
    eexists. split; [reflexivity|].
    split; [rewrite <- !app_assoc; reflexivity|]. simpl.
    split; [reflexivity|]. split; [reflexivity|]. split.
    + intros resp' o [=].
    + intros _. exists (mkError None "Network Error").
      split; [reflexivity|]. split; [discriminate|].
      reflexivity.
Qed.


Lemma summary_once (w : World S) :
  exists new,
    trace (snd (Dashboard.todaySummary respond w))
    = (trace w ++ Sent Client.getTodaySummary :: new)%list /\
    Forall background new.
Proof.
  unfold Dashboard.todaySummary, bind. rewrite request_run.
  destruct (respond Client.getTodaySummary (server w)) as [[resp|] s'];
    [destruct (ok_status (status resp))|]; simpl;
    eexists; (split; [rewrite <- ?app_assoc; reflexivity|]);
    repeat constructor.
Qed.

Lemma retrying_summary (n : nat) : forall w : World S,
  exists new,
    trace (snd (retrying n (Dashboard.todaySummary respond) w))
    = (trace w ++ Sent Client.getTodaySummary :: new)%list /\
    Forall background new.
Proof.
  induction n as [|n IH]; intros w; simpl; [apply summary_once|].
  unfold try_catch. destruct (summary_once w) as (new0 & H0 & F0).
  destruct (Dashboard.todaySummary respond w) as [[d|e] w1]; simpl in *.
  - now exists new0.
  - destruct (IH w1) as (new1 & H1 & F1). rewrite H1, H0.
    exists (new0 ++ Sent Client.getTodaySummary :: new1)%list. split.
    + now rewrite <- app_assoc.
    + apply Forall_app. split; [exact F0|]. constructor; [exact I | exact F1].
Qed.

Lemma refetch_summary (w : World S) :
  exists new d,
    refetch "todaySummary" query_retry (Dashboard.todaySummary respond) w
    = (Normal tt,
       mkWorld (server (snd (retrying query_retry (Dashboard.todaySummary respond) w)))
         (trace w ++ Sent Client.getTodaySummary :: new
                 ++ [QuerySettled "todaySummary" d])) /\
    Forall background new.
Proof.
  destruct (retrying_summary query_retry w) as (new & H & F).
  unfold refetch, try_catch, bind.
  destruct (retrying query_retry (Dashboard.todaySummary respond) w)
    as [[d|e] w1]; unfold emit; simpl in *; rewrite H;
    eexists new, _; (split; [|exact F]); rewrite <- app_assoc; reflexivity.
Qed.

(** X19: the sync button of the dashboard is always released: the
    flag is set first and cleared last, nothing in between touches it
    and nothing is thrown, whatever the server does.  After a sync that
    was accepted no alert is raised, no second sync is sent, and the
    summary of the day is asked for again, its outcome being the last
    thing recorded before the flag is cleared. *)
Theorem handleSync_settles (w : World S) (cur : bool) :
  let r := Client.syncGarminData Undefined Undefined in
  let out := Dashboard.handleSync respond query_retry w in
  exists new,
    fst out = Normal tt /\
    trace (snd out) = (trace w ++ SetSyncing true :: new ++ [SetSyncing false])%list /\
    (forall b, SetSyncing b ∉ new) /\
    syncing (trace (snd out)) cur = false /\
    (accepted respond r (server w) ->
     alerts new = [] /\
     sync_requests new = 1%nat /\
     Client.getTodaySummary ∈ sent new /\
     exists d, last new = Some (QuerySettled "todaySummary" d)).
Proof.
  intros r out.
  assert (Hflag : forall t, syncing (t ++ [SetSyncing false]) cur = false).
  { intros t. now rewrite syncing_app. }
  assert (Hback : forall new, Forall background new ->
            (forall b, SetSyncing b ∉ new) /\ alerts new = []).
  { intros new F. split.
    - intros b Hin. rewrite Forall_forall in F. exact (F _ Hin).
    - induction F as [|ev new Hev _ IH]; [reflexivity|].
      destruct ev; try contradiction; exact IH. }
  subst out. unfold Dashboard.handleSync, bind, finally, try_catch.
  rewrite emit_run, request_run. cbn [server trace]. fold r.
  unfold accepted.
  destruct (respond r (server w)) as [[resp|] s'] eqn:Hr; cbv beta iota.
  - destruct (ok_status (status resp)) eqn:Hok; cbv beta iota.
    + set (w1 := mkWorld s' _).
      destruct (refetch_summary w1) as (new & d & Hre & F).
      pose proof (quiet_refetch_summary respond query_retry w1) as Hq.
      rewrite Hre in Hq. cbn [snd trace] in Hq.
      rewrite sync_requests_app in Hq.
      rewrite Hre. simpl.
      exists (Sent r :: Sent Client.getTodaySummary :: new
                ++ [QuerySettled "todaySummary" d])%list.
      split; [reflexivity|]. split; [rewrite <- !app_assoc; reflexivity|].
      assert (F' : Forall background
                     (Sent r :: Sent Client.getTodaySummary :: new
                        ++ [QuerySettled "todaySummary" d])).
      { repeat constructor. apply Forall_app. split; [exact F | repeat constructor]. }
      destruct (Hback _ F') as (Hno & Hal).
      split; [exact Hno|]. split; [apply Hflag|]. intros _.
      split; [exact Hal|]. split; [|split].
      * change (sync_requests (Sent r :: Sent Client.getTodaySummary :: new
                                 ++ [QuerySettled "todaySummary" d]))
          with (Datatypes.S (sync_requests (Sent Client.getTodaySummary :: new
                                 ++ [QuerySettled "todaySummary" d]))).
        lia.
      * simpl. right. left.
      * exists d.
        change (Sent r :: Sent Client.getTodaySummary :: new
                  ++ [QuerySettled "todaySummary" d])%list
          with ((Sent r :: Sent Client.getTodaySummary :: new)
                  ++ [QuerySettled "todaySummary" d])%list.
        apply last_snoc.
    + simpl. eexists [_; _; _; _]. split; [reflexivity|].
      split; [rewrite <- !app_assoc; reflexivity|].
      split; [intros b; unlisted|]. split; [apply Hflag|].
      intros (resp' & [= <-] & H). congruence.
  - simpl. eexists [_; _; _; _]. split; [reflexivity|].
    split; [rewrite <- !app_assoc; reflexivity|].
    split; [intros b; unlisted|]. split; [apply Hflag|].
    intros (resp' & [=] & _).
Qed.

(** X20: a manual sync always ends with a message on the page and
    its removal after five seconds scheduled last.  A success message
    means that the request was accepted and the Garmin data
    invalidated; it carries the message of the response, or else a
    fixed text.  A response that was accepted with no data at all is
    reported as a failure. *)
Theorem manual_sync_message (D : string) (force : bool) (w : World S)
        (cur : option Message) :
  let r := Client.syncGarminData (Str D) (Bool force) in
  let out := GarminData.handleManualSync respond D force w in
  fst out = Normal tt /\
  last (trace (snd out)) = Some (ClearSyncMessageAfter 5000) /\
  exists m,
    shown_message (trace (snd out)) cur = Some m /\
    (mtype m = "success" \/ mtype m = "error") /\
    (mtype m = "success" ->
       accepted respond r (server w) /\
       InvalidateQueries "garminData" ∈ trace (snd out)) /\
    (forall resp o,
       fst (respond r (server w)) = Some resp -> ok_status (status resp) = true ->
       data resp = JsonObj o ->
       m = mkMessage "success"
             (or_else (prop o "message") (Str "Data synced successfully!"))) /\
    (forall resp,
       fst (respond r (server w)) = Some resp -> ok_status (status resp) = true ->
       data resp = NoData ->
       m = mkMessage "error"
             (Str "Failed to sync data. Please check your Garmin credentials.")).
Proof.
  intros r out. subst out.
  unfold GarminData.handleManualSync, mutate, swallow, try_catch, bind.
  rewrite emit_run.
  cbn [GarminData.syncMutation retry retrying mutationFn onSuccess onError
       ReactQuery.mutation_retry].
  rewrite request_run. cbn [server trace]. fold r. unfold accepted.
  destruct (respond r (server w)) as [[resp|] s']; simpl.
  - destruct (ok_status (status resp)) eqn:Hok; simpl.
    + destruct (data_prop (data resp) "message") as [msg|] eqn:Hm; simpl.
      * split; [reflexivity|]. split; [apply last_snoc|].
        eexists. split; [now rewrite !shown_message_app|].
        split; [now left|]. split; [|split].
        -- intros _. split; [now exists resp|].
           rewrite !elem_of_app. left. left. right. listed.
        -- intros resp' o [= <-] _ Hd. rewrite Hd in Hm. simpl in Hm.
           now injection Hm as <-.
        -- intros resp' [= <-] _ Hd. rewrite Hd in Hm. discriminate Hm.
      * split; [reflexivity|]. split; [apply last_snoc|].
        eexists. split; [now rewrite !shown_message_app|].
        split; [now right|]. split; [|split].
        -- intros [=].
        -- intros resp' o [= <-] _ Hd. rewrite Hd in Hm. discriminate Hm.
        -- intros resp' [= <-] _ Hd. reflexivity.
    + split; [reflexivity|]. split; [apply last_snoc|].
      eexists. split; [now rewrite !shown_message_app|].
      split; [now right|]. split; [|split].
      * intros [=].
      * intros resp' o [= <-] H. congruence.
      * intros resp' [= <-] H. congruence.
  - split; [reflexivity|]. split; [apply last_snoc|].
    eexists. split; [now rewrite !shown_message_app|].
    split; [now right|]. split; [|split].
    + intros [=].
    + intros resp' o [=].
    + intros resp' [=].
Qed.

End Reports.
(** ** What a form sends *)

Section Forms.
Import Js Http JsString.

(** X17: the form as the profile query fills it has an empty
    password, so saving it as loaded sends the e-mail address and the
    Garmin user name of the profile (empty for [null]) and no
    password. *)
Theorem loaded_form_sends_no_password (user : SettingsQuery.UserInfo) :
  let f := SettingsQuery.loaded user in
  Settings.payload f =
    {[ "email" := Str (default "" (SettingsQuery.email user));
       "garmin_username" := Str (default "" (SettingsQuery.garmin_username user)) ]} /\
  dom (Settings.payload f) = ({[ "email"; "garmin_username" ]} : gset string) /\
  Settings.payload f !! "garmin_password" = None.
Proof.
  intros f. subst f.
  rewrite (payload_blank (SettingsQuery.loaded user) eq_refl).
  split; [|split].
  - unfold SettingsQuery.loaded. simpl.
    now destruct (SettingsQuery.email user), (SettingsQuery.garmin_username user).
  - now rewrite dom_insert_L, dom_singleton_L.
  - rewrite lookup_insert_ne by discriminate.
    now rewrite lookup_singleton_ne by discriminate.
Qed.

(** Digits at the head of a text are what [parseInt] reads, but for
    a lone 0, which [x] may follow. *)
Lemma parseInt_string_leading (s rest : string) :
  all_digits s = true -> s <> "" -> s <> "0" ->
  parseInt_string (s +:+ rest) = Z.of_N <$> fst (read_digits 10 None (s +:+ rest)).
Proof.
  intros Hs Hne Hz. destruct s as [|c s]; [contradiction|].
  pose proof Hs as Hs'. simpl in Hs'. apply andb_true_iff in Hs' as [Hc Hs'].
  destruct (is_decimal_plain c Hc) as (Hsp & Hm & Hp & _).
  change (String c s +:+ rest) with (String c (s +:+ rest)).
  unfold parseInt_string. cbn [skip_spaces]. rewrite Hsp.
  assert (Hsign : match String c (s +:+ rest) with
                  | String "-"%char s' => (true, s')
                  | String "+"%char s' => (false, s')
                  | _ => (false, String c (s +:+ rest))
                  end = (false, String c (s +:+ rest))).
  { destruct c as [[] [] [] [] [] [] [] []]; try reflexivity; congruence. }
  assert (Hradix : match String c (s +:+ rest) with
                   | String "0"%char (String "x"%char s')
                   | String "0"%char (String "X"%char s') => (16%N, s')
                   | _ => (10%N, String c (s +:+ rest))
                   end = (10%N, String c (s +:+ rest))).
  { destruct s as [|c2 s].
    - destruct c as [[] [] [] [] [] [] [] []]; try reflexivity.
      now contradiction Hz.
    - change (String c2 s +:+ rest) with (String c2 (s +:+ rest)).
      simpl in Hs'. apply andb_true_iff in Hs' as [Hc2 _].
      destruct (is_decimal_plain c2 Hc2) as (_ & _ & _ & Hx & HX).
      destruct c as [[] [] [] [] [] [] [] []]; try reflexivity;
        destruct c2 as [[] [] [] [] [] [] [] []]; try reflexivity; congruence. }
  rewrite Hsign, Hradix.
  destruct (fst (read_digits 10 None (String c (s +:+ rest)))); reflexivity.
Qed.

(** X22: the amount that is sent for what the user typed: digits of
    a number above 0 and up to 2^53 are read up to the first character
    that is no digit, so that [1e3] and [1.5] are sent as 1; white
    space in front, the no-break space included, is skipped; a text
    that begins with neither a digit, a sign nor white space is sent as
    [null], and so is the empty field.  A typed [0] is sent as 0, while
    the number 0 that an edit puts in the field is sent as [null]. *)
Theorem amount_typed :
  (forall n rest, 0 < n <= 2 ^ 53 -> no_digit_ahead rest ->
     FoodForm.amount (Str (pretty n +:+ rest)) = Num n) /\
  (forall c s, is_space c = true ->
     FoodForm.amount (Str (String c s)) = FoodForm.amount (Str s)) /\
  (forall c rest,
     is_decimal c = false -> is_space c = false ->
     c <> "-"%char -> c <> "+"%char ->
     FoodForm.amount (Str (String c rest)) = Null) /\
  is_space Cases.nbsp = true /\
  FoodForm.amount (Str "") = Null /\
  FoodForm.amount (Str "0") = Num 0 /\
  FoodForm.amount (Num 0) = Null.
Proof.
  split; [|split; [|split; [|repeat split]]].
  - intros n rest [Hn _] Hrest. destruct n as [|p|p]; try lia.
    change (pretty (Z.pos p)) with (pretty (N.pos p)).
    destruct (pretty_N_digits (N.pos p)) as [Hd Hr].
    assert (Hne : pretty (N.pos p) <> "").
    { intros H. rewrite H in Hr. discriminate Hr. }
    assert (Hz : pretty (N.pos p) <> "0").
    { intros H. pose proof (pretty_N_inj (N.pos p) 0%N H) as H0. discriminate H0. }
    unfold FoodForm.amount, parseInt, ToString.
    rewrite (parseInt_string_leading _ rest Hd Hne Hz), (read_pretty _ _ Hrest).
    destruct (pretty (N.pos p)) as [|c s]; [contradiction | reflexivity].
  - intros c s Hc. unfold FoodForm.amount, parseInt, ToString.
    assert (Hp : parseInt_string (String c s) = parseInt_string s).
    { unfold parseInt_string. cbn [skip_spaces]. now rewrite Hc. }
    rewrite Hp. destruct s as [|c' s]; reflexivity.
  - intros c rest Hd Hsp Hm Hp.
    destruct c as [[] [] [] [] [] [] [] []];
      first [discriminate Hd | discriminate Hsp | now contradiction Hm
            | now contradiction Hp | reflexivity].
Qed.

Lemma or_null_default (x : option string) (d : string) :
  d <> "" ->
  HealthEvents.or_null (HealthEvents.text_or x d) = Str (HealthEvents.text_or x d).
Proof.
  intros Hd. unfold HealthEvents.or_null, HealthEvents.text_or, or_else.
  destruct x as [s|]; simpl.
  - destruct (String.eqb_spec s "") as [->|Hs]; simpl.
    + now destruct (String.eqb_spec d "").
    + now destruct (String.eqb_spec s "").
  - now destruct (String.eqb_spec d "").
Qed.

(** X21: saving a seizure that was opened for editing and not
    changed sends it back as it was, when its texts are [null] or not
    empty: the date and the time of day that date-fns reads from its
    time, its texts, and its duration unless that is 0, which is sent
    as [null].  The severity is the exception: a seizure without one is
    sent back as moderate. *)
Theorem seizure_edit_unchanged (day_of time_of : string -> string)
        (seizure : SeizureForm.Seizure) :
  HealthEvents.tidy (SeizureForm.seizure_type seizure) ->
  HealthEvents.tidy (SeizureForm.triggers seizure) ->
  HealthEvents.tidy (SeizureForm.warning_signs seizure) ->
  HealthEvents.tidy (SeizureForm.post_seizure_state seizure) ->
  HealthEvents.tidy (SeizureForm.location seizure) ->
  HealthEvents.tidy (SeizureForm.activity_before seizure) ->
  HealthEvents.tidy (SeizureForm.notes seizure) ->
  let form := SeizureForm.handleEdit day_of time_of seizure in
  SeizureForm.submit_data form =
    {[ "date" := Str (day_of (SeizureForm.time seizure));
       "time" := Str (day_of (SeizureForm.time seizure) +:+ "T"
                      +:+ time_of (SeizureForm.time seizure));
       "seizure_type" := HealthEvents.text_json (SeizureForm.seizure_type seizure);
       "duration_seconds" := FoodForm.kept_amount (SeizureForm.duration_seconds seizure);
       "severity" := Str (HealthEvents.text_or (SeizureForm.severity seizure) "moderate");
       "triggers" := HealthEvents.text_json (SeizureForm.triggers seizure);
       "warning_signs" := HealthEvents.text_json (SeizureForm.warning_signs seizure);
       "post_seizure_state" :=
         HealthEvents.text_json (SeizureForm.post_seizure_state seizure);
       "location" := HealthEvents.text_json (SeizureForm.location seizure);
       "activity_before" := HealthEvents.text_json (SeizureForm.activity_before seizure);
       "notes" := HealthEvents.text_json (SeizureForm.notes seizure) ]} /\
  SeizureForm.submitted (Some seizure) form
  = Client.updateSeizure (Num (SeizureForm.id seizure)) (SeizureForm.submit_data form) /\
  (SeizureForm.severity seizure = None ->
   SeizureForm.submit_data form !! "severity" = Some (Str "moderate")).
Proof.
  intros H1 H2 H3 H4 H5 H6 H7 form.
  assert (Hdata : SeizureForm.submit_data form = SeizureForm.submit_data form)
    by reflexivity.
  unfold SeizureForm.submit_data at 2 in Hdata. subst form.
  cbn [SeizureForm.handleEdit SeizureForm.f_date SeizureForm.f_timeOfDay
       SeizureForm.f_seizure_type SeizureForm.f_duration_seconds
       SeizureForm.f_severity SeizureForm.f_triggers SeizureForm.f_warning_signs
       SeizureForm.f_post_seizure_state SeizureForm.f_location
       SeizureForm.f_activity_before SeizureForm.f_notes] in Hdata.
  rewrite !or_null_text_or in Hdata by assumption.
  rewrite or_null_default in Hdata by discriminate.
  rewrite amount_number_or_blank in Hdata.
  split; [exact Hdata|]. split; [reflexivity|].
  intros Hsev. rewrite Hdata, Hsev.
  repeat (rewrite lookup_insert_ne by discriminate).
  apply lookup_insert_eq.
Qed.

End Forms.
(** ** Imports *)

Section Imports.
Import Pages.

Lemma imports_checked :
  Forall (fun pn : string * list string =>
            Forall (fun name =>
                      bool_decide (name ∈ fst <$> Client.exports)
                      = negb (bool_decide
                                ((pn.1 = "FoodLog.jsx" /\
                                  name ∈ ["getFoodDatabase"; "toggleFoodFavorite"]) \/
                                 pn.1 = "HealthEvents.jsx")))
                   pn.2)
         imports.
Proof. repeat constructor. Qed.

(** X23: a name that a page imports from the API client is exported
    by [client.js], but for the two food database functions that
    [FoodLog.jsx] imports and the four functions that
    [HealthEvents.jsx] imports, which [client.js] does not export. *)
Theorem imports_resolved (page name : string) :
  imported page name ->
  (name ∈ fst <$> Client.exports <->
   ~ ((page = "FoodLog.jsx" /\ name ∈ ["getFoodDatabase"; "toggleFoodFavorite"]) \/
      page = "HealthEvents.jsx")).
Proof.
  intros (names & Hp & Hn).
  pose proof imports_checked as H. rewrite Forall_forall in H.
  specialize (H _ Hp). rewrite Forall_forall in H. specialize (H _ Hn).
  simpl in H. split.
  - intros Hin Hbad. rewrite (bool_decide_eq_true_2 _ Hin) in H.
    rewrite (bool_decide_eq_true_2 _ Hbad) in H. discriminate H.
  - intros Hgood. rewrite (bool_decide_eq_false_2 _ Hgood) in H.
    now apply bool_decide_eq_true_1 in H.
Qed.

End Imports.
(** ** The further properties at sample data *)

Section MoreSamples.
Import Js Http Wire Fx Trace JsString.

(** X3: a time is added to a new form and the first one removed. *)
Lemma schedule_times_sample :
  Medications.removeScheduleTime 0
    (Medications.addScheduleTime Medications.initial_times) <> [].
Proof.
  apply (schedule_times_never_empty Medications.initial_times); [discriminate|].
  eapply Medications.reach_step.
  - eapply Medications.reach_step;
      [apply Medications.reach_here | apply Medications.step_add].
  - apply Medications.step_remove; simpl; lia.
Defined.

(** X5: a dose at half past nine. *)
Lemma timeOnly_sample :
  Medications.timeOnly (Medications.datetime "2024-05-01" "09:30") = "09:30" /\
  Medications.timeOnly "2024-05-01T09:30:00" = "09:30".
Proof.
  destruct (timeOnly_round_trip "2024-05-01" "09:30" eq_refl eq_refl)
    as (H1 & H2 & _); [simpl; lia|].
  split; [exact H1 | exact (H2 eq_refl ":00")].
Defined.

(** X7: the porridge is saved as it was, but for its volume of 0; the
    snack after midnight is moved to the day it is logged for. *)
Lemma edit_unchanged_sample :
  FoodForm.updateData (FoodForm.handleEdit Cases.porridge) =
    {[ "time" := Str "2024-05-01T08:30";
       "meal_type" := Str "breakfast";
       "description" := Str "Porridge";
       "is_drink" := Bool false;
       "calories" := Num 320;
       "volume_ml" := Null;
       "notes" := Str "with honey" ]} /\
  FoodForm.updateData (FoodForm.handleEdit Cases.porridge) !! "time"
  = Some (Str (FoodLog.time Cases.porridge)) /\
  FoodForm.updateData (FoodForm.handleEdit Cases.late_snack) !! "time"
  = Some (Str "2024-05-01T00:30") /\
  FoodForm.updateData (FoodForm.handleEdit Cases.late_snack) !! "time"
  <> Some (Str (FoodLog.time Cases.late_snack)).
Proof.
  destruct (edit_unchanged Cases.porridge "2024-05-01" "08:30"
              eq_refl eq_refl eq_refl) as (H & Hsame & _); [discriminate|].
  destruct (edit_unchanged Cases.late_snack "2024-05-02" "00:30"
              eq_refl eq_refl eq_refl) as (Hl & Hmoved & _); [discriminate|].
  split; [exact H|]. split; [now apply Hsame|]. split.
  - rewrite Hl. apply lookup_insert_eq.
  - intros Heq. apply Hmoved in Heq. discriminate Heq.
Defined.

(** X12: a check-up without a time. *)
Lemma event_edit_sample :
  HealthEvents.submit_data (HealthEvents.handleEdit Cases.time_of "10:00" Cases.checkup)
  = HealthEvents.event_json Cases.checkup.
Proof.
  refine (proj1 (event_edit_unchanged Cases.time_of "10:00" Cases.checkup
                   eq_refl _ _ _ _ _ _ _ _)); try discriminate.
  - exists "doctor_visit". split; [reflexivity | discriminate].
  - now exists "Check-up".
Defined.

(** X13: the notes of the check-up. *)
Lemma submit_data_sample :
  HealthEvents.submit_data (HealthEvents.handleEdit Cases.time_of "10:00" Cases.checkup)
    !! "outcome" = Some Null.
Proof.
  destruct (submit_data_tidy
              (HealthEvents.handleEdit Cases.time_of "10:00" Cases.checkup) "outcome")
    as [[H|(s & H & Hs)] _].
  - repeat constructor.
  - exact H.
  - vm_compute in H. discriminate H.
Defined.

(** X15: the item of the food log has a route, that of the health
    events has none. *)
Lemma nav_items_sample :
  "/food" ∈ Layout.route_paths /\ "/health-events" ∉ Layout.route_paths.
Proof.
  split.
  - apply (nav_items_routed (Layout.mkNav "/food" "Food Log"));
      [repeat constructor | discriminate].
  - intros H.
    now apply (nav_items_routed (Layout.mkNav "/health-events" "Health Events"))
      in H; [|repeat constructor].
Defined.

(** X21: a seizure without a severity is saved as moderate. *)
Lemma seizure_edit_sample :
  SeizureForm.submit_data
    (SeizureForm.handleEdit Cases.day_of Cases.time_of Cases.night_seizure)
    !! "severity" = Some (Str "moderate").
Proof.
  apply (seizure_edit_unchanged Cases.day_of Cases.time_of Cases.night_seizure);
    first [discriminate | reflexivity].
Defined.

(** X16: the settings form at a server that refuses. *)
Lemma settings_submit_sample :
  rejected Cases.refusing (Client.updateUser (Settings.payload Sample.typed_form)) tt /\
  alerts (trace (snd (Settings.handleSubmit Cases.refusing Sample.typed_form
                        (mkWorld tt []))))
  = ["Failed to save settings. Please try again."].
Proof.
  split; [reflexivity|].
  destruct (settings_submit_reported Cases.refusing Sample.typed_form (mkWorld tt []))
    as (new & _ & _ & -> & _ & _ & H).
  exact (proj1 (H eq_refl)).
Defined.

(** X18: an export at a server that refuses. *)
Lemma export_sample :
  exists e,
    alerts (trace (snd (ExportPage.handleExport Cases.refusing
                          "2024-04-01" "2024-05-01" "json" (mkWorld tt []))))
    = ["Export failed: " +:+ ToString (or_else (detail e) (Str (message e)))] /\
    detail e = Str "No Garmin credentials".
Proof.
  destruct (export_reported Cases.refusing "2024-04-01" "2024-05-01" "json"
              (mkWorld tt []))
    as (new & _ & -> & _ & _ & _ & H).
  destruct (H eq_refl) as (e & He & _ & Ha).
  exists e. split; [exact Ha|].
  unfold detail. rewrite He. reflexivity.
Defined.

(** X19: the dashboard at a server that accepts. *)
Lemma handleSync_sample :
  accepted Cases.online (Client.syncGarminData Undefined Undefined) tt /\
  syncing (trace (snd (Dashboard.handleSync Cases.online 3 (mkWorld tt [])))) true
  = false /\
  alerts (trace (snd (Dashboard.handleSync Cases.online 3 (mkWorld tt [])))) = [].
Proof.
  assert (Ha : accepted Cases.online (Client.syncGarminData Undefined Undefined) tt).
  { eexists. split; reflexivity. }
  split; [exact Ha|].
  destruct (handleSync_settles Cases.online 3 (mkWorld tt []) true)
    as (new & _ & Ht & _ & Hs & H).
  split; [exact Hs|]. rewrite Ht. destruct (H Ha) as (Hal & _).
  simpl. rewrite alerts_app, Hal. reflexivity.
Defined.

(** X20: a manual sync at a server that accepts. *)
Lemma manual_sync_sample :
  shown_message
    (trace (snd (GarminData.handleManualSync Cases.online "2024-05-01" false
                   (mkWorld tt [])))) None
  = Some (mkMessage "success" (Str "Synced 1 day")).
Proof.
  destruct (manual_sync_message Cases.online "2024-05-01" false (mkWorld tt []) None)
    as (_ & _ & m & Hm & _ & _ & H & _).
  rewrite Hm. f_equal. exact (H _ _ eq_refl eq_refl eq_refl).
Defined.

(** X22: what a number input may hold besides digits. *)
Lemma amount_typed_sample :
  FoodForm.amount (Str "1e3") = Num 1 /\ FoodForm.amount (Str "1.5") = Num 1 /\
  FoodForm.amount (Str "250ml") = Num 250 /\
  FoodForm.amount (Str "9007199254740992") = Num (2 ^ 53) /\
  FoodForm.amount (Str (String Cases.nbsp "42")) = Num 42.
Proof.
  destruct amount_typed as (H & Hspace & _ & Hnbsp & _).
  split; [|split; [|split; [|split]]].
  - apply (H 1 "e3"); [lia | reflexivity].
  - apply (H 1 ".5"); [lia | reflexivity].
  - apply (H 250 "ml"); [lia | reflexivity].
  - apply (H (2 ^ 53) ""); [lia | exact I].
  - rewrite (Hspace Cases.nbsp "42" Hnbsp). apply (H 42 ""); [lia | exact I].
Defined.

(** X23: the food log and the food database. *)
Lemma imports_sample :
  Pages.imported "FoodLog.jsx" "getFoodDatabase" /\
  ("getFoodDatabase" ∉ fst <$> Client.exports) /\
  "createFoodEntry" ∈ fst <$> Client.exports.
Proof.
  assert (H : forall name,
            name ∈ ["createFoodEntry"; "getFoodDatabase"] ->
            Pages.imported "FoodLog.jsx" name).
  { intros name Hn. eexists. split; [do 4 right; left|].
    apply elem_of_cons in Hn as [->|Hn]; [repeat constructor|].
    apply elem_of_cons in Hn as [->|Hn]; [repeat constructor | inversion Hn]. }
  split; [apply H; repeat constructor|]. split.
  - intros Hin.
    apply (imports_resolved "FoodLog.jsx" "getFoodDatabase") in Hin;
      [|apply H; repeat constructor].
    apply Hin. left. split; [reflexivity | repeat constructor].
  - apply (imports_resolved "FoodLog.jsx" "createFoodEntry");
      [apply H; repeat constructor|].
    intros [[_ Hbad]|Hbad]; [|discriminate Hbad].
    repeat (apply elem_of_cons in Hbad as [Hbad|Hbad]; [discriminate Hbad|]).
    inversion Hbad.
Defined.

End MoreSamples.
